(** * X67 marketplace backend: ad lifecycle, ranking and payment handlers

    A shallow embedding of the request handlers of [server.py] that govern
    the ad lifecycle (detail fetch, update, top-up, listing order), the
    payment webhook and the admin user deletion, together with the session
    check they depend on, and of the handlers around them: registration,
    login and logout, creating and deleting an ad, the automatic top-up
    switch, moderation, payment verification, referrals, favorites and the
    managed categories and cities.

    Documents are Python dictionaries / MongoDB documents: finite maps from
    field names to JSON-like values.  A collection is the list of its
    documents in natural order.  A handler is a function of the state of
    the world (the database and the e-mail tasks scheduled so far) that
    returns the new state and either a value or a raised exception. *)

From stdpp Require Import gmap strings list pretty.
From Stdlib Require Import ZArith Lia Ascii String Sorted.

Local Open Scope string_scope.
Local Open Scope Z_scope.

(** ** Values *)

(** [VTime t] stands for the string [d.isoformat()] of the instant [d] that
    lies [t] microseconds after the epoch (the resolution of Python's
    [datetime]); [datetime.fromisoformat] maps it back to [t].  [VStr]
    carries every other string.  Numbers are integers; [now.timestamp()] is
    kept as the same microsecond count. *)
#[warnings="-register-all"]
Inductive value :=
  | VNone
  | VBool (b : bool)
  | VNum (n : Z)
  | VStr (s : string)
  | VTime (t : Z)
  | VList (l : list value)
  | VDict (d : gmap string value).

Abbreviation doc := (gmap string value).

Global Instance value_eq_dec : EqDecision value.
Proof.
  refine (fix go (x y : value) {struct x} : Decision (x = y) :=
    let _ : EqDecision value := @go in
    match x, y with
    | VNone, VNone => left _
    | VBool a, VBool b => cast_if (decide (a = b))
    | VNum a, VNum b => cast_if (decide (a = b))
    | VStr a, VStr b => cast_if (decide (a = b))
    | VTime a, VTime b => cast_if (decide (a = b))
    | VList a, VList b => cast_if (decide (a = b))
    | VDict a, VDict b => cast_if (decide (a = b))
    | _, _ => right _
    end); abstract congruence.
Defined.

(** Python's truth value of an object ([if x:], [not x], [x and y]). *)
Definition py_truthy (v : value) : bool :=
  match v with
  | VNone => false
  | VBool b => b
  | VNum n => negb (n =? 0)
  | VStr s => negb (String.eqb s "")
  | VTime _ => true
  | VList l => match l with [] => false | _ => true end
  | VDict d => negb (bool_decide (d = ∅))
  end.

(** [bool] is a subclass of [int] in Python: [True == 1]. *)
Fixpoint py_norm (v : value) : value :=
  match v with
  | VBool b => VNum (Z.b2z b)
  | VList l => VList (map py_norm l)
  | VDict d => VDict (py_norm <$> d)
  | _ => v
  end.

(** Python's [a == b]. *)
Definition py_eq (a b : value) : bool := bool_decide (py_norm a = py_norm b).

(** [d.get(k)] and [d.get(k, default)]. *)
Definition py_get (d : doc) (k : string) : value := default VNone (d !! k).
Definition py_get_default (d : doc) (k : string) (dflt : value) : value :=
  default dflt (d !! k).

(** [not d] for a dictionary that may be [None]. *)
Definition py_not_doc (o : option doc) : bool :=
  match o with
  | None => true
  | Some d => bool_decide (d = ∅)
  end.

(** [s.split(sep)] for a one-character separator. *)
Fixpoint split_on (sep : Ascii.ascii) (s : string) : list string :=
  match s with
  | EmptyString => [EmptyString]
  | String a s' =>
      if Ascii.eqb a sep then EmptyString :: split_on sep s'
      else match split_on sep s' with
           | w :: ws => String a w :: ws
           | [] => [String a EmptyString]
           end
  end.

(** Durations in microseconds. *)
Definition minute : Z := 60 * 1000000.
Definition timedelta_days (n : Z) : Z := n * 86400 * 1000000.

(** ** The document store *)

Record database := {
  ads : list doc;
  users : list doc;
  user_sessions : list doc;
  payments : list doc;
  favorites : list doc;
  conversations : list doc;
  messages : list doc;
  banners : list doc;
  managed_categories : list doc;
  managed_cities : list doc
}.

Definition with_ads (f : list doc → list doc) (s : database) : database :=
  {| ads := f (ads s); users := users s; user_sessions := user_sessions s;
     payments := payments s; favorites := favorites s;
     conversations := conversations s; messages := messages s;
     banners := banners s; managed_categories := managed_categories s;
     managed_cities := managed_cities s |}.

Definition with_users (f : list doc → list doc) (s : database) : database :=
  {| ads := ads s; users := f (users s); user_sessions := user_sessions s;
     payments := payments s; favorites := favorites s;
     conversations := conversations s; messages := messages s;
     banners := banners s; managed_categories := managed_categories s;
     managed_cities := managed_cities s |}.

Definition with_user_sessions (f : list doc → list doc) (s : database) : database :=
  {| ads := ads s; users := users s; user_sessions := f (user_sessions s);
     payments := payments s; favorites := favorites s;
     conversations := conversations s; messages := messages s;
     banners := banners s; managed_categories := managed_categories s;
     managed_cities := managed_cities s |}.

Definition with_payments (f : list doc → list doc) (s : database) : database :=
  {| ads := ads s; users := users s; user_sessions := user_sessions s;
     payments := f (payments s); favorites := favorites s;
     conversations := conversations s; messages := messages s;
     banners := banners s; managed_categories := managed_categories s;
     managed_cities := managed_cities s |}.

(** [{"$set": fields}]: the listed fields are written, the others kept. *)
Definition set_fields (fields : doc) (d : doc) : doc := fields ∪ d.

(** [{"$inc": {k: n}}] on a field that is absent or a number. *)
Definition inc_field (k : string) (n : Z) (d : doc) : doc :=
  match d !! k with
  | None => <[k := VNum n]> d
  | Some (VNum m) => <[k := VNum (m + n)]> d
  | Some _ => d
  end.

(** ** Handlers: state, scheduled e-mails and exceptions *)

(** One [asyncio.create_task(send_email_notification(to, template, data))]. *)
Record notification := {
  to_email : value;
  template_type : string;
  data : doc
}.

Record world := {
  db : database;
  sent : list notification
}.

Inductive detail :=
  | Detail (s : string)
  | DetailTopupWait (remaining : Z).

(** [Uncaught] is any exception other than [HTTPException] escaping the
    handler (the framework answers 500); it carries the exception class. *)
Inductive exn :=
  | HTTPException (status_code : Z) (d : detail)
  | Uncaught (cls : string).

Inductive result (A : Type) :=
  | Return (a : A)
  | Raise (e : exn).
Arguments Return {A} a.
Arguments Raise {A} e.

Definition handler (A : Type) : Type := world → world * result A.

Global Instance handler_ret : MRet handler := λ A a w, (w, Return a).
Global Instance handler_bind : MBind handler := λ A B f m w,
  match m w with
  | (w', Return a) => f a w'
  | (w', Raise e) => (w', Raise e)
  end.

Definition raise {A} (e : exn) : handler A := λ w, (w, Raise e).

Definition read {A} (f : database → A) : handler A := λ w, (w, Return (f (db w))).

Definition write (f : database → database) : handler unit :=
  λ w, ({| db := f (db w); sent := sent w |}, Return ()).

Definition create_task (n : notification) : handler unit :=
  λ w, ({| db := db w; sent := sent w ++ [n] |}, Return ()).

(** HTTP status of an outcome. *)
Definition status_of {A} (r : result A) : Z :=
  match r with
  | Return _ => 200
  | Raise (HTTPException c _) => c
  | Raise (Uncaught _) => 500
  end.

(** [d[k]]. *)
Definition getitem (d : doc) (k : string) : handler value :=
  match d !! k with
  | Some v => mret v
  | None => raise (Uncaught "KeyError")
  end.

(** [datetime.fromisoformat(v) if isinstance(v, str) else v], followed by
    the [.tzinfo] access of the callers. *)
Definition as_datetime (v : value) : handler Z :=
  match v with
  | VTime t => mret t
  | VStr _ => raise (Uncaught "ValueError")
  | _ => raise (Uncaught "AttributeError")
  end.

(** [v > 0]. *)
Definition py_gt_zero (v : value) : handler bool :=
  match v with
  | VNum n => mret (0 <? n)
  | VBool b => mret b
  | _ => raise (Uncaught "TypeError")
  end.

(** [v.get(k, default)] on an object that should be a dictionary. *)
Definition py_dict_get (v : value) (k : string) (dflt : value) : handler value :=
  match v with
  | VDict d => mret (default dflt (d !! k))
  | _ => raise (Uncaught "AttributeError")
  end.

(** [field in body]. *)
Definition py_contains (body : value) (field : string) : handler bool :=
  match body with
  | VDict d => mret (bool_decide (is_Some (d !! field)))
  | VList l => mret (existsb (py_eq (VStr field)) l)
  | VStr s => mret (match String.index 0 field s with Some _ => true | None => false end)
  | VTime _ => mret false
  | _ => raise (Uncaught "TypeError")
  end.

(** [body[field]] for a string [field]. *)
Definition py_subscript (body : value) (field : string) : handler value :=
  match body with
  | VDict d => getitem d field
  | _ => raise (Uncaught "TypeError")
  end.

(** Static taxonomy tables. *)
Record subcategory := { sub_id : string; sub_name : string }.
Record category := {
  cat_id : string;
  cat_name : string;
  cat_color : string;
  cat_subcategories : list subcategory
}.
Record city := { city_id : string; city_name : string; city_county : string }.

Definition VIEW_MILESTONES : list Z := [100; 500; 1000; 5000; 10000].

Record request := {
  cookies : gmap string string;
  headers : gmap string string;
  json : value
}.

Section Server.

Set Default Proof Using "Type".

(** Drops from the context whatever the goal does not mention. *)
Ltac forget_unused := repeat match goal with x : _ |- _ => clear x end.

(** The store decides whether a stored field (absent: [None]) satisfies the
    condition a filter gives for it. *)
Variable bson_match : value → option value → bool.

Definition matches (filter : doc) (d : doc) : bool :=
  bool_decide (map_Forall (λ k v, bson_match v (d !! k) = true) filter).

Definition find_one (filter : doc) (c : list doc) : option doc :=
  List.find (matches filter) c.

Fixpoint update_one (filter : doc) (upd : doc → doc) (c : list doc) : list doc :=
  match c with
  | [] => []
  | d :: c' =>
      if matches filter d then upd d :: c' else d :: update_one filter upd c'
  end.

Fixpoint delete_one (filter : doc) (c : list doc) : list doc :=
  match c with
  | [] => []
  | d :: c' => if matches filter d then c' else d :: delete_one filter c'
  end.

Definition delete_many (filter : doc) (c : list doc) : list doc :=
  List.filter (λ d, negb (matches filter d)) c.

(** *** Authentication *)

(** The token a request presents: the cookie first, then the
    [Authorization: Bearer] header. *)
Definition request_session_token (request : request) : handler string :=
  let session_token := default "" (cookies request !! "session_token") in
  if String.eqb session_token "" then
    match headers request !! "Authorization" with
    | Some auth_header =>
        if String.prefix "Bearer " auth_header then
          match split_on " " auth_header with
          | _ :: t :: _ => mret t
          | _ => raise (Uncaught "IndexError")
          end
        else mret session_token
    | None => mret session_token
    end
  else mret session_token.

Definition get_current_user (request : request) (t_now : Z) : handler (option doc) :=
  session_token ← request_session_token request;
  if String.eqb session_token "" then mret None else
  session ← read (λ s, find_one {[ "session_token" := VStr session_token ]} (user_sessions s));
  match session with
  | None => mret None
  | Some session =>
      if bool_decide (session = ∅) then mret None else
      expires_at ← as_datetime (py_get session "expires_at");
      if expires_at <? t_now then mret None else
      user_id ← getitem session "user_id";
      read (λ s, find_one {[ "user_id" := user_id ]} (users s))
  end.

Definition require_auth (request : request) (t_now : Z) : handler doc :=
  user ← get_current_user request t_now;
  match user with
  | Some user =>
      if bool_decide (user = ∅)
      then raise (HTTPException 401 (Detail "Not authenticated"))
      else mret user
  | None => raise (HTTPException 401 (Detail "Not authenticated"))
  end.

Definition require_admin (request : request) (t_now : Z) : handler doc :=
  user ← require_auth request t_now;
  if py_eq (py_get user "role") (VStr "admin") then mret user
  else raise (HTTPException 403 (Detail "Admin access required")).

(** *** Top-up *)

(** The handler reads the clock twice: [t_check] for the cooldown test and
    [t_now] for the stamp.  [time_since_topup] and [cooldown_minutes] are
    compared in whole microseconds, which is what the float comparison of
    the source decides at these magnitudes; [int(...)] truncates. *)
Definition topup_ad (ad_id : string) (request : request)
    (t_auth t_check t_now : Z) : handler value :=
  user ← require_auth request t_auth;
  ad ← read (λ s, find_one {[ "ad_id" := VStr ad_id ]} (ads s));
  match ad with
  | None => raise (HTTPException 404 (Detail "Ad not found"))
  | Some ad =>
      if bool_decide (ad = ∅) then raise (HTTPException 404 (Detail "Ad not found")) else
      ad_user ← getitem ad "user_id";
      user_id ← getitem user "user_id";
      if negb (py_eq ad_user user_id)
      then raise (HTTPException 403 (Detail "Not your ad")) else
      status ← getitem ad "status";
      if negb (py_eq status (VStr "active"))
      then raise (HTTPException 400 (Detail "Ad must be active to topup")) else
      let last_topup := py_get ad "last_topup" in
      (if py_truthy last_topup then
         last_topup_time ← as_datetime last_topup;
         let referral_count := py_get_default user "referral_count" (VNum 0) in
         has_referrals ← py_gt_zero referral_count;
         let cooldown_minutes := if (has_referrals : bool) then 40 else 60 in
         let time_since_topup := t_check - last_topup_time in
         if time_since_topup <? cooldown_minutes * minute then
           let remaining := Z.quot (cooldown_minutes * minute - time_since_topup) minute in
           raise (HTTPException 400 (DetailTopupWait remaining))
         else mret ()
       else mret ());;
      write (with_ads (update_one {[ "ad_id" := VStr ad_id ]}
        (set_fields {[ "last_topup" := VTime t_now; "topup_rank" := VNum t_now ]})));;
      has_referrals ← py_gt_zero (py_get_default user "referral_count" (VNum 0));
      mret (VDict {[ "message" := VStr "TopUp successful";
                     "next_topup_available_in" := VNum (if (has_referrals : bool) then 40 else 60) ]})
  end.

(** *** Listing *)

Definition opt_truthy (o : option string) : bool :=
  match o with
  | Some s => negb (String.eqb s "")
  | None => false
  end.

Definition dict_or_empty (o : option value) : doc :=
  match o with
  | Some (VDict d) => d
  | _ => ∅
  end.

(** The filter [get_ads] hands to [db.ads.find]. *)
Definition get_ads_query (category_id subcategory_id city_id search : option string)
    (min_price max_price : option Z) : doc :=
  let query : doc := {[ "status" := VStr "active" ]} in
  let query :=
    if opt_truthy category_id
    then <["category_id" := VStr (default "" category_id)]> query else query in
  let query :=
    if opt_truthy subcategory_id
    then <["subcategory_id" := VStr (default "" subcategory_id)]> query else query in
  let query :=
    if opt_truthy city_id
    then <["city_id" := VStr (default "" city_id)]> query else query in
  let query :=
    if opt_truthy search
    then <["$or" := VList
            [VDict {[ "title" := VDict {[ "$regex" := VStr (default "" search);
                                          "$options" := VStr "i" ]} ]};
             VDict {[ "description" := VDict {[ "$regex" := VStr (default "" search);
                                                "$options" := VStr "i" ]} ]}]]> query
    else query in
  let query :=
    match min_price with
    | Some m => <["price" := VDict (<["$gte" := VNum m]> (dict_or_empty (query !! "price")))]> query
    | None => query
    end in
  let query :=
    match max_price with
    | Some m => <["price" := VDict (<["$lte" := VNum m]> (dict_or_empty (query !! "price")))]> query
    | None => query
    end in
  query.

Definition sort_options : gmap string (list (string * Z)) :=
  {[ "newest" := [("topup_rank", -1); ("created_at", -1)];
     "oldest" := [("created_at", 1)];
     "price_low" := [("topup_rank", -1); ("price", 1)];
     "price_high" := [("topup_rank", -1); ("price", -1)];
     "boosted" := [("topup_rank", -1); ("is_boosted", -1);
                   ("boost_expires_at", -1); ("created_at", -1)] ]}.

(** The sort specification [get_ads] hands to the cursor. *)
Definition get_ads_sort_by (category_id : option string) (sort : string) : list (string * Z) :=
  let sort_by :=
    default [("topup_rank", -1); ("created_at", -1)] (sort_options !! sort) in
  if bool_decide (category_id = Some "escorts") then
    [("topup_rank", -1); ("is_boosted", -1)] ++
    List.filter (λ s, negb (bool_decide (s.1 ∈ ["topup_rank"; "is_boosted"]))) sort_by
  else sort_by.

(** *** Ad detail *)

Variable CATEGORIES : list category.
Variable ROMANIAN_CITIES : list city.

(** The [for milestone in VIEW_MILESTONES: ... break] loop of [get_ad]. *)
Fixpoint notify_milestone (milestones : list Z) (ad_id : string) (ad : doc)
    (old_views new_views : Z) : handler unit :=
  match milestones with
  | [] => mret ()
  | milestone :: rest =>
      if (old_views <? milestone) && (milestone <=? new_views) then
        owner ← read (λ s, delete "password_hash" <$>
                           find_one {[ "user_id" := py_get ad "user_id" ]} (users s));
        if negb (py_not_doc owner) && py_truthy (py_get (default ∅ owner) "email") then
          create_task
            {| to_email := py_get (default ∅ owner) "email";
               template_type := "views_milestone";
               data := {[ "user_name" := py_get_default (default ∅ owner) "name" (VStr "User");
                          "ad_title" := py_get_default ad "title" (VStr "Anunț");
                          "ad_id" := VStr ad_id;
                          "milestone" := VNum milestone;
                          "site_url" := VStr "https://x67digital.com" ]} |}
        else mret ()
      else notify_milestone rest ad_id ad old_views new_views
  end.

Definition enrich_category (ad : doc) : doc :=
  match List.find (λ c, py_eq (VStr (cat_id c)) (py_get ad "category_id")) CATEGORIES with
  | Some cat =>
      let ad := <["category_name" := VStr (cat_name cat)]> ad in
      let ad := <["category_color" := VStr (cat_color cat)]> ad in
      if py_truthy (py_get ad "subcategory_id") then
        match List.find (λ s, py_eq (VStr (sub_id s)) (py_get ad "subcategory_id"))
                        (cat_subcategories cat) with
        | Some subcat => <["subcategory_name" := VStr (sub_name subcat)]> ad
        | None => ad
        end
      else ad
  | None => ad
  end.

Definition enrich_city (ad : doc) : doc :=
  match List.find (λ c, py_eq (VStr (city_id c)) (py_get ad "city_id")) ROMANIAN_CITIES with
  | Some city =>
      <["city_county" := VStr (city_county city)]>
        (<["city_name" := VStr (city_name city)]> ad)
  | None => ad
  end.

Definition get_ad (ad_id : string) : handler value :=
  ad ← read (λ s, find_one {[ "ad_id" := VStr ad_id ]} (ads s));
  match ad with
  | None => raise (HTTPException 404 (Detail "Ad not found"))
  | Some ad =>
      if bool_decide (ad = ∅) then raise (HTTPException 404 (Detail "Ad not found")) else
      old_views ←
        match py_get_default ad "views" (VNum 0) with
        | VNum n => mret n
        | VBool b => mret (Z.b2z b)
        | _ => raise (Uncaught "TypeError")
        end;
      let new_views := old_views + 1 in
      match ad !! "views" with
      | None | Some (VNum _) =>
          write (with_ads (update_one {[ "ad_id" := VStr ad_id ]} (inc_field "views" 1)))
      | Some _ => raise (Uncaught "WriteError")
      end;;
      notify_milestone VIEW_MILESTONES ad_id ad old_views new_views;;
      let ad := enrich_category ad in
      let ad := enrich_city ad in
      user ← read (λ s, delete "password_hash" <$>
                        find_one {[ "user_id" := py_get ad "user_id" ]} (users s));
      let ad :=
        if py_not_doc user then ad
        else <["user_picture" := py_get (default ∅ user) "picture"]>
               (<["user_name" := py_get (default ∅ user) "name"]> ad) in
      mret (VDict ad)
  end.

(** *** Ad update *)

Definition updatable_fields : list string :=
  ["title"; "description"; "price"; "price_type"; "contact_phone";
   "contact_email"; "details"; "images"].

(** The [for field in [...]: if field in body: ...] loop of [update_ad]. *)
Fixpoint collect_fields (fields : list string) (body : value) (update_fields : doc)
    : handler doc :=
  match fields with
  | [] => mret update_fields
  | field :: rest =>
      present ← py_contains body field;
      if (present : bool) then
        v ← py_subscript body field;
        collect_fields rest body (<[field := v]> update_fields)
      else collect_fields rest body update_fields
  end.

Definition update_ad (ad_id : string) (request : request) (t_auth t_now : Z)
    : handler value :=
  user ← require_auth request t_auth;
  let body := json request in
  ad ← read (λ s, find_one {[ "ad_id" := VStr ad_id ]} (ads s));
  match ad with
  | None => raise (HTTPException 404 (Detail "Ad not found"))
  | Some ad =>
      if bool_decide (ad = ∅) then raise (HTTPException 404 (Detail "Ad not found")) else
      ad_user ← getitem ad "user_id";
      user_id ← getitem user "user_id";
      if negb (py_eq ad_user user_id) && negb (py_eq (py_get user "role") (VStr "admin"))
      then raise (HTTPException 403 (Detail "Not authorized")) else
      update_fields ← collect_fields updatable_fields body ∅;
      let update_fields := <["updated_at" := VTime t_now]> update_fields in
      write (with_ads (update_one {[ "ad_id" := VStr ad_id ]} (set_fields update_fields)));;
      mret (VDict {[ "message" := VStr "Ad updated" ]})
  end.

(** *** Payment webhook *)

(** [json.loads] of the standard library: [None] when it raises. *)
Variable json_loads : string → option value.

(** [json.loads] with its value on the handler's own default ["{}"]. *)
Definition loads (s : string) : option value :=
  if String.eqb s "{}" then Some (VDict ∅) else json_loads s.

(** [try: json.loads(merchant_trns) except: {}]. *)
Definition load_trns_data (merchant_trns : value) : value :=
  match merchant_trns with
  | VStr s => default (VDict ∅) (loads s)
  | _ => VDict ∅
  end.

(** [f"{amount / 100:.2f}"] for a whole number of minor units: the amount
    with two decimals, printed exactly (the float division and its
    formatting give the same digits below 10^15 minor units). *)
Definition amount_eur (amount : Z) : string :=
  let minor := Z.abs amount in
  (if amount <? 0 then "-" else "") +:+ pretty (minor / 100) +:+ "." +:+
  (if minor mod 100 <? 10 then "0" else "") +:+ pretty (minor mod 100).

Definition payment_webhook (request : request) (t_completed t_now : Z)
    : handler value :=
  let body := json request in
  event_data ← py_dict_get body "EventData" (VDict ∅);
  transaction_id ← py_dict_get event_data "TransactionId" VNone;
  order_code ← py_dict_get event_data "OrderCode" VNone;
  status_id ← py_dict_get event_data "StatusId" VNone;
  merchant_trns ← py_dict_get event_data "MerchantTrns" (VStr "{}");
  let trns_data := load_trns_data merchant_trns in
  ad_id ← py_dict_get trns_data "ad_id" VNone;
  payment_type ← py_dict_get trns_data "payment_type" VNone;
  (if py_eq status_id (VStr "F") then
     payment ← read (λ s, find_one {[ "order_code" := order_code ]} (payments s));
     write (with_payments (update_one {[ "order_code" := order_code ]}
       (set_fields {[ "status" := VStr "completed";
                      "transaction_id" := transaction_id;
                      "completed_at" := VTime t_completed ]})));;
     (if py_eq payment_type (VStr "post_ad") then
        write (with_ads (update_one {[ "ad_id" := ad_id ]}
          (set_fields {[ "is_paid" := VBool true; "status" := VStr "pending" ]})))
      else if py_eq payment_type (VStr "boost") then
        write (with_ads (update_one {[ "ad_id" := ad_id ]}
          (set_fields {[ "is_boosted" := VBool true;
                         "boost_expires_at" := VTime (t_now + timedelta_days 1) ]})))
      else if py_eq payment_type (VStr "promote") then
        write (with_ads (update_one {[ "ad_id" := ad_id ]}
          (set_fields {[ "is_promoted" := VBool true;
                         "promote_expires_at" := VTime (t_now + timedelta_days 7) ]})))
      else mret ());;
     if negb (py_not_doc payment) && py_truthy ad_id then
       ad ← read (λ s, find_one {[ "ad_id" := ad_id ]} (ads s));
       user ← read (λ s, find_one {[ "user_id" := py_get (default ∅ payment) "user_id" ]}
                                  (users s));
       if negb (py_not_doc user) && py_truthy (py_get (default ∅ user) "email") then
         (* the stored amount, in minor units *)
         amount ←
           match py_get_default (default ∅ payment) "amount" (VNum 0) with
           | VNum n => mret n
           | VBool b => mret (Z.b2z b)
           | _ => raise (Uncaught "TypeError")
           end;
         create_task
           {| to_email := py_get (default ∅ user) "email";
              template_type := "payment_success";
              data := {[ "user_name" := py_get_default (default ∅ user) "name" (VStr "User");
                         "payment_type" := payment_type;
                         "amount" := VStr (amount_eur amount);
                         "ad_title" := if py_not_doc ad then VStr "Anunț"
                                       else py_get_default (default ∅ ad) "title" (VStr "Anunț");
                         "ad_id" := ad_id;
                         "site_url" := VStr "https://x67digital.com" ]} |}
       else mret ()
     else mret ()
   else mret ());;
  mret (VDict {[ "status" := VStr "received" ]}).

(** *** Admin: delete a user *)

Definition admin_delete_user (user_id : string) (request : request) (t_auth : Z)
    : handler value :=
  admin ← require_admin request t_auth;
  admin_id ← getitem admin "user_id";
  if py_eq admin_id (VStr user_id)
  then raise (HTTPException 400 (Detail "Cannot delete your own account")) else
  write (with_ads (delete_many {[ "user_id" := VStr user_id ]}));;
  write (with_user_sessions (delete_many {[ "user_id" := VStr user_id ]}));;
  write (with_users (delete_one {[ "user_id" := VStr user_id ]}));;
  mret (VDict {[ "message" := VStr "User and all associated data deleted" ]}).

(** ** The remaining collections and store operations *)

Definition with_favorites (f : list doc → list doc) (s : database) : database :=
  {| ads := ads s; users := users s; user_sessions := user_sessions s;
     payments := payments s; favorites := f (favorites s);
     conversations := conversations s; messages := messages s;
     banners := banners s; managed_categories := managed_categories s;
     managed_cities := managed_cities s |}.

Definition with_managed_categories (f : list doc → list doc) (s : database) : database :=
  {| ads := ads s; users := users s; user_sessions := user_sessions s;
     payments := payments s; favorites := favorites s;
     conversations := conversations s; messages := messages s;
     banners := banners s; managed_categories := f (managed_categories s);
     managed_cities := managed_cities s |}.

Definition with_managed_cities (f : list doc → list doc) (s : database) : database :=
  {| ads := ads s; users := users s; user_sessions := user_sessions s;
     payments := payments s; favorites := favorites s;
     conversations := conversations s; messages := messages s;
     banners := banners s; managed_categories := managed_categories s;
     managed_cities := f (managed_cities s) |}.

(** [insert_one]: the new document comes last in natural order. *)
Definition insert_one (d : doc) (c : list doc) : list doc := c ++ [d].

Definition count_documents (filter : doc) (c : list doc) : Z :=
  Z.of_nat (List.length (List.filter (matches filter) c)).

(** [db.ads.update_one(filter, {"$inc": {k: n}})]: the store refuses to
    increment a field that holds something other than a number. *)
Definition inc_ads (filter : doc) (k : string) (n : Z) : handler unit :=
  target ← read (λ s, find_one filter (ads s));
  match target ≫= (.!! k) with
  | None | Some (VNum _) => write (with_ads (update_one filter (inc_field k n)))
  | Some _ => raise (Uncaught "WriteError")
  end.

(** *** Registration, login and logout *)

(** [hashlib.sha256(password.encode()).hexdigest()]. *)
Variable hash_password : string → string.

(** [register] and [login] answer with a JSON body and a [session_token]
    cookie: the pair of the body and the cookie's value.  The identifiers
    drawn from [uuid.uuid4()] and the clock readings are arguments. *)
Definition register (email password name : string) (phone : option string)
    (uuid_hex session_token : string) (t_created t_expires t_session : Z)
    : handler (value * string) :=
  existing ← read (λ s, find_one {[ "email" := VStr email ]} (users s));
  if negb (py_not_doc existing)
  then raise (HTTPException 400 (Detail "Email already registered")) else
  let user_id := "user_" +:+ uuid_hex in
  let user_doc : doc :=
    {[ "user_id" := VStr user_id;
       "email" := VStr email;
       "password_hash" := VStr (hash_password password);
       "name" := VStr name;
       "phone" := from_option VStr VNone phone;
       "picture" := VNone;
       "role" := VStr "user";
       "created_at" := VTime t_created ]} in
  write (with_users (insert_one user_doc));;
  let session_doc : doc :=
    {[ "user_id" := VStr user_id;
       "session_token" := VStr session_token;
       "expires_at" := VTime (t_expires + timedelta_days 7);
       "created_at" := VTime t_session ]} in
  write (with_user_sessions (insert_one session_doc));;
  create_task {| to_email := VStr email;
                 template_type := "welcome";
                 data := {[ "name" := VStr name;
                            "site_url" := VStr "https://x67digital.com" ]} |};;
  mret (VDict {[ "user_id" := VStr user_id; "email" := VStr email;
                 "name" := VStr name; "role" := VStr "user" ]},
        session_token).

Definition login (email password : string) (session_token : string)
    (t_expires t_session : Z) : handler (value * string) :=
  user ← read (λ s, find_one {[ "email" := VStr email ]} (users s));
  if py_not_doc user ||
     negb (py_eq (py_get (default ∅ user) "password_hash")
                 (VStr (hash_password password)))
  then raise (HTTPException 401 (Detail "Invalid credentials")) else
  let user := default ∅ user in
  user_id ← getitem user "user_id";
  let session_doc : doc :=
    {[ "user_id" := user_id;
       "session_token" := VStr session_token;
       "expires_at" := VTime (t_expires + timedelta_days 7);
       "created_at" := VTime t_session ]} in
  write (with_user_sessions (insert_one session_doc));;
  user_id ← getitem user "user_id";
  user_email ← getitem user "email";
  user_name ← getitem user "name";
  mret (VDict {[ "user_id" := user_id; "email" := user_email;
                 "name" := user_name;
                 "role" := py_get_default user "role" (VStr "user") ]},
        session_token).

(** [logout] reads the cookie only; its answer also clears the cookie. *)
Definition logout (request : request) : handler value :=
  let session_token := default "" (cookies request !! "session_token") in
  (if negb (String.eqb session_token "") then
     write (with_user_sessions (delete_one {[ "session_token" := VStr session_token ]}))
   else mret ());;
  mret (VDict {[ "message" := VStr "Logged out" ]}).

(** *** Creating and deleting an ad *)

Definition create_ad (request : request) (uuid_hex : string)
    (t_auth t_created t_updated : Z) : handler value :=
  user ← require_auth request t_auth;
  let body := json request in
  let ad_id := "ad_" +:+ uuid_hex in
  user_id ← getitem user "user_id";
  title ← py_dict_get body "title" VNone;
  description ← py_dict_get body "description" VNone;
  category_id ← py_dict_get body "category_id" VNone;
  subcategory_id ← py_dict_get body "subcategory_id" VNone;
  city_id ← py_dict_get body "city_id" VNone;
  price ← py_dict_get body "price" VNone;
  price_type ← py_dict_get body "price_type" (VStr "fixed");
  contact_phone ← py_dict_get body "contact_phone" VNone;
  user_email ← getitem user "email";
  contact_email ← py_dict_get body "contact_email" user_email;
  images ← py_dict_get body "images" (VList []);
  details ← py_dict_get body "details" (VDict ∅);
  let ad_doc : doc :=
    list_to_map
      [ ("ad_id", VStr ad_id);
        ("user_id", user_id);
        ("title", title);
        ("description", description);
        ("category_id", category_id);
        ("subcategory_id", subcategory_id);
        ("city_id", city_id);
        ("price", price);
        ("price_type", price_type);
        ("contact_phone", contact_phone);
        ("contact_email", contact_email);
        ("images", images);
        ("details", details);
        ("status", VStr "pending");
        ("is_boosted", VBool false);
        ("boost_expires_at", VNone);
        ("is_promoted", VBool false);
        ("promote_expires_at", VNone);
        ("views", VNum 0);
        ("is_paid", VBool false);
        ("auto_topup", VBool true);
        ("topup_rank", VNum 0);
        ("last_topup", VNone);
        ("created_at", VTime t_created);
        ("updated_at", VTime t_updated) ] in
  write (with_ads (insert_one ad_doc));;
  mret (VDict {[ "ad_id" := VStr ad_id; "status" := VStr "pending";
                 "message" := VStr "Ad created, pending payment and approval" ]}).

Definition delete_ad (ad_id : string) (request : request) (t_auth : Z)
    : handler value :=
  user ← require_auth request t_auth;
  ad ← read (λ s, find_one {[ "ad_id" := VStr ad_id ]} (ads s));
  match ad with
  | None => raise (HTTPException 404 (Detail "Ad not found"))
  | Some ad =>
      if bool_decide (ad = ∅) then raise (HTTPException 404 (Detail "Ad not found")) else
      ad_user ← getitem ad "user_id";
      user_id ← getitem user "user_id";
      if negb (py_eq ad_user user_id) && negb (py_eq (py_get user "role") (VStr "admin"))
      then raise (HTTPException 403 (Detail "Not authorized")) else
      write (with_ads (delete_one {[ "ad_id" := VStr ad_id ]}));;
      mret (VDict {[ "message" := VStr "Ad deleted" ]})
  end.

(** *** Payment verification *)

Definition verify_payment (order_code : Z) : handler value :=
  payment ← read (λ s, find_one {[ "order_code" := VNum order_code ]} (payments s));
  if py_not_doc payment then raise (HTTPException 404 (Detail "Payment not found")) else
  let payment := default ∅ payment in
  mret (VDict {[ "order_code" := VNum order_code;
                 "status" := py_get payment "status";
                 "payment_type" := py_get payment "payment_type";
                 "ad_id" := py_get payment "ad_id" ]}).

(** *** Referrals and automatic top-up *)

Definition track_referral (request : request) : handler value :=
  let body := json request in
  ref_code ← py_dict_get body "ref_code" VNone;
  if negb (py_truthy ref_code) then mret (VDict {[ "tracked" := VBool false ]}) else
  referrer ← read (λ s, find_one {[ "referral_code" := ref_code ]} (users s));
  if negb (py_not_doc referrer) then
    let referrer := default ∅ referrer in
    match referrer !! "referral_count" with
    | None | Some (VNum _) =>
        write (with_users (update_one {[ "referral_code" := ref_code ]}
                 (inc_field "referral_count" 1)))
    | Some _ => raise (Uncaught "WriteError")
    end;;
    referrer_id ← getitem referrer "user_id";
    mret (VDict {[ "tracked" := VBool true; "referrer_id" := referrer_id ]})
  else mret (VDict {[ "tracked" := VBool false ]}).

Definition toggle_auto_topup (ad_id : string) (request : request) (t_auth : Z)
    : handler value :=
  user ← require_auth request t_auth;
  let body := json request in
  ad ← read (λ s, find_one {[ "ad_id" := VStr ad_id ]} (ads s));
  match ad with
  | None => raise (HTTPException 404 (Detail "Ad not found"))
  | Some ad =>
      if bool_decide (ad = ∅) then raise (HTTPException 404 (Detail "Ad not found")) else
      ad_user ← getitem ad "user_id";
      user_id ← getitem user "user_id";
      if negb (py_eq ad_user user_id)
      then raise (HTTPException 403 (Detail "Not your ad")) else
      enabled ← py_dict_get body "enabled" (VBool true);
      write (with_ads (update_one {[ "ad_id" := VStr ad_id ]}
               (set_fields {[ "auto_topup" := enabled ]})));;
      mret (VDict {[ "message" := VStr ("Auto-topup " +:+
                                        (if py_truthy enabled then "enabled" else "disabled"));
                     "auto_topup" := enabled ]})
  end.

(** *** Admin: moderation of ads *)

(** [str(v)] for a value that is not a plain string. *)
Variable py_str : value → string.

(** [f"{v}"]. *)
Definition py_format (v : value) : string :=
  match v with
  | VStr s => s
  | _ => py_str v
  end.

Definition ad_statuses : list string := ["pending"; "active"; "rejected"; "expired"].

Definition admin_update_ad_status (ad_id : string) (request : request)
    (t_auth t_now : Z) : handler value :=
  _ ← require_admin request t_auth;
  let body := json request in
  new_status ← py_dict_get body "status" VNone;
  if negb (existsb (λ s, py_eq new_status (VStr s)) ad_statuses)
  then raise (HTTPException 400 (Detail "Invalid status")) else
  ad ← read (λ s, find_one {[ "ad_id" := VStr ad_id ]} (ads s));
  (if negb (py_not_doc ad) then
     let ad := default ∅ ad in
     user ← read (λ s, find_one {[ "user_id" := py_get ad "user_id" ]} (users s));
     if negb (py_not_doc user) && py_truthy (py_get (default ∅ user) "email") then
       let user := default ∅ user in
       let price_str :=
         if py_truthy (py_get ad "price") then py_format (py_get ad "price") +:+ " €"
         else "Preț la cerere" in
       let email_data : doc :=
         {[ "user_name" := py_get_default user "name" (VStr "User");
            "ad_title" := py_get_default ad "title" (VStr "Anunț");
            "ad_price" := VStr price_str;
            "ad_id" := VStr ad_id;
            "site_url" := VStr "https://x67digital.com" ]} in
       if py_eq new_status (VStr "active") then
         create_task {| to_email := py_get user "email";
                        template_type := "ad_approved"; data := email_data |}
       else if py_eq new_status (VStr "rejected") then
         create_task {| to_email := py_get user "email";
                        template_type := "ad_rejected"; data := email_data |}
       else mret ()
     else mret ()
   else mret ());;
  write (with_ads (update_one {[ "ad_id" := VStr ad_id ]}
           (set_fields {[ "status" := new_status; "updated_at" := VTime t_now ]})));;
  mret (VDict {[ "message" := VStr ("Ad status updated to " +:+ py_format new_status) ]}).

(** *** Favorites *)

(** [add_favorite] and [check_favorite] look the favorite up without a
    projection: the document found always carries its [_id], so it is
    truthy whenever it exists. *)
Definition add_favorite (ad_id : string) (request : request) (uuid_hex : string)
    (t_auth t_now : Z) : handler value :=
  user ← require_auth request t_auth;
  ad ← read (λ s, find_one {[ "ad_id" := VStr ad_id ]} (ads s));
  if py_not_doc ad then raise (HTTPException 404 (Detail "Ad not found")) else
  let ad := default ∅ ad in
  user_id ← getitem user "user_id";
  existing ← read (λ s, find_one {[ "user_id" := user_id; "ad_id" := VStr ad_id ]}
                                 (favorites s));
  match existing with
  | Some _ => raise (HTTPException 400 (Detail "Already in favorites"))
  | None =>
      let favorite_doc : doc :=
        {[ "favorite_id" := VStr ("fav_" +:+ uuid_hex);
           "user_id" := user_id;
           "ad_id" := VStr ad_id;
           "ad_price" := py_get ad "price";
           "created_at" := VTime t_now ]} in
      write (with_favorites (insert_one favorite_doc));;
      inc_ads {[ "ad_id" := VStr ad_id ]} "favorites_count" 1;;
      mret (VDict {[ "message" := VStr "Added to favorites";
                     "favorite_id" := VStr ("fav_" +:+ uuid_hex) ]})
  end.

Definition remove_favorite (ad_id : string) (request : request) (t_auth : Z)
    : handler value :=
  user ← require_auth request t_auth;
  user_id ← getitem user "user_id";
  found ← read (λ s, find_one {[ "user_id" := user_id; "ad_id" := VStr ad_id ]}
                              (favorites s));
  write (with_favorites (delete_one {[ "user_id" := user_id; "ad_id" := VStr ad_id ]}));;
  match found with
  | None => raise (HTTPException 404 (Detail "Favorite not found"))
  | Some _ =>
      inc_ads {[ "ad_id" := VStr ad_id ]} "favorites_count" (-1);;
      mret (VDict {[ "message" := VStr "Removed from favorites" ]})
  end.

Definition check_favorite (ad_id : string) (request : request) (t_auth : Z)
    : handler value :=
  user ← require_auth request t_auth;
  user_id ← getitem user "user_id";
  favorite ← read (λ s, find_one {[ "user_id" := user_id; "ad_id" := VStr ad_id ]}
                                 (favorites s));
  mret (VDict {[ "is_favorite" := VBool (bool_decide (is_Some favorite)) ]}).

(** *** Admin: managed categories and cities *)

Definition admin_delete_category (category_id : string) (request : request)
    (t_auth : Z) : handler value :=
  _ ← require_admin request t_auth;
  ads_count ← read (λ s, count_documents {[ "category_id" := VStr category_id ]} (ads s));
  if 0 <? ads_count then
    raise (HTTPException 400
      (Detail ("Cannot delete: " +:+ pretty ads_count +:+ " ads use this category")))
  else
  write (with_managed_categories (delete_one {[ "id" := VStr category_id ]}));;
  mret (VDict {[ "message" := VStr "Category deleted" ]}).

Definition admin_delete_city (city_id : string) (request : request)
    (t_auth : Z) : handler value :=
  _ ← require_admin request t_auth;
  ads_count ← read (λ s, count_documents {[ "city_id" := VStr city_id ]} (ads s));
  if 0 <? ads_count then
    raise (HTTPException 400
      (Detail ("Cannot delete: " +:+ pretty ads_count +:+ " ads use this city")))
  else
  write (with_managed_cities (delete_one {[ "id" := VStr city_id ]}));;
  mret (VDict {[ "message" := VStr "City deleted" ]}).

(** *** Pagination *)

(** The [pages] entry of every paginated listing:
    [(total + limit - 1) // limit]. *)
Definition pages (total limit : Z) : handler Z :=
  if limit =? 0 then raise (Uncaught "ZeroDivisionError")
  else mret ((total + limit - 1) / limit).

(** ** A concrete store and sample data for the examples *)

(** Equality conditions as MongoDB evaluates them on scalar identifiers:
    equal values match, [null] also matches an absent field, and an array
    field matches when it holds the value. *)
Definition bson_eq (cond : value) (field : option value) : bool :=
  match field with
  | None => bool_decide (cond = VNone)
  | Some (VList l) => bool_decide (VList l = cond) || bool_decide (cond ∈ l)
  | Some v => bool_decide (v = cond)
  end.

Definition dq : string := String "034"%char EmptyString.

(** The text [{"ad_id": "ad_1", "payment_type": "boost"}]. *)
Definition boost_blob : string :=
  "{" +:+ dq +:+ "ad_id" +:+ dq +:+ ": " +:+ dq +:+ "ad_1" +:+ dq +:+ ", " +:+
  dq +:+ "payment_type" +:+ dq +:+ ": " +:+ dq +:+ "boost" +:+ dq +:+ "}".

(** [json.loads] on the two texts the examples use. *)
Definition sample_json_loads (s : string) : option value :=
  if String.eqb s "[]" then Some (VList [])
  else if String.eqb s boost_blob
  then Some (VDict {[ "ad_id" := VStr "ad_1"; "payment_type" := VStr "boost" ]})
  else None.

Definition user_ana : doc :=
  {[ "user_id" := VStr "user_ana"; "email" := VStr "ana@example.ro";
     "name" := VStr "Ana"; "role" := VStr "user" ]}.
Definition user_bob : doc :=
  {[ "user_id" := VStr "user_bob"; "email" := VStr "bob@example.ro";
     "name" := VStr "Bob"; "role" := VStr "user"; "referral_count" := VNum 2 ]}.
Definition user_dan : doc :=
  {[ "user_id" := VStr "user_dan"; "email" := VNone;
     "name" := VStr "Dan"; "role" := VStr "user" ]}.
Definition user_root : doc :=
  {[ "user_id" := VStr "user_root"; "email" := VStr "root@example.ro";
     "name" := VStr "Root"; "role" := VStr "admin" ]}.

Definition session_of (user_id token : string) : doc :=
  {[ "user_id" := VStr user_id; "session_token" := VStr token;
     "expires_at" := VTime 9000000000 ]}.

Definition ad_bike : doc :=
  {[ "ad_id" := VStr "ad_1"; "user_id" := VStr "user_ana"; "title" := VStr "Bike";
     "status" := VStr "active"; "views" := VNum 99; "topup_rank" := VNum 0;
     "last_topup" := VNone ]}.
Definition ad_desk : doc :=
  {[ "ad_id" := VStr "ad_2"; "user_id" := VStr "user_bob"; "title" := VStr "Desk";
     "status" := VStr "pending"; "views" := VNum 5; "topup_rank" := VNum 0;
     "last_topup" := VNone ]}.
Definition ad_lamp : doc :=
  {[ "ad_id" := VStr "ad_3"; "user_id" := VStr "user_dan"; "title" := VStr "Lamp";
     "status" := VStr "active"; "views" := VNum 99 ]}.
Definition ad_sofa : doc :=
  {[ "ad_id" := VStr "ad_4"; "user_id" := VStr "user_bob"; "title" := VStr "Sofa";
     "status" := VStr "active"; "views" := VNum 7;
     "topup_rank" := VNum (10 * minute); "last_topup" := VTime (10 * minute) ]}.

Definition payment_boost : doc :=
  {[ "order_code" := VNum 77; "ad_id" := VStr "ad_1"; "user_id" := VStr "user_ana";
     "payment_type" := VStr "boost"; "amount" := VNum 700; "status" := VStr "pending" ]}.

Definition sample_db : database :=
  {| ads := [ad_bike; ad_desk; ad_lamp; ad_sofa];
     users := [user_ana; user_bob; user_dan; user_root];
     user_sessions := [session_of "user_ana" "tok_ana"; session_of "user_bob" "tok_bob";
                       session_of "user_root" "tok_root"];
     payments := [payment_boost];
     favorites := [{[ "user_id" := VStr "user_ana"; "ad_id" := VStr "ad_2" ]}];
     conversations := [];
     messages := [{[ "sender_id" := VStr "user_ana"; "content" := VStr "hello" ]}];
     banners := []; managed_categories := []; managed_cities := [] |}.

Definition sample_world : world := {| db := sample_db; sent := [] |}.

(** A request carrying a bearer token and a JSON body. *)
Definition bearer (token : string) (body : value) : request :=
  {| cookies := ∅; headers := {[ "Authorization" := "Bearer " +:+ token ]}; json := body |}.

(** ** Vocabulary of the statements *)

Definition referral_cooldown (user : doc) (c : Z) : Prop :=
  (user !! "referral_count" = None ∧ c = 60) ∨
  (∃ n, user !! "referral_count" = Some (VNum n) ∧ c = if 0 <? n then 40 else 60).

Definition topped_up (ad_id : string) (t_now : Z) (w : world) : world :=
  {| db := with_ads (update_one {[ "ad_id" := VStr ad_id ]}
             (set_fields {[ "last_topup" := VTime t_now; "topup_rank" := VNum t_now ]})) (db w);
     sent := sent w |}.

Definition take_field (body : doc) (update_fields : doc) (field : string) : doc :=
  match body !! field with
  | Some v => <[field := v]> update_fields
  | None => update_fields
  end.

(** The fields a completed payment writes to its ad. *)
Definition payment_effect (payment_type : value) (t_now : Z) : doc :=
  if py_eq payment_type (VStr "post_ad") then
    {[ "is_paid" := VBool true; "status" := VStr "pending" ]}
  else if py_eq payment_type (VStr "boost") then
    {[ "is_boosted" := VBool true;
       "boost_expires_at" := VTime (t_now + timedelta_days 1) ]}
  else if py_eq payment_type (VStr "promote") then
    {[ "is_promoted" := VBool true;
       "promote_expires_at" := VTime (t_now + timedelta_days 7) ]}
  else ∅.

Definition ad_owner (ad : doc) (s : database) : option doc :=
  delete "password_hash" <$> find_one {[ "user_id" := py_get ad "user_id" ]} (users s).

(** The guard [if owner and owner.get("email")]. *)
Definition owner_reachable (owner : option doc) : bool :=
  negb (py_not_doc owner) && py_truthy (py_get (default ∅ owner) "email").

Definition milestone_note (ad_id : string) (ad : doc) (owner : option doc)
    (milestone : Z) : notification :=
  {| to_email := py_get (default ∅ owner) "email";
     template_type := "views_milestone";
     data := {[ "user_name" := py_get_default (default ∅ owner) "name" (VStr "User");
                "ad_title" := py_get_default ad "title" (VStr "Anunț");
                "ad_id" := VStr ad_id;
                "milestone" := VNum milestone;
                "site_url" := VStr "https://x67digital.com" ]} |}.

Definition crossed (old_views new_views milestone : Z) : bool :=
  (old_views <? milestone) && (milestone <=? new_views).

Definition milestone_notes (milestones : list Z) (ad_id : string) (ad : doc)
    (owner : option doc) (old_views new_views : Z) : list notification :=
  match List.find (crossed old_views new_views) milestones with
  | Some milestone =>
      if owner_reachable owner then [milestone_note ad_id ad owner milestone] else []
  | None => []
  end.

Definition enrichment_fields : list string :=
  ["category_name"; "category_color"; "subcategory_name"; "city_name";
   "city_county"; "user_name"; "user_picture"].

Definition enrich_user (user : option doc) (ad : doc) : doc :=
  if py_not_doc user then ad
  else <["user_picture" := py_get (default ∅ user) "picture"]>
         (<["user_name" := py_get (default ∅ user) "name"]> ad).

Definition get_ad_response (ad : doc) (s : database) : doc :=
  let ad := enrich_city (enrich_category ad) in
  enrich_user (ad_owner ad s) ad.

Definition has_views (ad : doc) (n : Z) : Prop :=
  ad !! "views" = Some (VNum n) ∨ (ad !! "views" = None ∧ n = 0).

Definition with_status (ad_id : string) (st : value) (w : world) : world :=
  {| db := with_ads (update_one {[ "ad_id" := VStr ad_id ]} (<["status" := st]>)) (db w);
     sent := sent w |}.

Record attempt := {
  att_request : request;
  att_t_auth : Z;
  att_t_check : Z;
  att_t_now : Z
}.

Definition stored_field (ad_id field : string) (w : world) : option value :=
  ad ← find_one {[ "ad_id" := VStr ad_id ]} (ads (db w)); ad !! field.

(** The successful top-ups of a sequence of attempts on one ad, each with
    the state it leaves. *)
Fixpoint successful_topups (ad_id : string) (attempts : list attempt) (w : world)
    : list (attempt * world) :=
  match attempts with
  | [] => []
  | a :: rest =>
      let out := topup_ad ad_id (att_request a) (att_t_auth a)
                   (att_t_check a) (att_t_now a) w in
      match out.2 with
      | Return _ => (a, out.1) :: successful_topups ad_id rest out.1
      | Raise _ => successful_topups ad_id rest out.1
      end
  end.

Definition stamped (ad_id : string) (x : attempt * world) : Prop :=
  stored_field ad_id "topup_rank" x.2 = Some (VNum (att_t_now x.1)) ∧
  stored_field ad_id "last_topup" x.2 = Some (VTime (att_t_now x.1)).

Definition clock_forward (a : attempt) : Prop := att_t_check a ≤ att_t_now a.

(** Sample webhook deliveries and top-up attempts. *)
Definition boost_delivery : request :=
  {| cookies := ∅; headers := ∅;
     json := VDict {[ "EventData" := VDict
               {[ "TransactionId" := VStr "tx_1"; "OrderCode" := VNum 77;
                  "StatusId" := VStr "F"; "MerchantTrns" := VStr boost_blob ]} ]} |}.

Definition stray_delivery : request :=
  {| cookies := ∅; headers := ∅;
     json := VDict {[ "EventData" := VDict
               {[ "TransactionId" := VStr "tx_2"; "OrderCode" := VNum 77;
                  "StatusId" := VStr "X"; "MerchantTrns" := VStr "[]" ]} ]} |}.

(** A completed delivery whose correlation blob is the JSON array [[]]. *)
Definition lost_delivery : request :=
  {| cookies := ∅; headers := ∅;
     json := VDict {[ "EventData" := VDict
               {[ "TransactionId" := VStr "tx_4"; "OrderCode" := VNum 77;
                  "StatusId" := VStr "F"; "MerchantTrns" := VStr "[]" ]} ]} |}.

Definition sample_attempts : list attempt :=
  [ {| att_request := bearer "tok_bob" VNone; att_t_auth := 100;
       att_t_check := 60 * minute; att_t_now := 60 * minute + 1 |};
    {| att_request := bearer "tok_bob" VNone; att_t_auth := 100;
       att_t_check := 70 * minute; att_t_now := 70 * minute |};
    {| att_request := bearer "tok_ana" VNone; att_t_auth := 100;
       att_t_check := 200 * minute; att_t_now := 200 * minute |};
    {| att_request := bearer "tok_bob" VNone; att_t_auth := 100;
       att_t_check := 110 * minute; att_t_now := 110 * minute + 5 |} ].

(** A counter field that is either a stored number or absent (read as 0). *)
Definition has_count (d : doc) (k : string) (n : Z) : Prop :=
  d !! k = Some (VNum n) ∨ (d !! k = None ∧ n = 0).

(** Further sample data: a stand-in for the password hash and for [str],
    a request that carries the session cookie, a user with a referral code
    and her ad, and a completed [post_ad] delivery for Bob's sofa. *)
Definition sample_hash (password : string) : string := "sha256:" +:+ password.

Definition sample_str (v : value) : string :=
  match v with
  | VNone => "None"
  | VBool true => "True"
  | VBool false => "False"
  | VNum n => pretty n
  | _ => ""
  end.

Definition with_cookie (token : string) (body : value) : request :=
  {| cookies := {[ "session_token" := token ]}; headers := ∅; json := body |}.

Definition user_eve : doc :=
  {[ "user_id" := VStr "user_eve"; "email" := VStr "eve@example.ro";
     "name" := VStr "Eve"; "role" := VStr "user"; "referral_code" := VStr "ref_eve" ]}.

Definition ad_rug : doc :=
  {[ "ad_id" := VStr "ad_5"; "user_id" := VStr "user_eve"; "title" := VStr "Rug";
     "status" := VStr "active"; "views" := VNum 3; "favorites_count" := VNum 4;
     "topup_rank" := VNum 0; "last_topup" := VTime 0 ]}.

Definition referral_world : world :=
  {| db := {| ads := [ad_rug]; users := [user_eve];
              user_sessions := [session_of "user_eve" "tok_eve"];
              payments := []; favorites := []; conversations := []; messages := [];
              banners := []; managed_categories := []; managed_cities := [] |};
     sent := [] |}.

(** The text [{"ad_id": "ad_4", "payment_type": "post_ad"}]. *)
Definition post_ad_blob : string :=
  "{" +:+ dq +:+ "ad_id" +:+ dq +:+ ": " +:+ dq +:+ "ad_4" +:+ dq +:+ ", " +:+
  dq +:+ "payment_type" +:+ dq +:+ ": " +:+ dq +:+ "post_ad" +:+ dq +:+ "}".

Definition post_ad_json_loads (s : string) : option value :=
  if String.eqb s post_ad_blob
  then Some (VDict {[ "ad_id" := VStr "ad_4"; "payment_type" := VStr "post_ad" ]})
  else None.

Definition post_ad_delivery : request :=
  {| cookies := ∅; headers := ∅;
     json := VDict {[ "EventData" := VDict
               {[ "TransactionId" := VStr "tx_3"; "OrderCode" := VNum 78;
                  "StatusId" := VStr "F"; "MerchantTrns" := VStr post_ad_blob ]} ]} |}.

(** A store with managed categories and cities, some of them in use: two
    ads in category [auto], one of them in [cluj] and one in [iasi]; the
    category [books] is entered twice. *)
Definition ad_car : doc :=
  {[ "ad_id" := VStr "ad_6"; "user_id" := VStr "user_ana"; "title" := VStr "Car";
     "status" := VStr "active"; "category_id" := VStr "auto"; "city_id" := VStr "cluj" ]}.
Definition ad_van : doc :=
  {[ "ad_id" := VStr "ad_7"; "user_id" := VStr "user_ana"; "title" := VStr "Van";
     "status" := VStr "pending"; "category_id" := VStr "auto"; "city_id" := VStr "iasi" ]}.

Definition managed (id name : string) : doc :=
  {[ "id" := VStr id; "name" := VStr name ]}.

Definition taxonomy_world : world :=
  {| db := {| ads := [ad_car; ad_van]; users := [user_ana; user_root];
              user_sessions := [session_of "user_root" "tok_root"];
              payments := []; favorites := []; conversations := []; messages := [];
              banners := [];
              managed_categories := [managed "auto" "Auto"; managed "books" "Books";
                                     managed "books" "Books (second entry)"];
              managed_cities := [managed "cluj" "Cluj-Napoca"; managed "iasi" "Iasi";
                                 managed "arad" "Arad"] |};
     sent := [] |}.

(** ** Properties *)

Lemma bind_eq {A B} (m : handler A) (f : A → handler B) (w : world) :
  (m ≫= f) w =
  match m w with
  | (w', Return a) => f a w'
  | (w', Raise e) => (w', Raise e)
  end.
Proof. reflexivity. Qed.

Lemma bind_ret {A B} (a : A) (f : A → handler B) (w : world) :
  (mret a ≫= f) w = f a w.
Proof. reflexivity. Qed.

Lemma bind_raise {A B} (e : exn) (f : A → handler B) (w : world) :
  (raise e ≫= f) w = (w, Raise e).
Proof. reflexivity. Qed.

Lemma bind_read {A B} (g : database → A) (f : A → handler B) (w : world) :
  (read g ≫= f) w = f (g (db w)) w.
Proof. reflexivity. Qed.

Lemma bind_write {B} (g : database → database) (f : unit → handler B) (w : world) :
  (write g ≫= f) w = f () {| db := g (db w); sent := sent w |}.
Proof. reflexivity. Qed.

Lemma bind_getitem {B} (d : doc) (k : string) (v : value)
    (f : value → handler B) (w : world) :
  d !! k = Some v → (getitem d k ≫= f) w = f v w.
Proof. intros H. unfold getitem. rewrite H. reflexivity. Qed.

Lemma py_eq_str (v : value) (s : string) :
  py_eq v (VStr s) = bool_decide (v = VStr s).
Proof.
  unfold py_eq. apply bool_decide_ext.
  destruct v; simpl; split; intros H; try discriminate; try congruence.
Qed.

Lemma referral_cooldown_gt_zero (user : doc) (c : Z) :
  referral_cooldown user c →
  ∃ b : bool, py_gt_zero (py_get_default user "referral_count" (VNum 0)) = mret b
              ∧ (if b then 40 else 60) = c.
Proof.
  unfold py_get_default.
  intros [[-> ->]|(n & -> & ->)]; simpl.
  - exists false. split; reflexivity.
  - exists (0 <? n). split; reflexivity.
Qed.

(** C1. For an authenticated caller, [topup_ad] answers 404 when no ad
    carries the id; for the ad found, 403 when its [user_id] is not the
    caller's, 400 when it is the caller's and [status] is not ["active"],
    400 with the remaining minutes when it is active and [last_topup] lies
    within the cooldown, and succeeds (stamping the ad) when no
    [last_topup] is recorded or the cooldown has elapsed.  The cooldown
    [c] is 40 minutes when the caller's [referral_count] is positive and
    60 otherwise. *)
Theorem topup_ad_gate (w : world) (request : request) (ad_id : string)
    (t_auth t_check t_now : Z) (user : doc) :
  require_auth request t_auth w = (w, Return user) →
  let r := topup_ad ad_id request t_auth t_check t_now w in
  match find_one {[ "ad_id" := VStr ad_id ]} (ads (db w)) with
  | None => r = (w, Raise (HTTPException 404 (Detail "Ad not found")))
  | Some ad =>
      ∀ owner uid status,
        ad !! "user_id" = Some owner →
        user !! "user_id" = Some uid →
        ad !! "status" = Some status →
        (py_eq owner uid = false →
           r = (w, Raise (HTTPException 403 (Detail "Not your ad")))) ∧
        (py_eq owner uid = true → status ≠ VStr "active" →
           r = (w, Raise (HTTPException 400 (Detail "Ad must be active to topup")))) ∧
        (py_eq owner uid = true → status = VStr "active" →
           ∀ c, referral_cooldown user c →
             (∀ last, ad !! "last_topup" = Some (VTime last) →
                t_check - last < c * minute →
                r = (w, Raise (HTTPException 400
                       (DetailTopupWait (Z.quot (c * minute - (t_check - last)) minute))))) ∧
             (ad !! "last_topup" = None ∨ ad !! "last_topup" = Some VNone ∨
              (∃ last, ad !! "last_topup" = Some (VTime last) ∧ c * minute ≤ t_check - last) →
                r = (topped_up ad_id t_now w,
                     Return (VDict {[ "message" := VStr "TopUp successful";
                                      "next_topup_available_in" := VNum c ]}))))
  end.
Proof.
  intros Hauth r. subst r. unfold topup_ad.
  rewrite bind_eq, Hauth, bind_read.
  destruct (find_one _ (ads (db w))) as [ad|] eqn:Hfind; [|reflexivity].
  intros owner uid status Howner Huid Hstatus.
  assert (Hne : bool_decide (ad = ∅) = false).
  { apply bool_decide_eq_false. intros ->. rewrite lookup_empty in Howner. discriminate. }
  rewrite Hne, (bind_getitem _ _ _ _ _ Howner), (bind_getitem _ _ _ _ _ Huid).
  split; [|split].
  - intros ->. reflexivity.
  - intros -> Hst. cbn [negb]. rewrite (bind_getitem _ _ _ _ _ Hstatus), py_eq_str.
    rewrite bool_decide_eq_false_2 by assumption. reflexivity.
  - intros -> ->. cbn [negb]. rewrite (bind_getitem _ _ _ _ _ Hstatus), py_eq_str.
    rewrite bool_decide_eq_true_2 by reflexivity. cbn [negb].
    intros c Hc.
    destruct (referral_cooldown_gt_zero _ _ Hc) as (b & Hb & <-).
    unfold py_get. split.
    + intros last Hlast Hlt. rewrite Hlast. cbn [from_option id py_truthy as_datetime].
      rewrite bind_eq, bind_ret, Hb, bind_ret.
      apply Z.ltb_lt in Hlt. rewrite Hlt. reflexivity.
    + intros [Hl|[Hl|(last & Hl & Hge)]]; rewrite Hl; cbn [from_option id py_truthy as_datetime].
      * rewrite bind_ret, bind_write, Hb. reflexivity.
      * rewrite bind_ret, bind_write, Hb. reflexivity.
      * rewrite bind_eq, bind_ret, Hb, bind_ret.
        apply Z.ltb_ge in Hge. rewrite Hge.
        change ((mret () : handler unit) w) with (w, Return ()). cbv beta iota.
        rewrite bind_write. reflexivity.
Qed.

(** *** The store *)

Lemma matches_singleton (k : string) (v : value) (d : doc) :
  matches {[ k := v ]} d = bson_match v (d !! k).
Proof.
  unfold matches. destruct (bson_match v (d !! k)) eqn:E.
  - apply bool_decide_eq_true_2, map_Forall_singleton. exact E.
  - apply bool_decide_eq_false_2. intros H%map_Forall_singleton. congruence.
Qed.

Lemma matches_same_field (k : string) (v : value) (d d' : doc) :
  d' !! k = d !! k → matches {[ k := v ]} d' = matches {[ k := v ]} d.
Proof. intros H. rewrite !matches_singleton, H. reflexivity. Qed.

Lemma set_fields_lookup_other (fields d : doc) (k : string) :
  fields !! k = None → set_fields fields d !! k = d !! k.
Proof. intros H. unfold set_fields. apply lookup_union_r. exact H. Qed.

Lemma set_fields_lookup (fields d : doc) (k : string) (v : value) :
  fields !! k = Some v → set_fields fields d !! k = Some v.
Proof. intros H. unfold set_fields. apply lookup_union_Some_l. exact H. Qed.

Lemma find_one_update_one (filter : doc) (upd : doc → doc) (c : list doc) :
  (∀ d, matches filter (upd d) = matches filter d) →
  find_one filter (update_one filter upd c) = upd <$> find_one filter c.
Proof.
  intros Hupd. unfold find_one. induction c as [|d c IH]; [reflexivity|].
  simpl. destruct (matches filter d) eqn:E; simpl.
  - rewrite Hupd, E. reflexivity.
  - rewrite E. exact IH.
Qed.

Lemma find_one_None (filter : doc) (c : list doc) :
  find_one filter c = None ↔ ∀ d, d ∈ c → matches filter d = false.
Proof.
  unfold find_one. split.
  - intros H d Hd%list_elem_of_In. exact (find_none _ _ H d Hd).
  - intros H. induction c as [|d c IH]; [reflexivity|]. simpl.
    rewrite (H d) by left. apply IH. intros d' Hd'. apply H. right. exact Hd'.
Qed.

Lemma find_one_Some (filter : doc) (c : list doc) (d : doc) :
  find_one filter c = Some d → d ∈ c ∧ matches filter d = true.
Proof.
  unfold find_one. intros H%find_some. rewrite list_elem_of_In. exact H.
Qed.

Lemma elem_of_delete_many (filter : doc) (c : list doc) (d : doc) :
  d ∈ delete_many filter c ↔ d ∈ c ∧ matches filter d = false.
Proof.
  unfold delete_many. rewrite !list_elem_of_In, filter_In.
  destruct (matches filter d); simpl; intuition congruence.
Qed.

(** [update_one] rewrites the first match and nothing else. *)
Lemma update_one_first (filter : doc) (upd : doc → doc) (c : list doc) (d : doc) :
  find_one filter c = Some d →
  ∃ before after : list doc,
    c = (before ++ d :: after)%list ∧
    (∀ x, x ∈ before → matches filter x = false) ∧
    update_one filter upd c = (before ++ upd d :: after)%list.
Proof.
  unfold find_one. induction c as [|x c IH]; [discriminate|].
  simpl. destruct (matches filter x) eqn:E.
  - intros [= ->]. exists [], c. split; [reflexivity|]. split; [|reflexivity].
    intros y Hy. inversion Hy.
  - intros H. destruct (IH H) as (before & after & -> & Hb & Hu).
    exists (x :: before), after. split; [reflexivity|]. split.
    + intros y Hy. apply elem_of_cons in Hy as [->|Hy]; [exact E|exact (Hb y Hy)].
    + simpl. rewrite Hu. reflexivity.
Qed.

Lemma update_one_id (filter : doc) (upd : doc → doc) (c : list doc) :
  (∀ d, upd d = d) → update_one filter upd c = c.
Proof.
  intros Hid. induction c as [|x c IH]; [reflexivity|].
  simpl. destruct (matches filter x); [rewrite Hid|rewrite IH]; reflexivity.
Qed.

Lemma with_ads_update_one_id (filter : doc) (upd : doc → doc) (s : database) :
  (∀ d, upd d = d) → with_ads (update_one filter upd) s = s.
Proof.
  intros Hid. unfold with_ads. rewrite update_one_id by exact Hid.
  destruct s; reflexivity.
Qed.

Lemma update_one_no_match (filter : doc) (upd : doc → doc) (c : list doc) :
  find_one filter c = None → update_one filter upd c = c.
Proof.
  unfold find_one. induction c as [|x c IH]; [reflexivity|].
  simpl. destruct (matches filter x); [discriminate|].
  intros H. rewrite (IH H). reflexivity.
Qed.

(** *** Listing order (C2) *)

Lemma sort_options_cases (sort : string) :
  (sort = "oldest" ∧ sort_options !! sort = Some [("created_at", 1)]) ∨
  (sort ≠ "oldest" ∧
   ∃ rest, default [("topup_rank", -1); ("created_at", -1)] (sort_options !! sort)
           = ("topup_rank", -1) :: rest).
Proof.
  unfold sort_options.
  destruct (decide (sort = "oldest")) as [->|Hold]; [left; split; reflexivity|].
  right. split; [exact Hold|].
  repeat (rewrite lookup_insert; case_decide; [simpl; eauto; congruence|]).
  destruct (decide ("boosted" = sort)) as [<-|Hb].
  - rewrite lookup_singleton_eq. simpl. eauto.
  - rewrite lookup_singleton_ne by exact Hb. simpl. eauto.
Qed.

(** C2. In [get_ads] the filter always carries [status = "active"]; every
    sort mode other than ["oldest"] (the named modes [newest], [price_low],
    [price_high], [boosted], and any unknown mode, which falls back to
    [newest]) sorts by [topup_rank] descending first; ["oldest"] alone does
    not, outside the [escorts] category; and for [category_id = "escorts"]
    the first two sort keys are [topup_rank] descending then [is_boosted]
    descending whatever the requested mode, with no later key repeating
    them. *)
Theorem get_ads_order_and_status
    (category_id subcategory_id city_id search : option string)
    (min_price max_price : option Z) (sort : string) :
  get_ads_query category_id subcategory_id city_id search min_price max_price
    !! "status" = Some (VStr "active") ∧
  (sort ≠ "oldest" →
     ∃ rest, get_ads_sort_by category_id sort = ("topup_rank", -1) :: rest) ∧
  (sort ∈ ["newest"; "price_low"; "price_high"; "boosted"] → sort ≠ "oldest") ∧
  (category_id ≠ Some "escorts" →
     get_ads_sort_by category_id "oldest" = [("created_at", 1)]) ∧
  (category_id = Some "escorts" →
     ∃ rest, get_ads_sort_by category_id sort =
               ("topup_rank", -1) :: ("is_boosted", -1) :: rest ∧
             ∀ key, key ∈ rest → key.1 ≠ "topup_rank" ∧ key.1 ≠ "is_boosted").
Proof.
  forget_unused.
  split; [|split; [|split; [|split]]].
  - unfold get_ads_query.
    repeat match goal with
    | |- context [if ?b then _ else _] => destruct b
    | |- context [match ?o with Some _ => _ | None => _ end] => destruct o
    end;
    repeat (rewrite lookup_insert_ne by discriminate);
    apply lookup_singleton_eq.
  - intros Hsort. unfold get_ads_sort_by.
    case_bool_decide; [simpl; eauto|].
    destruct (sort_options_cases sort) as [[-> _]|[_ Hs]]; [congruence|exact Hs].
  - intros H Heq. subst sort. revert H. rewrite !elem_of_cons, elem_of_nil.
    intros [E|[E|[E|[E|[]]]]]; discriminate.
  - intros Hcat. unfold get_ads_sort_by.
    rewrite bool_decide_eq_false_2 by exact Hcat. reflexivity.
  - intros ->. unfold get_ads_sort_by.
    rewrite bool_decide_eq_true_2 by reflexivity. simpl.
    eexists. split; [reflexivity|].
    intros key Hkey%list_elem_of_In. apply filter_In in Hkey as [_ Hkey].
    apply negb_true_iff, bool_decide_eq_false in Hkey.
    rewrite !elem_of_cons, elem_of_nil in Hkey. tauto.
Qed.

(** *** Admin user deletion (C8, C9) *)

Lemma request_session_token_world (request : request) (w : world) :
  (request_session_token request w).1 = w.
Proof.
  unfold request_session_token.
  destruct (String.eqb _ ""); [|reflexivity].
  destruct (headers request !! "Authorization") as [h|]; [|reflexivity].
  destruct (String.prefix "Bearer " h); [|reflexivity].
  destruct (split_on " " h) as [|? [|? ?]]; reflexivity.
Qed.

Lemma get_current_user_world (request : request) (t : Z) (w : world) :
  (get_current_user request t w).1 = w.
Proof.
  unfold get_current_user. rewrite bind_eq.
  pose proof (request_session_token_world request w) as Htok.
  destruct (request_session_token request w) as [w1 [tok|e]]; simpl in Htok; subst w1;
    [|reflexivity].
  destruct (String.eqb tok ""); [reflexivity|].
  rewrite bind_read.
  destruct (find_one _ (user_sessions (db w))) as [session|]; [|reflexivity].
  destruct (bool_decide (session = ∅)); [reflexivity|].
  rewrite bind_eq.
  destruct (py_get session "expires_at"); try reflexivity.
  simpl. destruct (t0 <? t); [reflexivity|].
  rewrite bind_eq. unfold getitem.
  destruct (session !! "user_id"); reflexivity.
Qed.

Lemma require_auth_world (request : request) (t : Z) (w : world) :
  (require_auth request t w).1 = w.
Proof.
  unfold require_auth. rewrite bind_eq.
  pose proof (get_current_user_world request t w) as Hw.
  destruct (get_current_user request t w) as [w1 [[user|]|e]]; simpl in Hw; subst w1;
    try reflexivity.
  destruct (bool_decide (user = ∅)); reflexivity.
Qed.

Lemma require_admin_world (request : request) (t : Z) (w : world) :
  (require_admin request t w).1 = w.
Proof.
  unfold require_admin. rewrite bind_eq.
  pose proof (require_auth_world request t w) as Hw.
  destruct (require_auth request t w) as [w1 [user|e]]; simpl in Hw; subst w1;
    [|reflexivity].
  destruct (py_eq _ _); reflexivity.
Qed.

(** A request whose token selects no stored session is not authenticated. *)
Lemma require_auth_no_session (request : request) (t : Z) (w : world) (tok : string) :
  request_session_token request w = (w, Return tok) →
  find_one {[ "session_token" := VStr tok ]} (user_sessions (db w)) = None →
  require_auth request t w = (w, Raise (HTTPException 401 (Detail "Not authenticated"))).
Proof.
  intros Htok Hnone. unfold require_auth, get_current_user.
  rewrite !bind_eq, Htok.
  destruct (String.eqb tok ""); [reflexivity|].
  rewrite bind_read, Hnone. reflexivity.
Qed.

(** C9. An admin who names their own [user_id] gets 400 and the whole
    state (users, ads, sessions and everything else) is left as it was. *)
Theorem admin_delete_user_self (w : world) (request : request) (user_id : string)
    (t_auth : Z) (admin : doc) :
  require_admin request t_auth w = (w, Return admin) →
  admin !! "user_id" = Some (VStr user_id) →
  admin_delete_user user_id request t_auth w =
    (w, Raise (HTTPException 400 (Detail "Cannot delete your own account"))).
Proof.
  intros Hadmin Hid. unfold admin_delete_user.
  rewrite bind_eq, Hadmin, (bind_getitem _ _ _ _ _ Hid), py_eq_str.
  rewrite bool_decide_eq_true_2 by reflexivity. reflexivity.
Qed.

(** C8. Deleting another user removes every ad and every session whose
    [user_id] is that user and keeps all the others, then removes the user
    record; favorites, messages, conversations and payments are untouched.
    Afterwards a fetch of an ad id that only that user's ads carried
    answers 404, and a request whose token selected only that user's
    sessions answers 401. *)
Theorem admin_delete_user_cascade (w : world) (request : request) (user_id : string)
    (t_auth : Z) (admin : doc) (admin_id : value) :
  require_admin request t_auth w = (w, Return admin) →
  admin !! "user_id" = Some admin_id →
  py_eq admin_id (VStr user_id) = false →
  let by_user : doc := {[ "user_id" := VStr user_id ]} in
  let out := admin_delete_user user_id request t_auth w in
  let w' := out.1 in
  out.2 = Return (VDict {[ "message" := VStr "User and all associated data deleted" ]}) ∧
  (∀ d, d ∈ ads (db w') ↔ d ∈ ads (db w) ∧ matches by_user d = false) ∧
  (∀ d, d ∈ user_sessions (db w') ↔ d ∈ user_sessions (db w) ∧ matches by_user d = false) ∧
  users (db w') = delete_one by_user (users (db w)) ∧
  favorites (db w') = favorites (db w) ∧
  messages (db w') = messages (db w) ∧
  conversations (db w') = conversations (db w) ∧
  payments (db w') = payments (db w) ∧
  (∀ ad_id,
     (∀ d, d ∈ ads (db w) → matches {[ "ad_id" := VStr ad_id ]} d = true →
           matches by_user d = true) →
     get_ad ad_id w' = (w', Raise (HTTPException 404 (Detail "Ad not found")))) ∧
  (∀ request' t' tok,
     request_session_token request' w' = (w', Return tok) →
     (∀ s, s ∈ user_sessions (db w) → matches {[ "session_token" := VStr tok ]} s = true →
           matches by_user s = true) →
     require_auth request' t' w' =
       (w', Raise (HTTPException 401 (Detail "Not authenticated")))).
Proof.
  intros Hadmin Hid Hne by_user out w'.
  assert (Hout : out =
    ({| db := with_users (delete_one by_user)
                (with_user_sessions (delete_many by_user)
                   (with_ads (delete_many by_user) (db w)));
        sent := sent w |},
     Return (VDict {[ "message" := VStr "User and all associated data deleted" ]}))).
  { subst out. unfold admin_delete_user.
    rewrite bind_eq, Hadmin, (bind_getitem _ _ _ _ _ Hid), Hne.
    rewrite !bind_write. reflexivity. }
  subst w'. rewrite Hout. cbn [fst snd db ads user_sessions users favorites messages
    conversations payments with_users with_user_sessions with_ads].
  split; [reflexivity|].
  split; [intros d; apply elem_of_delete_many|].
  split; [intros d; apply elem_of_delete_many|].
  do 5 (split; [reflexivity|]).
  split.
  - intros ad_id Hall. unfold get_ad. rewrite bind_read. cbn [db ads with_users].
    replace (find_one _ _) with (@None doc); [reflexivity|].
    symmetry. apply find_one_None. intros d [Hd Hm]%elem_of_delete_many.
    destruct (matches {[ "ad_id" := VStr ad_id ]} d) eqn:E; [|reflexivity].
    pose proof (Hall d Hd E) as Hu. clear -Hm Hu. congruence.
  - intros request' t' tok Htok Hall.
    apply (require_auth_no_session _ _ _ tok); [exact Htok|].
    cbn [db user_sessions with_users].
    apply find_one_None. intros s [Hs Hm]%elem_of_delete_many.
    destruct (matches {[ "session_token" := VStr tok ]} s) eqn:E; [|reflexivity].
    pose proof (Hall s Hs E) as Hu. clear -Hm Hu. congruence.
Qed.

(** *** Ad update (C7) *)

Lemma collect_fields_dict (fields : list string) (body acc : doc) (w : world) :
  collect_fields fields (VDict body) acc w =
    (w, Return (fold_left (take_field body) fields acc)).
Proof.
  revert acc. induction fields as [|f fields IH]; intros acc; [reflexivity|].
  cbn [collect_fields fold_left]. unfold py_contains. rewrite bind_ret.
  unfold take_field at 2. unfold py_subscript, getitem.
  destruct (body !! f) as [v|] eqn:E.
  - rewrite bool_decide_eq_true_2 by eauto. rewrite bind_ret. apply IH.
  - rewrite bool_decide_eq_false_2 by (intros [? ?]; congruence). apply IH.
Qed.

Lemma fold_take_field_lookup (fields : list string) (body acc : doc) (k : string) :
  fold_left (take_field body) fields acc !! k =
    if bool_decide (k ∈ fields)
    then match body !! k with Some v => Some v | None => acc !! k end
    else acc !! k.
Proof.
  forget_unused.
  revert acc. induction fields as [|f fields IH]; intros acc; [reflexivity|].
  cbn [fold_left]. rewrite IH. unfold take_field.
  destruct (decide (k = f)) as [->|Hne].
  - rewrite (bool_decide_eq_true_2 (f ∈ f :: fields)) by left.
    destruct (body !! f) as [v|] eqn:E.
    + rewrite lookup_insert_eq. destruct (bool_decide _); reflexivity.
    + destruct (bool_decide _); reflexivity.
  - assert (Hiff : bool_decide (k ∈ f :: fields) = bool_decide (k ∈ fields)).
    { apply bool_decide_ext. rewrite elem_of_cons. tauto. }
    rewrite Hiff.
    destruct (body !! f) as [v|]; [rewrite lookup_insert_ne by congruence|]; reflexivity.
Qed.

(** C7. For an authenticated caller and a JSON object as body,
    [update_ad] answers 403 and changes nothing when the caller is neither
    the owner nor an admin; otherwise it rewrites the first ad carrying the
    id and nothing else in the database: [updated_at] is stamped, each of
    the eight updatable fields takes the body's value when the body has it
    and keeps its own otherwise, and every other field ([status],
    [is_paid], [is_boosted], [is_promoted], [topup_rank], [last_topup],
    [views], [user_id], [created_at], ...) is unchanged. *)
Theorem update_ad_frame (w : world) (request : request) (ad_id : string)
    (t_auth t_now : Z) (user ad body : doc) (owner uid : value) :
  require_auth request t_auth w = (w, Return user) →
  json request = VDict body →
  find_one {[ "ad_id" := VStr ad_id ]} (ads (db w)) = Some ad →
  ad !! "user_id" = Some owner →
  user !! "user_id" = Some uid →
  let out := update_ad ad_id request t_auth t_now w in
  (py_eq owner uid = false → py_get user "role" ≠ VStr "admin" →
     out = (w, Raise (HTTPException 403 (Detail "Not authorized")))) ∧
  (py_eq owner uid = true ∨ py_get user "role" = VStr "admin" →
     ∃ (ad' : doc) (before after : list doc),
       ads (db w) = (before ++ ad :: after)%list ∧
       out = ({| db := with_ads (λ _, (before ++ ad' :: after)%list) (db w);
                 sent := sent w |},
              Return (VDict {[ "message" := VStr "Ad updated" ]})) ∧
       ad' !! "updated_at" = Some (VTime t_now) ∧
       (∀ f, f ∈ updatable_fields →
             ad' !! f = match body !! f with Some v => Some v | None => ad !! f end) ∧
       (∀ f, f ∉ updatable_fields → f ≠ "updated_at" → ad' !! f = ad !! f)).
Proof.
  forget_unused.
  intros Hauth Hbody Hfind Howner Huid out. subst out. unfold update_ad.
  rewrite bind_eq, Hauth, bind_read, Hfind.
  assert (Hne : bool_decide (ad = ∅) = false).
  { apply bool_decide_eq_false. intros ->. rewrite lookup_empty in Howner. congruence. }
  rewrite Hne, (bind_getitem _ _ _ _ _ Howner), (bind_getitem _ _ _ _ _ Huid).
  rewrite py_eq_str. split.
  - intros -> Hrole.
    rewrite (bool_decide_eq_false_2 _ Hrole). reflexivity.
  - intros Hallowed.
    assert (Hgate : negb (py_eq owner uid) &&
                    negb (bool_decide (py_get user "role" = VStr "admin")) = false).
    { destruct Hallowed as [->|Hr]; [reflexivity|].
      rewrite (bool_decide_eq_true_2 _ Hr). apply andb_false_r. }
    rewrite Hgate, Hbody, bind_eq, collect_fields_dict, bind_write.
    set (fields := fold_left (take_field body) updatable_fields ∅).
    set (upd := <["updated_at" := VTime t_now]> fields).
    destruct (update_one_first _ (set_fields upd) _ _ Hfind)
      as (before & after & Hads & _ & Hupd).
    exists (set_fields upd ad), before, after.
    split; [exact Hads|]. split.
    { change ((mret (VDict {[ "message" := VStr "Ad updated" ]}) : handler value)
                {| db := with_ads (update_one {[ "ad_id" := VStr ad_id ]}
                                     (set_fields upd)) (db w);
                   sent := sent w |})
        with ({| db := with_ads (update_one {[ "ad_id" := VStr ad_id ]}
                                   (set_fields upd)) (db w);
                 sent := sent w |},
              Return (VDict {[ "message" := VStr "Ad updated" ]})).
      unfold with_ads. rewrite Hupd. reflexivity. }
    split; [apply set_fields_lookup, lookup_insert_eq|].
    split.
    + intros f Hf.
      assert (Hfu : f ≠ "updated_at").
      { intros ->. revert Hf. unfold updatable_fields.
        rewrite !elem_of_cons, elem_of_nil. intuition congruence. }
      unfold set_fields. rewrite lookup_union. subst upd.
      rewrite lookup_insert_ne by congruence. subst fields.
      rewrite fold_take_field_lookup, (bool_decide_eq_true_2 _ Hf), lookup_empty.
      destruct (body !! f), (ad !! f); reflexivity.
    + intros f Hf Hfu. apply set_fields_lookup_other. subst upd.
      rewrite lookup_insert_ne by congruence. subst fields.
      rewrite fold_take_field_lookup, (bool_decide_eq_false_2 _ Hf). apply lookup_empty.
Qed.

(** *** Payment webhook (C3, C5) *)

Lemma bind_dict_get {B} (d : doc) (k : string) (dflt : value)
    (f : value → handler B) (w : world) :
  (py_dict_get (VDict d) k dflt ≫= f) w = f (default dflt (d !! k)) w.
Proof. reflexivity. Qed.

Lemma load_trns_data_blob (blob : string) (v : value) :
  blob ≠ "{}" → json_loads blob = Some v → load_trns_data (VStr blob) = v.
Proof.
  intros Hne Hloads. unfold load_trns_data, loads.
  rewrite (proj2 (String.eqb_neq _ _) Hne), Hloads. reflexivity.
Qed.

(** Whatever the status of the delivery, a correlation blob that does not
    load to a JSON object stops the handler at [trns_data.get], before any
    read or write of the store. *)
Lemma payment_webhook_not_object (w : world) (request : request)
    (t_completed t_now : Z) (body ed : doc) :
  json request = VDict body →
  body !! "EventData" = Some (VDict ed) →
  (∀ d, load_trns_data (py_get_default ed "MerchantTrns" (VStr "{}")) ≠ VDict d) →
  payment_webhook request t_completed t_now w = (w, Raise (Uncaught "AttributeError")).
Proof.
  intros Hbody Hed Hnot. unfold payment_webhook.
  rewrite Hbody, bind_dict_get, Hed. cbn [default from_option id].
  rewrite !bind_dict_get. unfold py_get_default in Hnot.
  destruct (load_trns_data (default (VStr "{}") (ed !! "MerchantTrns"))) eqn:E;
    try reflexivity.
  exfalso. exact (Hnot _ eq_refl).
Qed.

(** The part of C5 that holds: a delivery whose status is not ["F"] leaves
    the whole state as it was, and is acknowledged when the correlation
    blob is absent, unparsable or a JSON object. *)
Lemma payment_webhook_other_status (w : world) (request : request)
    (t_completed t_now : Z) (body ed : doc) :
  json request = VDict body →
  py_get_default body "EventData" (VDict ∅) = VDict ed →
  py_get ed "StatusId" ≠ VStr "F" →
  (payment_webhook request t_completed t_now w).1 = w ∧
  (∀ trns, load_trns_data (py_get_default ed "MerchantTrns" (VStr "{}")) = VDict trns →
     payment_webhook request t_completed t_now w =
       (w, Return (VDict {[ "status" := VStr "received" ]}))).
Proof.
  intros Hbody Hed Hstatus. unfold payment_webhook.
  rewrite Hbody, bind_dict_get. unfold py_get_default in Hed. rewrite Hed.
  rewrite !bind_dict_get. unfold py_get in Hstatus.
  set (trns_data := load_trns_data _).
  split.
  - destruct trns_data; try reflexivity.
    rewrite !bind_dict_get, py_eq_str, (bool_decide_eq_false_2 _ Hstatus). reflexivity.
  - intros trns Htrns. unfold py_get_default in Htrns. subst trns_data. rewrite Htrns.
    rewrite !bind_dict_get, py_eq_str, (bool_decide_eq_false_2 _ Hstatus). reflexivity.
Qed.

(** C5 (the defect). A correlation blob that is valid JSON but not a JSON
    object (["[]"], ["null"], ["5"], ...) passes the [try]/[except] around
    [json.loads]; the following [trns_data.get] raises [AttributeError],
    so the gateway gets a 500 instead of the acknowledgment, whatever the
    status code of the delivery. *)
Theorem payment_webhook_non_object_blob (w : world) (request : request)
    (t_completed t_now : Z) (body ed : doc) (blob : string) (v : value) :
  json request = VDict body →
  body !! "EventData" = Some (VDict ed) →
  ed !! "MerchantTrns" = Some (VStr blob) →
  blob ≠ "{}" →
  json_loads blob = Some v →
  (∀ d, v ≠ VDict d) →
  payment_webhook request t_completed t_now w = (w, Raise (Uncaught "AttributeError")) ∧
  status_of (payment_webhook request t_completed t_now w).2 = 500.
Proof.
  intros Hbody Hed Hblob Hne Hloads Hv.
  assert (H : payment_webhook request t_completed t_now w =
              (w, Raise (Uncaught "AttributeError"))).
  { unfold payment_webhook. rewrite Hbody, bind_dict_get, Hed. cbn [default from_option id].
    rewrite !bind_dict_get, Hblob. cbn [default from_option id].
    unfold load_trns_data, loads.
    rewrite (proj2 (String.eqb_neq _ _) Hne), Hloads. cbn [default from_option id].
    destruct v; try reflexivity. exfalso. exact (Hv _ eq_refl). }
  rewrite H. split; reflexivity.
Qed.

Lemma payment_webhook_db (w : world) (request : request)
    (t_completed t_now : Z) (body ed trns : doc) :
  json request = VDict body →
  body !! "EventData" = Some (VDict ed) →
  ed !! "StatusId" = Some (VStr "F") →
  load_trns_data (py_get_default ed "MerchantTrns" (VStr "{}")) = VDict trns →
  db (payment_webhook request t_completed t_now w).1 =
    with_ads (update_one {[ "ad_id" := py_get trns "ad_id" ]}
                (set_fields (payment_effect (py_get trns "payment_type") t_now)))
      (with_payments (update_one {[ "order_code" := py_get ed "OrderCode" ]}
         (set_fields {[ "status" := VStr "completed";
                        "transaction_id" := py_get ed "TransactionId";
                        "completed_at" := VTime t_completed ]})) (db w)).
Proof.
  intros Hbody Hed Hstatus Htrns. unfold payment_webhook.
  rewrite Hbody, bind_dict_get, Hed. cbn [default from_option id].
  rewrite !bind_dict_get. unfold py_get_default in Htrns. rewrite Htrns.
  rewrite !bind_dict_get, Hstatus. cbn [default from_option id].
  rewrite py_eq_str, bool_decide_eq_true_2 by reflexivity.
  rewrite bind_eq, bind_read, bind_write.
  unfold payment_effect, py_get.
  set (payment_type := default VNone (trns !! "payment_type")).
  destruct (py_eq payment_type (VStr "post_ad"));
    [|destruct (py_eq payment_type (VStr "boost"));
      [|destruct (py_eq payment_type (VStr "promote"))]];
    cbv iota.
  4: { rewrite bind_ret, (with_ads_update_one_id _ (set_fields ∅))
         by apply (left_id_L ∅ (∪)).
       destruct (_ && _); [|reflexivity].
       rewrite !bind_read. destruct (_ && _); [|reflexivity].
       rewrite bind_eq.
       destruct (py_get_default _ "amount" (VNum 0)); reflexivity. }
  all: rewrite bind_write;
       (destruct (_ && _); [|reflexivity]);
       rewrite !bind_read; (destruct (_ && _); [|reflexivity]);
       rewrite bind_eq;
       destruct (py_get_default _ "amount" (VNum 0)); reflexivity.
Qed.

Lemma matches_set_fields (k : string) (v : value) (fields d : doc) :
  fields !! k = None →
  matches {[ k := v ]} (set_fields fields d) = matches {[ k := v ]} d.
Proof. intros H. apply matches_same_field, set_fields_lookup_other, H. Qed.

Lemma payment_effect_ad_id (payment_type : value) (t_now : Z) :
  payment_effect payment_type t_now !! "ad_id" = None.
Proof.
  unfold payment_effect.
  repeat (destruct (py_eq payment_type _));
    try (rewrite lookup_insert_ne by (clear; congruence);
         apply lookup_singleton_ne; clear; congruence).
  apply lookup_empty.
Qed.

(** The part of C3 that holds.  A delivery whose status is the literal
    ["F"] and whose correlation
    blob is absent, unparsable or a JSON object completes the payment
    found for the order code ([status = "completed"], the transaction id
    and the completion time are written, nothing else), and rewrites the
    ad found for the blob's [ad_id] by payment type: [post_ad] sets
    [is_paid = true] and [status = "pending"]; [boost] sets
    [is_boosted = true] and [boost_expires_at = now + 24 h]; [promote]
    sets [is_promoted = true] and [promote_expires_at = now + 7 d]; in
    each case every other field of the ad is kept. *)
Lemma payment_webhook_completed (w : world) (request : request)
    (t_completed t_now : Z) (body ed trns : doc) :
  json request = VDict body →
  body !! "EventData" = Some (VDict ed) →
  ed !! "StatusId" = Some (VStr "F") →
  load_trns_data (py_get_default ed "MerchantTrns" (VStr "{}")) = VDict trns →
  let by_order : doc := {[ "order_code" := py_get ed "OrderCode" ]} in
  let by_ad : doc := {[ "ad_id" := py_get trns "ad_id" ]} in
  let payment_type := py_get trns "payment_type" in
  let w' := (payment_webhook request t_completed t_now w).1 in
  (∀ p, find_one by_order (payments (db w)) = Some p →
     ∃ p', find_one by_order (payments (db w')) = Some p' ∧
           p' !! "status" = Some (VStr "completed") ∧
           p' !! "transaction_id" = Some (py_get ed "TransactionId") ∧
           p' !! "completed_at" = Some (VTime t_completed) ∧
           ∀ k, k ∉ ["status"; "transaction_id"; "completed_at"] → p' !! k = p !! k) ∧
  (∀ ad, find_one by_ad (ads (db w)) = Some ad →
     ∃ ad', find_one by_ad (ads (db w')) = Some ad' ∧
       (payment_type = VStr "post_ad" →
          ad' !! "is_paid" = Some (VBool true) ∧
          ad' !! "status" = Some (VStr "pending") ∧
          ∀ k, k ∉ ["is_paid"; "status"] → ad' !! k = ad !! k) ∧
       (payment_type = VStr "boost" →
          ad' !! "is_boosted" = Some (VBool true) ∧
          ad' !! "boost_expires_at" = Some (VTime (t_now + 24 * 60 * minute)) ∧
          ∀ k, k ∉ ["is_boosted"; "boost_expires_at"] → ad' !! k = ad !! k) ∧
       (payment_type = VStr "promote" →
          ad' !! "is_promoted" = Some (VBool true) ∧
          ad' !! "promote_expires_at" = Some (VTime (t_now + 7 * 24 * 60 * minute)) ∧
          ∀ k, k ∉ ["is_promoted"; "promote_expires_at"] → ad' !! k = ad !! k)).
Proof.
  intros Hbody Hed Hstatus Htrns by_order by_ad payment_type w'.
  pose proof (payment_webhook_db w request t_completed t_now body ed trns
                Hbody Hed Hstatus Htrns) as Hdb.
  fold w' in Hdb. rewrite Hdb. clear Hdb.
  cbn [ads payments with_ads with_payments]. fold by_order by_ad payment_type.
  split.
  - intros p Hp. eexists. split.
    + rewrite find_one_update_one, Hp; [reflexivity|].
      intros d. apply matches_set_fields.
      rewrite !lookup_insert_ne by (clear; congruence).
      apply lookup_singleton_ne. clear. congruence.
    + split; [apply set_fields_lookup, lookup_insert_eq|].
      split; [apply set_fields_lookup; rewrite lookup_insert_ne by (clear; congruence);
              apply lookup_insert_eq|].
      split; [apply set_fields_lookup; rewrite !lookup_insert_ne by (clear; congruence);
              apply lookup_singleton_eq|].
      intros k Hk. rewrite !elem_of_cons, elem_of_nil in Hk.
      apply set_fields_lookup_other.
      rewrite !lookup_insert_ne by (clear -Hk; intuition congruence).
      apply lookup_singleton_ne. clear -Hk. intuition congruence.
  - intros ad Had. eexists. split.
    + rewrite find_one_update_one, Had; [reflexivity|].
      intros d. apply matches_set_fields, payment_effect_ad_id.
    + unfold payment_effect. split; [|split]; intros ->.
      * rewrite py_eq_str, bool_decide_eq_true_2 by reflexivity.
        split; [apply set_fields_lookup, lookup_insert_eq|].
        split; [apply set_fields_lookup; rewrite lookup_insert_ne by (clear; congruence);
                apply lookup_singleton_eq|].
        intros k Hk. rewrite !elem_of_cons, elem_of_nil in Hk.
        apply set_fields_lookup_other.
        rewrite !lookup_insert_ne by (clear -Hk; intuition congruence).
        apply lookup_singleton_ne. clear -Hk. intuition congruence.
      * rewrite !py_eq_str.
        rewrite (bool_decide_eq_false_2 (VStr "boost" = VStr "post_ad"))
          by (clear; congruence).
        rewrite bool_decide_eq_true_2 by reflexivity.
        split; [apply set_fields_lookup, lookup_insert_eq|].
        split; [apply set_fields_lookup; rewrite lookup_insert_ne by (clear; congruence);
                apply lookup_singleton_eq|].
        intros k Hk. rewrite !elem_of_cons, elem_of_nil in Hk.
        apply set_fields_lookup_other.
        rewrite !lookup_insert_ne by (clear -Hk; intuition congruence).
        apply lookup_singleton_ne. clear -Hk. intuition congruence.
      * rewrite !py_eq_str.
        rewrite (bool_decide_eq_false_2 (VStr "promote" = VStr "post_ad"))
          by (clear; congruence).
        rewrite (bool_decide_eq_false_2 (VStr "promote" = VStr "boost"))
          by (clear; congruence).
        rewrite bool_decide_eq_true_2 by reflexivity.
        split; [apply set_fields_lookup, lookup_insert_eq|].
        split; [apply set_fields_lookup; rewrite lookup_insert_ne by (clear; congruence);
                apply lookup_singleton_eq|].
        intros k Hk. rewrite !elem_of_cons, elem_of_nil in Hk.
        apply set_fields_lookup_other.
        rewrite !lookup_insert_ne by (clear -Hk; intuition congruence).
        apply lookup_singleton_ne. clear -Hk. intuition congruence.
Qed.

(** C3 (the defect). A delivery whose status is the literal ["F"] and whose
    correlation blob is valid JSON but not a JSON object (["[]"],
    ["null"], ["5"], ...) is not processed: the blob passes the
    [try]/[except] around [json.loads], the following [trns_data.get]
    raises [AttributeError] before the payment is looked up, and so the
    payment found for the order code is not set to [completed], no ad is
    updated, and the gateway gets a 500. *)
Theorem payment_webhook_completed_not_object (w : world) (request : request)
    (t_completed t_now : Z) (body ed : doc) (blob : string) (v : value) :
  json request = VDict body →
  body !! "EventData" = Some (VDict ed) →
  ed !! "StatusId" = Some (VStr "F") →
  ed !! "MerchantTrns" = Some (VStr blob) →
  blob ≠ "{}" →
  json_loads blob = Some v →
  (∀ d, v ≠ VDict d) →
  let out := payment_webhook request t_completed t_now w in
  let by_order : doc := {[ "order_code" := py_get ed "OrderCode" ]} in
  out = (w, Raise (Uncaught "AttributeError")) ∧
  status_of out.2 = 500 ∧
  (∀ p, find_one by_order (payments (db w)) = Some p →
     p !! "status" ≠ Some (VStr "completed") →
     ∃ p', find_one by_order (payments (db out.1)) = Some p' ∧
           p' !! "status" ≠ Some (VStr "completed")) ∧
  ads (db out.1) = ads (db w).
Proof.
  intros Hbody Hed Hstatus Hblob Hne Hloads Hv out by_order.
  assert (Hout : out = (w, Raise (Uncaught "AttributeError"))).
  { subst out. apply (payment_webhook_not_object w request t_completed t_now body ed Hbody Hed).
    intros d. unfold py_get_default. rewrite Hblob. cbn [default from_option id].
    rewrite (load_trns_data_blob blob v Hne Hloads). apply Hv. }
  rewrite Hout. cbn [fst snd status_of].
  split; [reflexivity|]. split; [reflexivity|]. split; [|reflexivity].
  intros p Hp Hpending. exists p. split; assumption.
Qed.

(** *** Ad detail (C4, C10) *)

Lemma notify_milestone_spec (milestones : list Z) (ad_id : string) (ad : doc)
    (old_views new_views : Z) (w : world) :
  notify_milestone milestones ad_id ad old_views new_views w =
    ({| db := db w;
        sent := sent w ++ milestone_notes milestones ad_id ad (ad_owner ad (db w))
                            old_views new_views |},
     Return ()).
Proof.
  unfold milestone_notes.
  induction milestones as [|m ms IH]; cbn [notify_milestone List.find].
  - destruct w as [s l]. cbn. rewrite app_nil_r. reflexivity.
  - fold (crossed old_views new_views m).
    destruct (crossed old_views new_views m); [|exact IH].
    rewrite bind_read. fold (ad_owner ad (db w)).
    fold (owner_reachable (ad_owner ad (db w))).
    destruct (owner_reachable (ad_owner ad (db w))).
    + reflexivity.
    + destruct w as [s l]. cbn. rewrite app_nil_r. reflexivity.
Qed.

Lemma inc_field_lookup_ne (k k' : string) (n : Z) (d : doc) :
  k ≠ k' → inc_field k n d !! k' = d !! k'.
Proof.
  intros Hne. unfold inc_field.
  destruct (d !! k) as [[]|]; try reflexivity; apply lookup_insert_ne; exact Hne.
Qed.

Lemma has_views_inc (ad : doc) (n : Z) :
  has_views ad n → inc_field "views" 1 ad = <["views" := VNum (n + 1)]> ad.
Proof.
  unfold inc_field. intros [->|[-> ->]]; reflexivity.
Qed.

Lemma get_ad_found (w : world) (ad_id : string) (ad : doc) (n : Z) :
  find_one {[ "ad_id" := VStr ad_id ]} (ads (db w)) = Some ad →
  ad ≠ ∅ →
  has_views ad n →
  get_ad ad_id w =
    ({| db := with_ads (update_one {[ "ad_id" := VStr ad_id ]} (inc_field "views" 1)) (db w);
        sent := sent w ++ milestone_notes VIEW_MILESTONES ad_id ad (ad_owner ad (db w))
                            n (n + 1) |},
     Return (VDict (get_ad_response ad (db w)))).
Proof.
  intros Hfind Hne Hviews. unfold get_ad.
  rewrite bind_read, Hfind, (bool_decide_eq_false_2 _ Hne).
  assert (Hold : py_get_default ad "views" (VNum 0) = VNum n).
  { unfold py_get_default. destruct Hviews as [->|[-> ->]]; reflexivity. }
  rewrite Hold, bind_ret.
  assert (Hw : ∀ B (k : unit → handler B),
            (match ad !! "views" with
             | None | Some (VNum _) =>
                 write (with_ads (update_one {[ "ad_id" := VStr ad_id ]}
                                    (inc_field "views" 1)))
             | Some _ => raise (Uncaught "WriteError")
             end ≫= k) w =
            k () {| db := with_ads (update_one {[ "ad_id" := VStr ad_id ]}
                                      (inc_field "views" 1)) (db w);
                    sent := sent w |}).
  { intros B k. destruct Hviews as [->|[-> ->]]; reflexivity. }
  rewrite Hw, bind_eq, notify_milestone_spec. cbn [db sent].
  rewrite bind_read. reflexivity.
Qed.

Lemma crossed_spec (old_views new_views m : Z) :
  crossed old_views new_views m = true ↔ old_views < m ≤ new_views.
Proof. unfold crossed. rewrite andb_true_iff, Z.ltb_lt, Z.leb_le. tauto. Qed.

Lemma find_one_inc_views (ad_id : string) (c : list doc) (ad : doc) (n : Z) :
  find_one {[ "ad_id" := VStr ad_id ]} c = Some ad →
  has_views ad n →
  find_one {[ "ad_id" := VStr ad_id ]}
    (update_one {[ "ad_id" := VStr ad_id ]} (inc_field "views" 1) c)
  = Some (<["views" := VNum (n + 1)]> ad).
Proof.
  intros Hfind Hviews. rewrite find_one_update_one, Hfind.
  - cbn. rewrite (has_views_inc _ _ Hviews). reflexivity.
  - intros d. apply matches_same_field, inc_field_lookup_ne. clear. congruence.
Qed.

(** C4, as the code has it. Every fetch of an existing ad adds exactly one
    to [views]; it schedules at most one milestone e-mail, and it
    schedules one exactly when some milestone [m] of [VIEW_MILESTONES]
    satisfies [old_views < m <= old_views + 1] AND the owner's user
    record exists and carries a non-empty e-mail address; the e-mail is
    addressed to that owner and names the lowest crossed milestone. *)
Theorem get_ad_views_milestone (w : world) (ad_id : string) (ad : doc) (n : Z) :
  find_one {[ "ad_id" := VStr ad_id ]} (ads (db w)) = Some ad →
  ad ≠ ∅ →
  has_views ad n →
  let w' := (get_ad ad_id w).1 in
  let owner := ad_owner ad (db w) in
  find_one {[ "ad_id" := VStr ad_id ]} (ads (db w'))
    = Some (<["views" := VNum (n + 1)]> ad) ∧
  ∃ notes : list notification,
    sent w' = (sent w ++ notes)%list ∧
    (notes = [] ∨
     ∃ m, notes = [milestone_note ad_id ad owner m] ∧
          m ∈ VIEW_MILESTONES ∧ n < m ≤ n + 1 ∧
          ∀ m', m' ∈ VIEW_MILESTONES → n < m' ≤ n + 1 → m ≤ m') ∧
    (notes ≠ [] ↔
       (∃ m, m ∈ VIEW_MILESTONES ∧ n < m ≤ n + 1) ∧ owner_reachable owner = true).
Proof.
  intros Hfind Hne Hviews w' owner. subst w'.
  rewrite (get_ad_found _ _ _ _ Hfind Hne Hviews). cbn [fst db sent ads with_ads].
  split; [exact (find_one_inc_views _ _ _ _ Hfind Hviews)|].
  fold owner. eexists. split; [reflexivity|].
  unfold milestone_notes.
  destruct (List.find (crossed n (n + 1)) VIEW_MILESTONES) as [m|] eqn:Efind.
  - apply find_some in Efind as [Hin Hc]. apply list_elem_of_In in Hin.
    apply crossed_spec in Hc.
    destruct (owner_reachable owner) eqn:Eowner.
    + split.
      * right. exists m. split; [reflexivity|]. split; [exact Hin|].
        split; [lia|]. intros m' _ Hm'. lia.
      * split; [intros _; split; [exists m; split; [exact Hin|lia]|reflexivity]
               |intros _; clear; congruence].
    + split; [left; reflexivity|].
      split; [intros H; exfalso; apply H; reflexivity|].
      intros [_ H]. clear -H. congruence.
  - split; [left; reflexivity|].
    split; [intros H; exfalso; apply H; reflexivity|].
    intros [[m [Hin Hm]] _]. exfalso.
    apply list_elem_of_In in Hin.
    pose proof (find_none _ _ Efind m Hin) as Hc.
    apply crossed_spec in Hm. clear -Hc Hm. congruence.
Qed.

Lemma py_get_insert_ne (d : doc) (k k' : string) (v : value) :
  k ≠ k' → py_get (<[k := v]> d) k' = py_get d k'.
Proof. intros H. unfold py_get. rewrite lookup_insert_ne by exact H. reflexivity. Qed.

Lemma enrich_category_lookup (ad : doc) (k : string) :
  k ∉ enrichment_fields → enrich_category ad !! k = ad !! k.
Proof.
  unfold enrichment_fields. rewrite !elem_of_cons, elem_of_nil. intros Hk.
  unfold enrich_category.
  destruct (List.find _ CATEGORIES) as [cat|]; [|reflexivity].
  destruct (py_truthy _).
  - destruct (List.find _ (cat_subcategories cat));
      rewrite !lookup_insert_ne by (clear -Hk; intuition congruence); reflexivity.
  - rewrite !lookup_insert_ne by (clear -Hk; intuition congruence); reflexivity.
Qed.

Lemma enrich_city_lookup (ad : doc) (k : string) :
  k ∉ enrichment_fields → enrich_city ad !! k = ad !! k.
Proof.
  unfold enrichment_fields. rewrite !elem_of_cons, elem_of_nil. intros Hk.
  unfold enrich_city.
  destruct (List.find _ ROMANIAN_CITIES) as [c|]; [|reflexivity].
  rewrite !lookup_insert_ne by (clear -Hk; intuition congruence); reflexivity.
Qed.

Lemma enrich_user_lookup (user : option doc) (ad : doc) (k : string) :
  k ∉ enrichment_fields → enrich_user user ad !! k = ad !! k.
Proof.
  unfold enrichment_fields. rewrite !elem_of_cons, elem_of_nil. intros Hk.
  unfold enrich_user. destruct (py_not_doc user); [reflexivity|].
  rewrite !lookup_insert_ne by (clear -Hk; intuition congruence); reflexivity.
Qed.

Lemma enrich_category_keeps (ad : doc) (k : string) :
  is_Some (ad !! k) → is_Some (enrich_category ad !! k).
Proof.
  forget_unused.
  intros H. unfold enrich_category.
  destruct (List.find _ CATEGORIES) as [cat|]; [|exact H].
  destruct (py_truthy _); [destruct (List.find _ (cat_subcategories cat))|];
    rewrite ?lookup_insert_is_Some'; tauto.
Qed.

Lemma enrich_city_keeps (ad : doc) (k : string) :
  is_Some (ad !! k) → is_Some (enrich_city ad !! k).
Proof.
  forget_unused.
  intros H. unfold enrich_city.
  destruct (List.find _ ROMANIAN_CITIES) as [c|]; [|exact H].
  rewrite ?lookup_insert_is_Some'; tauto.
Qed.

Lemma enrich_user_keeps (user : option doc) (ad : doc) (k : string) :
  is_Some (ad !! k) → is_Some (enrich_user user ad !! k).
Proof.
  forget_unused.
  intros H. unfold enrich_user. destruct (py_not_doc user); [exact H|].
  rewrite ?lookup_insert_is_Some'; tauto.
Qed.

Lemma enrich_category_status (ad : doc) (st : value) :
  enrich_category (<["status" := st]> ad) = <["status" := st]> (enrich_category ad).
Proof.
  unfold enrich_category.
  rewrite (py_get_insert_ne ad "status" "category_id") by (clear; congruence).
  destruct (List.find _ CATEGORIES) as [cat|]; [|reflexivity].
  rewrite !(insert_insert_ne _ _ "status") by (clear; congruence).
  rewrite (py_get_insert_ne _ "status" "subcategory_id") by (clear; congruence).
  destruct (py_truthy _); [|reflexivity].
  destruct (List.find _ (cat_subcategories cat)); [|reflexivity].
  rewrite !(insert_insert_ne _ _ "status") by (clear; congruence). reflexivity.
Qed.

Lemma enrich_city_status (ad : doc) (st : value) :
  enrich_city (<["status" := st]> ad) = <["status" := st]> (enrich_city ad).
Proof.
  unfold enrich_city.
  rewrite (py_get_insert_ne ad "status" "city_id") by (clear; congruence).
  destruct (List.find _ ROMANIAN_CITIES) as [c|]; [|reflexivity].
  rewrite !(insert_insert_ne _ _ "status") by (clear; congruence). reflexivity.
Qed.

Lemma enrich_user_status (user : option doc) (ad : doc) (st : value) :
  enrich_user user (<["status" := st]> ad) = <["status" := st]> (enrich_user user ad).
Proof.
  unfold enrich_user. destruct (py_not_doc user); [reflexivity|].
  rewrite !(insert_insert_ne _ _ "status") by (clear; congruence). reflexivity.
Qed.

Lemma ad_owner_same_user (ad ad' : doc) (s : database) :
  ad' !! "user_id" = ad !! "user_id" → ad_owner ad' s = ad_owner ad s.
Proof. intros H. unfold ad_owner, py_get. rewrite H. reflexivity. Qed.

Lemma get_ad_response_status (ad : doc) (st : value) (s : database) :
  get_ad_response (<["status" := st]> ad) s = <["status" := st]> (get_ad_response ad s).
Proof.
  unfold get_ad_response.
  rewrite enrich_category_status, enrich_city_status, enrich_user_status.
  rewrite (ad_owner_same_user (enrich_city (enrich_category ad))); [reflexivity|].
  apply lookup_insert_ne. clear. congruence.
Qed.

Lemma update_one_commute (filter : doc) (f g : doc → doc) (c : list doc) :
  (∀ d, matches filter (f d) = matches filter d) →
  (∀ d, matches filter (g d) = matches filter d) →
  (∀ d, f (g d) = g (f d)) →
  update_one filter f (update_one filter g c) = update_one filter g (update_one filter f c).
Proof.
  intros Hf Hg Hfg. induction c as [|d c IH]; [reflexivity|].
  cbn [update_one]. destruct (matches filter d) eqn:E; cbn [update_one].
  - rewrite Hf, Hg, E, Hfg. reflexivity.
  - rewrite E, IH. reflexivity.
Qed.

Lemma inc_views_status (st : value) (d : doc) :
  inc_field "views" 1 (<["status" := st]> d) = <["status" := st]> (inc_field "views" 1 d).
Proof.
  unfold inc_field. rewrite lookup_insert_ne by (clear; congruence).
  destruct (d !! "views") as [[]|]; try reflexivity;
    apply insert_insert_ne; clear; congruence.
Qed.

(** C10. [get_ad] takes the ad id and nothing of the caller: there is no
    session check to pass.  For every existing ad, whatever its [status],
    the answer is 200 with the stored document (every stored field is in
    the response, and all but the seven display fields the handler
    overwrites carry the stored value), and [views] goes up by one.
    Replacing the stored status by any value [st], ["active"] included,
    changes the outcome in the [status] field alone. *)
Theorem get_ad_any_status (w : world) (ad_id : string) (ad : doc) (n : Z) :
  find_one {[ "ad_id" := VStr ad_id ]} (ads (db w)) = Some ad →
  ad ≠ ∅ →
  has_views ad n →
  let out := get_ad ad_id w in
  ∃ resp : doc,
    out.2 = Return (VDict resp) ∧
    (∀ k, k ∉ enrichment_fields → resp !! k = ad !! k) ∧
    (∀ k, is_Some (ad !! k) → is_Some (resp !! k)) ∧
    find_one {[ "ad_id" := VStr ad_id ]} (ads (db out.1))
      = Some (<["views" := VNum (n + 1)]> ad) ∧
    ∀ st, get_ad ad_id (with_status ad_id st w)
          = (with_status ad_id st out.1, Return (VDict (<["status" := st]> resp))).
Proof.
  intros Hfind Hne Hviews out. subst out.
  rewrite (get_ad_found _ _ _ _ Hfind Hne Hviews). cbn [fst snd db ads with_ads].
  exists (get_ad_response ad (db w)). split; [reflexivity|].
  split.
  { intros k Hk. unfold get_ad_response.
    rewrite enrich_user_lookup, enrich_city_lookup, enrich_category_lookup by exact Hk.
    reflexivity. }
  split.
  { intros k Hk. unfold get_ad_response.
    apply enrich_user_keeps, enrich_city_keeps, enrich_category_keeps, Hk. }
  split; [exact (find_one_inc_views _ _ _ _ Hfind Hviews)|].
  intros st.
  assert (Hst : ∀ d, matches {[ "ad_id" := VStr ad_id ]} (<["status" := st]> d)
                     = matches {[ "ad_id" := VStr ad_id ]} d).
  { intros d. apply matches_same_field, lookup_insert_ne. clear. congruence. }
  assert (Hfind' : find_one {[ "ad_id" := VStr ad_id ]} (ads (db (with_status ad_id st w)))
                   = Some (<["status" := st]> ad)).
  { cbn [with_status db ads with_ads]. rewrite find_one_update_one, Hfind by exact Hst.
    reflexivity. }
  assert (Hviews' : has_views (<["status" := st]> ad) n).
  { unfold has_views. rewrite lookup_insert_ne by (clear; congruence). exact Hviews. }
  rewrite (get_ad_found _ _ _ _ Hfind' (insert_non_empty _ _ _) Hviews').
  rewrite get_ad_response_status.
  assert (Howner : ad_owner (<["status" := st]> ad) (db (with_status ad_id st w))
                   = ad_owner ad (db w)).
  { unfold ad_owner. cbn [with_status db users with_ads].
    rewrite py_get_insert_ne by (clear; congruence). reflexivity. }
  rewrite Howner.
  assert (Hnotes : milestone_notes VIEW_MILESTONES ad_id (<["status" := st]> ad)
                     (ad_owner ad (db w)) n (n + 1)
                   = milestone_notes VIEW_MILESTONES ad_id ad (ad_owner ad (db w)) n (n + 1)).
  { unfold milestone_notes, milestone_note, py_get_default.
    rewrite lookup_insert_ne by (clear; congruence). reflexivity. }
  rewrite Hnotes. unfold with_status. cbn [db sent with_ads ads users user_sessions
    payments favorites conversations messages banners managed_categories managed_cities].
  change (get_ad_response ad (with_ads _ (db w))) with (get_ad_response ad (db w)).
  unfold with_ads. cbn [ads users user_sessions payments favorites conversations
    messages banners managed_categories managed_cities].
  rewrite update_one_commute;
    [reflexivity
    |intros d; apply matches_same_field, inc_field_lookup_ne; clear; congruence
    |exact Hst
    |intros d; apply inc_views_status].
Qed.

(** *** Top-up rank (C6) *)

Lemma topped_up_find (ad_id : string) (t_now : Z) (w : world) (ad : doc) :
  find_one {[ "ad_id" := VStr ad_id ]} (ads (db w)) = Some ad →
  find_one {[ "ad_id" := VStr ad_id ]} (ads (db (topped_up ad_id t_now w)))
  = Some (set_fields {[ "last_topup" := VTime t_now; "topup_rank" := VNum t_now ]} ad).
Proof.
  intros Hfind. unfold topped_up. cbn [db ads with_ads].
  rewrite find_one_update_one, Hfind; [reflexivity|].
  intros d. apply matches_set_fields.
  rewrite lookup_insert_ne by (clear; congruence).
  apply lookup_singleton_ne. clear. congruence.
Qed.

Lemma topped_up_stored (ad_id : string) (t_now : Z) (w : world) (ad : doc) :
  find_one {[ "ad_id" := VStr ad_id ]} (ads (db w)) = Some ad →
  stored_field ad_id "topup_rank" (topped_up ad_id t_now w) = Some (VNum t_now) ∧
  stored_field ad_id "last_topup" (topped_up ad_id t_now w) = Some (VTime t_now).
Proof.
  intros Hfind. unfold stored_field. rewrite (topped_up_find _ _ _ _ Hfind).
  cbn [mbind option_bind]. split; apply set_fields_lookup.
  - rewrite lookup_insert_ne by (clear; congruence). apply lookup_singleton_eq.
  - apply lookup_insert_eq.
Qed.

(** Every outcome of a top-up: either nothing is written and the request
    fails, or the ad is found and stamped; in the latter case, when the ad
    already carries a [last_topup], the cooldown has elapsed and the
    request succeeds. *)
Lemma topup_ad_cases (ad_id : string) (request : request)
    (t_auth t_check t_now : Z) (w : world) :
  let out := topup_ad ad_id request t_auth t_check t_now w in
  (out.1 = w ∧ ∃ e, out.2 = Raise e) ∨
  (out.1 = topped_up ad_id t_now w ∧
   ∃ ad, find_one {[ "ad_id" := VStr ad_id ]} (ads (db w)) = Some ad ∧
     (py_truthy (py_get ad "last_topup") = true →
        (∃ v, out.2 = Return v) ∧
        ∃ last, py_get ad "last_topup" = VTime last ∧ 40 * minute ≤ t_check - last)).
Proof.
  intros out. subst out. unfold topup_ad. rewrite bind_eq.
  pose proof (require_auth_world request t_auth w) as Hw.
  destruct (require_auth request t_auth w) as [w1 [user|e]]; cbn in Hw; subst w1;
    [|left; split; [reflexivity|eexists; reflexivity]].
  rewrite bind_read.
  destruct (find_one _ (ads (db w))) as [ad|] eqn:Hfind;
    [|left; split; [reflexivity|eexists; reflexivity]].
  destruct (bool_decide (ad = ∅)); [left; split; [reflexivity|eexists; reflexivity]|].
  unfold getitem.
  destruct (ad !! "user_id") as [owner|];
    [|left; split; [reflexivity|eexists; reflexivity]].
  rewrite bind_ret.
  destruct (user !! "user_id") as [uid|];
    [|left; split; [reflexivity|eexists; reflexivity]].
  rewrite bind_ret.
  destruct (negb (py_eq owner uid)); [left; split; [reflexivity|eexists; reflexivity]|].
  destruct (ad !! "status") as [status|];
    [|left; split; [reflexivity|eexists; reflexivity]].
  rewrite bind_ret.
  destruct (negb (py_eq status (VStr "active")));
    [left; split; [reflexivity|eexists; reflexivity]|].
  rewrite bind_eq.
  destruct (py_truthy (py_get ad "last_topup")) eqn:Htruthy.
  - rewrite bind_eq.
    destruct (py_get ad "last_topup") as [|?|?|?|last|?|?] eqn:Hlast;
      try (left; split; [reflexivity|eexists; reflexivity]).
    cbn [as_datetime]. change ((mret last : handler Z) w) with (w, Return last).
    cbv beta iota. rewrite bind_eq.
    destruct (py_gt_zero (py_get_default user "referral_count" (VNum 0)) w)
      as [w2 [has|e]] eqn:Hgz.
    2: { left. unfold py_gt_zero in Hgz.
         destruct (py_get_default user "referral_count" (VNum 0));
           inversion Hgz; subst; (split; [reflexivity|eexists; reflexivity]). }
    assert (w2 = w) as ->.
    { unfold py_gt_zero in Hgz.
      destruct (py_get_default user "referral_count" (VNum 0)); inversion Hgz; reflexivity. }
    destruct (t_check - last <? (if has then 40 else 60) * minute) eqn:Hlt;
      [left; split; [reflexivity|eexists; reflexivity]|].
    change ((mret () : handler unit) w) with (w, Return ()). cbv beta iota.
    rewrite bind_write, bind_eq.
    assert (Hgz' : py_gt_zero (py_get_default user "referral_count" (VNum 0))
                     {| db := with_ads (update_one {[ "ad_id" := VStr ad_id ]}
                          (set_fields {[ "last_topup" := VTime t_now;
                                         "topup_rank" := VNum t_now ]})) (db w);
                        sent := sent w |}
                   = ({| db := with_ads (update_one {[ "ad_id" := VStr ad_id ]}
                          (set_fields {[ "last_topup" := VTime t_now;
                                         "topup_rank" := VNum t_now ]})) (db w);
                         sent := sent w |}, Return has)).
    { unfold py_gt_zero in Hgz |- *.
      destruct (py_get_default user "referral_count" (VNum 0)); inversion Hgz; reflexivity. }
    rewrite Hgz'. right. split; [reflexivity|].
    exists ad. split; [reflexivity|]. intros _.
    split; [eexists; reflexivity|].
    exists last. split; [exact Hlast|].
    apply Z.ltb_ge in Hlt. unfold minute in *. destruct has; lia.
  - change ((mret () : handler unit) w) with (w, Return ()). cbv beta iota.
    rewrite bind_write, bind_eq.
    right. split.
    + unfold py_gt_zero.
      destruct (py_get_default user "referral_count" (VNum 0)); reflexivity.
    + exists ad. split; [reflexivity|]. intros H. clear -H Htruthy. congruence.
Qed.

Lemma successful_topups_after (ad_id : string) (attempts : list attempt) :
  ∀ (w : world) (t : Z),
    Forall clock_forward attempts →
    stored_field ad_id "last_topup" w = Some (VTime t) →
    let hist := successful_topups ad_id attempts w in
    Forall (stamped ad_id) hist ∧
    StronglySorted Z.lt (map (λ x, att_t_now x.1) hist) ∧
    Forall (λ x, t < att_t_now x.1) hist.
Proof.
  induction attempts as [|a rest IH]; intros w t Hclock Hlast hist; subst hist.
  { cbn. repeat split; constructor. }
  apply Forall_cons in Hclock as [Ha Hrest]. cbn [successful_topups].
  pose proof (topup_ad_cases ad_id (att_request a) (att_t_auth a) (att_t_check a)
                (att_t_now a) w) as Hcases.
  cbv zeta in Hcases.
  destruct (topup_ad ad_id (att_request a) (att_t_auth a) (att_t_check a) (att_t_now a) w)
    as [w' r].
  cbn [fst snd] in Hcases |- *.
  destruct Hcases as [[-> [e ->]]|[-> (ad & Hfind & Hcool)]].
  - exact (IH w t Hrest Hlast).
  - unfold stored_field in Hlast. rewrite Hfind in Hlast. cbn [mbind option_bind] in Hlast.
    assert (Hget : py_get ad "last_topup" = VTime t).
    { unfold py_get. rewrite Hlast. reflexivity. }
    rewrite Hget in Hcool.
    destruct (Hcool eq_refl) as [[v ->] (last & [= <-] & Hge)].
    destruct (topped_up_stored ad_id (att_t_now a) w ad Hfind) as [Hrank Hstamp].
    destruct (IH (topped_up ad_id (att_t_now a) w) (att_t_now a) Hrest Hstamp)
      as (Hst & Hsorted & Hbound).
    assert (Hlt : t < att_t_now a).
    { unfold clock_forward in Ha. unfold minute in Hge. lia. }
    split; [constructor; [split; assumption|exact Hst]|].
    split.
    + cbn [map]. constructor; [exact Hsorted|].
      apply Forall_map. exact Hbound.
    + constructor; [exact Hlt|].
      eapply Forall_impl; [exact Hbound|]. cbn beta. intros x Hx. lia.
Qed.

(** C6. In any sequence of top-up attempts on one ad, each attempt reading
    the clock for its stamp no earlier than for its cooldown check, every
    successful top-up leaves [topup_rank] and [last_topup] at the time it
    stamped, and these ranks increase strictly from each successful top-up
    to every later one. *)
Theorem topup_rank_increases (ad_id : string) (attempts : list attempt) (w : world) :
  Forall clock_forward attempts →
  let hist := successful_topups ad_id attempts w in
  Forall (stamped ad_id) hist ∧
  StronglySorted Z.lt (map (λ x, att_t_now x.1) hist).
Proof.
  revert w. induction attempts as [|a rest IH]; intros w Hclock hist; subst hist.
  { cbn. split; constructor. }
  apply Forall_cons in Hclock as [Ha Hrest]. cbn [successful_topups].
  pose proof (topup_ad_cases ad_id (att_request a) (att_t_auth a) (att_t_check a)
                (att_t_now a) w) as Hcases.
  cbv zeta in Hcases.
  destruct (topup_ad ad_id (att_request a) (att_t_auth a) (att_t_check a) (att_t_now a) w)
    as [w' r].
  cbn [fst snd] in Hcases |- *.
  destruct Hcases as [[-> [e ->]]|[-> (ad & Hfind & _)]].
  - exact (IH w Hrest).
  - destruct (topped_up_stored ad_id (att_t_now a) w ad Hfind) as [Hrank Hstamp].
    destruct (successful_topups_after ad_id rest (topped_up ad_id (att_t_now a) w)
                (att_t_now a) Hrest Hstamp) as (Hst & Hsorted & Hbound).
    destruct r as [v|e].
    + split; [constructor; [split; assumption|exact Hst]|].
      cbn [map]. constructor; [exact Hsorted|].
      apply Forall_map. exact Hbound.
    + split; assumption.
Qed.


(** *** The store: insertion, deletion and counting *)

Lemma find_one_app (filter : doc) (c c' : list doc) :
  find_one filter (c ++ c') =
  match find_one filter c with
  | Some d => Some d
  | None => find_one filter c'
  end.
Proof.
  unfold find_one. induction c as [|x c IH]; [reflexivity|].
  simpl. destruct (matches filter x); [reflexivity|exact IH].
Qed.

Lemma find_one_insert_one (filter : doc) (d : doc) (c : list doc) :
  find_one filter (insert_one d c) =
  match find_one filter c with
  | Some x => Some x
  | None => if matches filter d then Some d else None
  end.
Proof.
  unfold insert_one. rewrite find_one_app.
  destruct (find_one filter c); [reflexivity|].
  unfold find_one. simpl. destruct (matches filter d); reflexivity.
Qed.

Lemma delete_one_no_match (filter : doc) (c : list doc) :
  find_one filter c = None → delete_one filter c = c.
Proof.
  unfold find_one. induction c as [|x c IH]; [reflexivity|].
  simpl. destruct (matches filter x); [discriminate|].
  intros H. rewrite (IH H). reflexivity.
Qed.

(** [delete_one] removes the first match and nothing else. *)
Lemma delete_one_first (filter : doc) (c : list doc) (d : doc) :
  find_one filter c = Some d →
  ∃ before after : list doc,
    c = (before ++ d :: after)%list ∧
    (∀ x, x ∈ before → matches filter x = false) ∧
    delete_one filter c = (before ++ after)%list.
Proof.
  unfold find_one. induction c as [|x c IH]; [discriminate|].
  simpl. destruct (matches filter x) eqn:E.
  - intros [= ->]. exists [], c. split; [reflexivity|]. split; [|reflexivity].
    intros y Hy. inversion Hy.
  - intros H. destruct (IH H) as (before & after & -> & Hb & Hu).
    exists (x :: before), after. split; [reflexivity|]. split.
    + intros y Hy. apply elem_of_cons in Hy as [->|Hy]; [exact E|exact (Hb y Hy)].
    + simpl. rewrite Hu. reflexivity.
Qed.

Lemma delete_one_insert_one (filter : doc) (d : doc) (c : list doc) :
  find_one filter c = None → matches filter d = true →
  delete_one filter (insert_one d c) = c.
Proof.
  unfold find_one, insert_one. intros Hnone Hd.
  induction c as [|x c IH]; simpl.
  - rewrite Hd. reflexivity.
  - simpl in Hnone. destruct (matches filter x); [discriminate|].
    rewrite (IH Hnone). reflexivity.
Qed.

Lemma count_documents_nonneg (filter : doc) (c : list doc) :
  0 ≤ count_documents filter c.
Proof. unfold count_documents. lia. Qed.

Lemma count_documents_cons (filter : doc) (x : doc) (c : list doc) :
  count_documents filter (x :: c) =
  (if matches filter x then 1 else 0) + count_documents filter c.
Proof.
  unfold count_documents. simpl. destruct (matches filter x); simpl; lia.
Qed.

Lemma count_documents_zero (filter : doc) (c : list doc) :
  count_documents filter c = 0 ↔ find_one filter c = None.
Proof.
  induction c as [|x c IH]; [split; reflexivity|].
  rewrite count_documents_cons. unfold find_one in *. simpl.
  pose proof (count_documents_nonneg filter c) as Hc.
  destruct (matches filter x).
  - split; [lia|discriminate].
  - rewrite <- IH. split; lia.
Qed.

(** When at most one document matches, deleting one leaves no match. *)
Lemma find_one_delete_one_unique (filter : doc) (c : list doc) :
  count_documents filter c ≤ 1 →
  find_one filter (delete_one filter c) = None.
Proof.
  induction c as [|x c IH]; [reflexivity|].
  rewrite count_documents_cons. simpl.
  pose proof (count_documents_nonneg filter c) as Hc.
  destruct (matches filter x) eqn:E.
  - intros H. apply count_documents_zero. lia.
  - intros H. unfold find_one. simpl. rewrite E. apply IH. lia.
Qed.

Lemma elem_of_delete_one_other (filter : doc) (c : list doc) (d : doc) :
  d ∈ c → matches filter d = false → d ∈ delete_one filter c.
Proof.
  intros Hd Hm. induction c as [|x c IH]; [inversion Hd|].
  simpl. apply elem_of_cons in Hd as [->|Hd].
  - rewrite Hm. left.
  - destruct (matches filter x); [exact Hd|]. right. exact (IH Hd).
Qed.

Lemma matches_pair (k1 k2 : string) (v1 v2 : value) (d : doc) :
  k1 ≠ k2 →
  matches {[ k1 := v1; k2 := v2 ]} d =
  bson_match v1 (d !! k1) && bson_match v2 (d !! k2).
Proof.
  intros Hne. unfold matches.
  destruct (bson_match v1 (d !! k1)) eqn:E1, (bson_match v2 (d !! k2)) eqn:E2; simpl.
  - apply bool_decide_eq_true_2. apply map_Forall_insert_2; [exact E1|].
    apply map_Forall_singleton. exact E2.
  - apply bool_decide_eq_false_2. intros H.
    pose proof (H k2 v2) as H2. rewrite lookup_insert_ne, lookup_singleton_eq in H2
      by exact Hne.
    specialize (H2 eq_refl). clear -H2 E2. congruence.
  - apply bool_decide_eq_false_2. intros H.
    pose proof (H k1 v1) as H1. rewrite lookup_insert_eq in H1.
    specialize (H1 eq_refl). clear -H1 E1. congruence.
  - apply bool_decide_eq_false_2. intros H.
    pose proof (H k1 v1) as H1. rewrite lookup_insert_eq in H1.
    specialize (H1 eq_refl). clear -H1 E1. congruence.
Qed.

(** *** Authentication *)

Lemma request_session_token_cookie (request : request) (w : world) (tok : string) :
  cookies request !! "session_token" = Some tok → tok ≠ "" →
  request_session_token request w = (w, Return tok).
Proof.
  intros Hc Hne. unfold request_session_token. rewrite Hc. cbn [default from_option id].
  rewrite (proj2 (String.eqb_neq _ _) Hne). reflexivity.
Qed.

(** What a successful authentication has checked. *)
Lemma get_current_user_found (request : request) (t : Z) (w : world)
    (tok : string) (session : doc) (e : Z) (uid : value) :
  request_session_token request w = (w, Return tok) → tok ≠ "" →
  find_one {[ "session_token" := VStr tok ]} (user_sessions (db w)) = Some session →
  session !! "expires_at" = Some (VTime e) →
  session !! "user_id" = Some uid →
  get_current_user request t w =
    (w, Return (if e <? t then None else find_one {[ "user_id" := uid ]} (users (db w)))).
Proof.
  intros Htok Hne Hs He Hu. unfold get_current_user.
  rewrite bind_eq, Htok, (proj2 (String.eqb_neq _ _) Hne), bind_read, Hs.
  rewrite bool_decide_eq_false_2.
  2: { intros ->. rewrite lookup_empty in He. discriminate. }
  unfold py_get. rewrite He. cbn [default from_option id as_datetime].
  rewrite bind_ret. destruct (e <? t); [reflexivity|].
  rewrite (bind_getitem _ _ _ _ _ Hu). reflexivity.
Qed.

Lemma require_auth_found (request : request) (t : Z) (w : world)
    (tok : string) (session : doc) (e : Z) (uid : value) (user : doc) :
  request_session_token request w = (w, Return tok) → tok ≠ "" →
  find_one {[ "session_token" := VStr tok ]} (user_sessions (db w)) = Some session →
  session !! "expires_at" = Some (VTime e) → t ≤ e →
  session !! "user_id" = Some uid →
  find_one {[ "user_id" := uid ]} (users (db w)) = Some user → user ≠ ∅ →
  require_auth request t w = (w, Return user).
Proof.
  intros Htok Hne Hs He Hle Hu Hfind Hnonempty. unfold require_auth.
  rewrite bind_eq, (get_current_user_found _ _ _ _ _ _ _ Htok Hne Hs He Hu).
  rewrite (proj2 (Z.ltb_ge _ _) Hle), Hfind.
  rewrite (bool_decide_eq_false_2 _ Hnonempty). reflexivity.
Qed.

Lemma request_session_token_indep (request : request) :
  ∃ r, ∀ w, request_session_token request w = (w, r).
Proof.
  unfold request_session_token.
  destruct (String.eqb _ ""); [|eexists; reflexivity].
  destruct (headers request !! "Authorization") as [h|]; [|eexists; reflexivity].
  destruct (String.prefix "Bearer " h); [|eexists; reflexivity].
  destruct (split_on " " h) as [|? [|? ?]]; eexists; reflexivity.
Qed.

(** Authentication reads the sessions and the users, nothing else. *)
Lemma get_current_user_frame (request : request) (t : Z) (w w' : world) :
  users (db w') = users (db w) →
  user_sessions (db w') = user_sessions (db w) →
  (get_current_user request t w').2 = (get_current_user request t w).2.
Proof.
  intros Hu Hs. unfold get_current_user. rewrite !bind_eq.
  destruct (request_session_token_indep request) as [r Hr]. rewrite !Hr.
  destruct r as [tok|e]; [|reflexivity].
  destruct (String.eqb tok ""); [reflexivity|].
  rewrite !bind_read, Hs.
  destruct (find_one _ (user_sessions (db w))) as [session|]; [|reflexivity].
  destruct (bool_decide (session = ∅)); [reflexivity|].
  destruct (py_get session "expires_at"); cbn [as_datetime];
    rewrite ?bind_raise, ?bind_ret; try reflexivity.
  destruct (_ <? t); [reflexivity|].
  unfold getitem.
  destruct (session !! "user_id"); rewrite ?bind_raise, ?bind_ret; [|reflexivity].
  unfold read. cbn [snd]. rewrite Hu. reflexivity.
Qed.

Lemma require_auth_frame (request : request) (t : Z) (w w' : world) (user : doc) :
  users (db w') = users (db w) →
  user_sessions (db w') = user_sessions (db w) →
  require_auth request t w = (w, Return user) →
  require_auth request t w' = (w', Return user).
Proof.
  intros Hu Hs Hauth.
  pose proof (get_current_user_frame request t w w' Hu Hs) as Hframe.
  pose proof (get_current_user_world request t w') as Hw'.
  pose proof (get_current_user_world request t w) as Hw.
  unfold require_auth in *. rewrite bind_eq in *.
  destruct (get_current_user request t w') as [w1' r'].
  destruct (get_current_user request t w) as [w1 r].
  cbn [fst snd] in *. subst w1' w1 r'.
  destruct r as [[u|]|e]; try discriminate.
  destruct (bool_decide (u = ∅)); [discriminate|].
  inversion Hauth. reflexivity.
Qed.

Lemma require_admin_of_auth (request : request) (t : Z) (w : world) (user : doc) :
  require_auth request t w = (w, Return user) →
  require_admin request t w =
    if py_eq (py_get user "role") (VStr "admin") then (w, Return user)
    else (w, Raise (HTTPException 403 (Detail "Admin access required"))).
Proof.
  intros Hauth. unfold require_admin. rewrite bind_eq, Hauth.
  destruct (py_eq _ _); reflexivity.
Qed.

(** X1. A request that carries neither a non-empty [session_token] cookie
    nor an [Authorization] header starting with ["Bearer "] is refused with
    401 whatever the database holds, and nothing is written. *)
Theorem require_auth_no_credentials (request : request) (t : Z) (w : world) :
  default "" (cookies request !! "session_token") = "" →
  (∀ h, headers request !! "Authorization" = Some h → String.prefix "Bearer " h = false) →
  get_current_user request t w = (w, Return None) ∧
  require_auth request t w = (w, Raise (HTTPException 401 (Detail "Not authenticated"))).
Proof.
  intros Hc Hh.
  assert (H : get_current_user request t w = (w, Return None)).
  { unfold get_current_user, request_session_token. rewrite Hc. cbn [String.eqb].
    destruct (headers request !! "Authorization") as [h|] eqn:Eh.
    - rewrite (Hh h eq_refl). reflexivity.
    - reflexivity. }
  split; [exact H|]. unfold require_auth. rewrite bind_eq, H. reflexivity.
Qed.

(** X2. The cookie takes precedence: two requests with the same non-empty
    [session_token] cookie are authenticated alike, whatever their
    [Authorization] headers say. *)
Theorem cookie_takes_precedence (r1 r2 : request) (tok : string) (t : Z) (w : world) :
  cookies r1 !! "session_token" = Some tok →
  cookies r2 !! "session_token" = Some tok →
  tok ≠ "" →
  get_current_user r1 t w = get_current_user r2 t w ∧
  require_auth r1 t w = require_auth r2 t w ∧
  require_admin r1 t w = require_admin r2 t w.
Proof.
  intros H1 H2 Hne.
  assert (H : get_current_user r1 t w = get_current_user r2 t w).
  { unfold get_current_user.
    rewrite !bind_eq, (request_session_token_cookie r1 w tok H1 Hne),
      (request_session_token_cookie r2 w tok H2 Hne). reflexivity. }
  assert (H' : require_auth r1 t w = require_auth r2 t w).
  { unfold require_auth. rewrite !bind_eq, H. reflexivity. }
  split; [exact H|]. split; [exact H'|].
  unfold require_admin. rewrite !bind_eq, H'. reflexivity.
Qed.

Lemma require_auth_expired (request : request) (t : Z) (w : world)
    (tok : string) (session : doc) (e : Z) (uid : value) :
  request_session_token request w = (w, Return tok) → tok ≠ "" →
  find_one {[ "session_token" := VStr tok ]} (user_sessions (db w)) = Some session →
  session !! "expires_at" = Some (VTime e) → e < t →
  session !! "user_id" = Some uid →
  require_auth request t w = (w, Raise (HTTPException 401 (Detail "Not authenticated"))).
Proof.
  intros Htok Hne Hs He Hlt Hu. unfold require_auth.
  rewrite bind_eq, (get_current_user_found _ _ _ _ _ _ _ Htok Hne Hs He Hu).
  rewrite (proj2 (Z.ltb_lt _ _) Hlt). reflexivity.
Qed.

(** X3. A stored session is honoured up to and including its expiry
    instant and refused after it; the expired session is left in the
    store. *)
Theorem session_expiry (request : request) (t : Z) (w : world)
    (tok : string) (session : doc) (e : Z) (uid : value) (user : doc) :
  request_session_token request w = (w, Return tok) → tok ≠ "" →
  find_one {[ "session_token" := VStr tok ]} (user_sessions (db w)) = Some session →
  session !! "expires_at" = Some (VTime e) →
  session !! "user_id" = Some uid →
  find_one {[ "user_id" := uid ]} (users (db w)) = Some user → user ≠ ∅ →
  (t ≤ e → require_auth request t w = (w, Return user)) ∧
  (e < t → require_auth request t w =
             (w, Raise (HTTPException 401 (Detail "Not authenticated")))).
Proof.
  intros Htok Hne Hs He Hu Hfind Hnonempty. split.
  - intros Hle. exact (require_auth_found _ _ _ _ _ _ _ _ Htok Hne Hs He Hle Hu Hfind Hnonempty).
  - intros Hlt. exact (require_auth_expired _ _ _ _ _ _ _ Htok Hne Hs He Hlt Hu).
Qed.

(** X4. Authentication never writes: whatever the outcome of
    [get_current_user], [require_auth] and [require_admin], the database
    and the scheduled e-mails are as before (expired sessions are not
    purged, expiry is not extended). *)
Theorem authentication_read_only (request : request) (t : Z) (w : world) :
  (get_current_user request t w).1 = w ∧
  (require_auth request t w).1 = w ∧
  (require_admin request t w).1 = w.
Proof.
  split; [apply get_current_user_world|].
  split; [apply require_auth_world|apply require_admin_world].
Qed.

(** X5. A caller who is authenticated but whose [role] is not ["admin"]
    gets 403 from every admin endpoint, before the path parameter or the
    body is looked at, and nothing is written. *)
Theorem admin_endpoints_forbidden (request : request) (t : Z) (w : world) (user : doc) :
  require_auth request t w = (w, Return user) →
  py_get user "role" ≠ VStr "admin" →
  let denied := (w, Raise (HTTPException 403 (Detail "Admin access required"))) in
  (∀ user_id, admin_delete_user user_id request t w = denied) ∧
  (∀ ad_id t_now, admin_update_ad_status ad_id request t t_now w = denied) ∧
  (∀ category_id, admin_delete_category category_id request t w = denied) ∧
  (∀ city_id, admin_delete_city city_id request t w = denied).
Proof.
  intros Hauth Hrole denied. subst denied.
  pose proof (require_admin_of_auth request t w user Hauth) as Hadmin.
  rewrite py_eq_str, (bool_decide_eq_false_2 _ Hrole) in Hadmin.
  repeat split; intros;
    unfold admin_delete_user, admin_update_ad_status, admin_delete_category,
      admin_delete_city;
    rewrite bind_eq, Hadmin; reflexivity.
Qed.

(** *** Logout *)

(** X6. [logout] with a [session_token] cookie removes the session stored
    for that token: when at most one session carries it, no request
    presenting that token (by cookie or by header) is authenticated
    afterwards, while every other session, the users and the ads stay. *)
Theorem logout_revokes (request : request) (tok : string) (w : world) :
  cookies request !! "session_token" = Some tok → tok ≠ "" →
  count_documents {[ "session_token" := VStr tok ]} (user_sessions (db w)) ≤ 1 →
  let w' := (logout request w).1 in
  (logout request w).2 = Return (VDict {[ "message" := VStr "Logged out" ]}) ∧
  (∀ r t, request_session_token r w' = (w', Return tok) →
     require_auth r t w' = (w', Raise (HTTPException 401 (Detail "Not authenticated")))) ∧
  (∀ s, s ∈ user_sessions (db w) →
     matches {[ "session_token" := VStr tok ]} s = false → s ∈ user_sessions (db w')) ∧
  users (db w') = users (db w) ∧ ads (db w') = ads (db w) ∧ sent w' = sent w.
Proof.
  intros Hc Hne Hcount w'.
  assert (Hw' : logout request w =
    ({| db := with_user_sessions (delete_one {[ "session_token" := VStr tok ]}) (db w);
        sent := sent w |}, Return (VDict {[ "message" := VStr "Logged out" ]}))).
  { unfold logout. rewrite Hc. cbn [default from_option id].
    rewrite (proj2 (String.eqb_neq _ _) Hne). reflexivity. }
  subst w'. rewrite Hw'. cbn [fst snd db sent with_user_sessions users ads user_sessions].
  split; [reflexivity|]. split; [|split; [|repeat split]].
  - intros r t Hr. apply (require_auth_no_session _ _ _ tok Hr).
    cbn [db user_sessions with_user_sessions].
    apply find_one_delete_one_unique, Hcount.
  - intros s Hs Hm. apply elem_of_delete_one_other; assumption.
Qed.

(** X7. [logout] looks at the cookie only: a client that authenticates with
    the [Authorization] header and sends no cookie is told it is logged
    out, yet nothing is deleted and its token goes on authenticating. *)
Theorem logout_ignores_bearer (request : request) (w : world) :
  default "" (cookies request !! "session_token") = "" →
  logout request w = (w, Return (VDict {[ "message" := VStr "Logged out" ]})) ∧
  ∀ t, require_auth request t (logout request w).1 = require_auth request t w.
Proof.
  intros Hc.
  assert (H : logout request w = (w, Return (VDict {[ "message" := VStr "Logged out" ]}))).
  { unfold logout. rewrite Hc. destruct w. reflexivity. }
  split; [exact H|]. intros t. rewrite H. reflexivity.
Qed.

(** *** Registration and login *)

(** X8. Registering an e-mail address that a stored user already carries
    is refused with 400: no user, no session and no welcome e-mail is
    created. *)
Theorem register_duplicate_email (email password name : string) (phone : option string)
    (uuid_hex tok : string) (t_created t_expires t_session : Z) (w : world) (u : doc) :
  find_one {[ "email" := VStr email ]} (users (db w)) = Some u → u ≠ ∅ →
  register email password name phone uuid_hex tok t_created t_expires t_session w =
    (w, Raise (HTTPException 400 (Detail "Email already registered"))).
Proof.
  intros Hfind Hne. unfold register. rewrite bind_read, Hfind.
  cbn [py_not_doc]. rewrite (bool_decide_eq_false_2 _ Hne). reflexivity.
Qed.

Lemma register_fresh (email password name : string) (phone : option string)
    (uuid_hex tok : string) (t_created t_expires t_session : Z) (w : world) :
  find_one {[ "email" := VStr email ]} (users (db w)) = None →
  register email password name phone uuid_hex tok t_created t_expires t_session w =
    ({| db := with_user_sessions (insert_one
                {[ "user_id" := VStr ("user_" +:+ uuid_hex);
                   "session_token" := VStr tok;
                   "expires_at" := VTime (t_expires + timedelta_days 7);
                   "created_at" := VTime t_session ]})
              (with_users (insert_one
                {[ "user_id" := VStr ("user_" +:+ uuid_hex);
                   "email" := VStr email;
                   "password_hash" := VStr (hash_password password);
                   "name" := VStr name;
                   "phone" := from_option VStr VNone phone;
                   "picture" := VNone;
                   "role" := VStr "user";
                   "created_at" := VTime t_created ]}) (db w));
        sent := sent w ++ [ {| to_email := VStr email; template_type := "welcome";
                               data := {[ "name" := VStr name;
                                          "site_url" := VStr "https://x67digital.com" ]} |} ] |},
     Return (VDict {[ "user_id" := VStr ("user_" +:+ uuid_hex); "email" := VStr email;
                      "name" := VStr name; "role" := VStr "user" ]}, tok)).
Proof.
  intros Hfind. unfold register. rewrite bind_read, Hfind. reflexivity.
Qed.

(** X9. A successful registration answers with the session cookie, and a
    request presenting that cookie is authenticated as the new user, with
    role ["user"] (so refused by [require_admin]), for exactly seven days
    from the clock reading taken for the session. *)
Theorem register_opens_session (email password name : string) (phone : option string)
    (uuid_hex tok : string) (t_created t_expires t_session : Z) (w : world) :
  (∀ s, bson_match (VStr s) (Some (VStr s)) = true) →
  find_one {[ "email" := VStr email ]} (users (db w)) = None →
  find_one {[ "user_id" := VStr ("user_" +:+ uuid_hex) ]} (users (db w)) = None →
  find_one {[ "session_token" := VStr tok ]} (user_sessions (db w)) = None →
  tok ≠ "" →
  let out := register email password name phone uuid_hex tok
               t_created t_expires t_session w in
  (∃ content, out.2 = Return (content, tok)) ∧
  ∀ request t, cookies request !! "session_token" = Some tok →
    (t ≤ t_expires + timedelta_days 7 →
       ∃ user, require_auth request t out.1 = (out.1, Return user) ∧
         user !! "user_id" = Some (VStr ("user_" +:+ uuid_hex)) ∧
         user !! "email" = Some (VStr email) ∧
         user !! "role" = Some (VStr "user") ∧
         require_admin request t out.1 =
           (out.1, Raise (HTTPException 403 (Detail "Admin access required")))) ∧
    (t_expires + timedelta_days 7 < t →
       require_auth request t out.1 =
         (out.1, Raise (HTTPException 401 (Detail "Not authenticated")))).
Proof.
  intros Hrefl Hemail Huid Htok Hne out. subst out.
  rewrite (register_fresh _ _ _ _ _ _ _ _ _ _ Hemail). cbn [fst snd].
  split; [eexists; reflexivity|].
  intros request t Hc.
  set (w' := {| db := _; sent := _ |}).
  set (session := ({[ "user_id" := VStr ("user_" +:+ uuid_hex);
                      "session_token" := VStr tok;
                      "expires_at" := VTime (t_expires + timedelta_days 7);
                      "created_at" := VTime t_session ]} : doc)).
  set (user := ({[ "user_id" := VStr ("user_" +:+ uuid_hex);
                   "email" := VStr email;
                   "password_hash" := VStr (hash_password password);
                   "name" := VStr name;
                   "phone" := from_option VStr VNone phone;
                   "picture" := VNone;
                   "role" := VStr "user";
                   "created_at" := VTime t_created ]} : doc)).
  assert (Hs : find_one {[ "session_token" := VStr tok ]} (user_sessions (db w'))
               = Some session).
  { subst w'. cbn [db user_sessions with_user_sessions with_users].
    rewrite find_one_insert_one, Htok, matches_singleton.
    assert (Hl : session !! "session_token" = Some (VStr tok)).
    { subst session. rewrite lookup_insert_ne by (clear; congruence).
      apply lookup_insert_eq. }
    fold session. rewrite Hl, Hrefl. reflexivity. }
  assert (Hu : find_one {[ "user_id" := VStr ("user_" +:+ uuid_hex) ]} (users (db w'))
               = Some user).
  { subst w'. cbn [db users with_user_sessions with_users].
    rewrite find_one_insert_one, Huid, matches_singleton.
    assert (Hl : user !! "user_id" = Some (VStr ("user_" +:+ uuid_hex))).
    { subst user. apply lookup_insert_eq. }
    fold user. rewrite Hl, Hrefl. reflexivity. }
  assert (He : session !! "expires_at" = Some (VTime (t_expires + timedelta_days 7))).
  { subst session. rewrite !lookup_insert_ne by (clear; congruence).
    apply lookup_insert_eq. }
  assert (Hsu : session !! "user_id" = Some (VStr ("user_" +:+ uuid_hex))).
  { subst session. apply lookup_insert_eq. }
  assert (Hnonempty : user ≠ ∅).
  { subst user. apply insert_non_empty. }
  pose proof (request_session_token_cookie request w' tok Hc Hne) as Hreq.
  split.
  2: { intros Hlt. exact (require_auth_expired _ _ _ _ _ _ _ Hreq Hne Hs He Hlt Hsu). }
  intros Hle. exists user.
  pose proof (require_auth_found _ _ _ _ _ _ _ _ Hreq Hne Hs He Hle Hsu Hu Hnonempty)
    as Hvalid.
  split; [exact Hvalid|].
  assert (Hrole : user !! "role" = Some (VStr "user")).
  { subst user. rewrite !lookup_insert_ne by (clear; congruence).
    apply lookup_insert_eq. }
  split; [subst user; apply lookup_insert_eq|].
  split; [subst user; rewrite lookup_insert_ne by (clear; congruence);
          apply lookup_insert_eq|].
  split; [exact Hrole|].
  rewrite (require_admin_of_auth _ _ _ _ Hvalid). unfold py_get. rewrite Hrole.
  reflexivity.
Qed.

(** X10. [login] answers the same 401 for an unknown e-mail address and for
    a wrong password, and opens no session; an account whose
    [password_hash] is [None] (one created by the Google sign-in) cannot
    log in with any password. *)
Theorem login_invalid_credentials (email password tok : string)
    (t_expires t_session : Z) (w : world) :
  let refused := (w, Raise (HTTPException 401 (Detail "Invalid credentials"))) in
  (find_one {[ "email" := VStr email ]} (users (db w)) = None →
     login email password tok t_expires t_session w = refused) ∧
  (∀ user, find_one {[ "email" := VStr email ]} (users (db w)) = Some user →
     py_get user "password_hash" ≠ VStr (hash_password password) →
     login email password tok t_expires t_session w = refused) ∧
  (∀ user, find_one {[ "email" := VStr email ]} (users (db w)) = Some user →
     user !! "password_hash" = Some VNone →
     ∀ password', login email password' tok t_expires t_session w = refused).
Proof.
  intros refused. subst refused.
  assert (Hwrong : ∀ user pw,
    find_one {[ "email" := VStr email ]} (users (db w)) = Some user →
    py_get user "password_hash" ≠ VStr (hash_password pw) →
    login email pw tok t_expires t_session w =
      (w, Raise (HTTPException 401 (Detail "Invalid credentials")))).
  { intros user pw Hfind Hpw. unfold login. rewrite bind_read, Hfind.
    cbn [default from_option id]. rewrite py_eq_str, (bool_decide_eq_false_2 _ Hpw).
    rewrite orb_true_r. reflexivity. }
  split; [|split].
  - intros Hfind. unfold login. rewrite bind_read, Hfind. reflexivity.
  - intros user Hfind Hpw. exact (Hwrong user password Hfind Hpw).
  - intros user Hfind Hnone password'. apply (Hwrong user password' Hfind).
    unfold py_get. rewrite Hnone. clear. discriminate.
Qed.

(** X11. Registration followed by [login] with the same e-mail address and
    password succeeds: it opens a second session for the new user and
    answers with the user's id, e-mail, name and role ["user"]; a
    password with a different hash is refused. *)
Theorem register_then_login (email password name : string) (phone : option string)
    (uuid_hex tok : string) (t_created t_expires t_session : Z) (w : world) :
  (∀ s, bson_match (VStr s) (Some (VStr s)) = true) →
  find_one {[ "email" := VStr email ]} (users (db w)) = None →
  let w1 := (register email password name phone uuid_hex tok
               t_created t_expires t_session w).1 in
  (∀ tok2 t2 t3,
     login email password tok2 t2 t3 w1 =
       ({| db := with_user_sessions (insert_one
                   {[ "user_id" := VStr ("user_" +:+ uuid_hex);
                      "session_token" := VStr tok2;
                      "expires_at" := VTime (t2 + timedelta_days 7);
                      "created_at" := VTime t3 ]}) (db w1);
           sent := sent w1 |},
        Return (VDict {[ "user_id" := VStr ("user_" +:+ uuid_hex);
                         "email" := VStr email;
                         "name" := VStr name;
                         "role" := VStr "user" ]}, tok2))) ∧
  (∀ password' tok2 t2 t3,
     hash_password password' ≠ hash_password password →
     login email password' tok2 t2 t3 w1 =
       (w1, Raise (HTTPException 401 (Detail "Invalid credentials")))).
Proof.
  intros Hrefl Hemail w1. subst w1.
  rewrite (register_fresh _ _ _ _ _ _ _ _ _ _ Hemail). cbn [fst].
  set (w1 := {| db := _; sent := _ |}).
  set (user := ({[ "user_id" := VStr ("user_" +:+ uuid_hex);
                   "email" := VStr email;
                   "password_hash" := VStr (hash_password password);
                   "name" := VStr name;
                   "phone" := from_option VStr VNone phone;
                   "picture" := VNone;
                   "role" := VStr "user";
                   "created_at" := VTime t_created ]} : doc)).
  assert (Hu : find_one {[ "email" := VStr email ]} (users (db w1)) = Some user).
  { subst w1. cbn [db users with_user_sessions with_users].
    rewrite find_one_insert_one, Hemail, matches_singleton.
    assert (Hl : user !! "email" = Some (VStr email)).
    { subst user. rewrite lookup_insert_ne by (clear; congruence).
      apply lookup_insert_eq. }
    fold user. rewrite Hl, Hrefl. reflexivity. }
  assert (Hhash : user !! "password_hash" = Some (VStr (hash_password password))).
  { subst user. rewrite !lookup_insert_ne by (clear; congruence).
    apply lookup_insert_eq. }
  split.
  - intros tok2 t2 t3. unfold login. rewrite bind_read, Hu.
    cbn [default from_option id py_not_doc]. unfold py_get at 1. rewrite Hhash.
    cbn [default from_option id].
    rewrite py_eq_str, (bool_decide_eq_true_2 _ eq_refl).
    rewrite (bool_decide_eq_false_2 (user = ∅)) by (subst user; apply insert_non_empty).
    cbn [orb negb].
    assert (Hid : user !! "user_id" = Some (VStr ("user_" +:+ uuid_hex))).
    { subst user. apply lookup_insert_eq. }
    assert (Hmail : user !! "email" = Some (VStr email)).
    { subst user. rewrite lookup_insert_ne by (clear; congruence).
      apply lookup_insert_eq. }
    assert (Hname : user !! "name" = Some (VStr name)).
    { subst user. rewrite !lookup_insert_ne by (clear; congruence).
      apply lookup_insert_eq. }
    assert (Hrole : user !! "role" = Some (VStr "user")).
    { subst user. rewrite !lookup_insert_ne by (clear; congruence).
      apply lookup_insert_eq. }
    rewrite (bind_getitem _ _ _ _ _ Hid), bind_write, (bind_getitem _ _ _ _ _ Hid),
      (bind_getitem _ _ _ _ _ Hmail), (bind_getitem _ _ _ _ _ Hname).
    unfold py_get_default. rewrite Hrole. reflexivity.
  - intros password' tok2 t2 t3 Hneq. unfold login. rewrite bind_read, Hu.
    cbn [default from_option id]. unfold py_get. rewrite Hhash.
    cbn [default from_option id].
    rewrite py_eq_str, bool_decide_eq_false_2, orb_true_r; [reflexivity|].
    clear -Hneq. congruence.
Qed.

(** *** Top-up outcomes used by the compositions below *)

Lemma py_eq_refl (v : value) : py_eq v v = true.
Proof. unfold py_eq. apply bool_decide_eq_true_2. reflexivity. Qed.

Lemma topup_ad_inactive (w : world) (request : request) (ad_id : string)
    (t_auth t_check t_now : Z) (user ad : doc) (owner uid status : value) :
  require_auth request t_auth w = (w, Return user) →
  find_one {[ "ad_id" := VStr ad_id ]} (ads (db w)) = Some ad →
  ad !! "user_id" = Some owner → user !! "user_id" = Some uid →
  py_eq owner uid = true →
  ad !! "status" = Some status → status ≠ VStr "active" →
  topup_ad ad_id request t_auth t_check t_now w =
    (w, Raise (HTTPException 400 (Detail "Ad must be active to topup"))).
Proof.
  intros Hauth Hfind Howner Huid Heq Hstatus Hne. unfold topup_ad.
  rewrite bind_eq, Hauth, bind_read, Hfind.
  rewrite bool_decide_eq_false_2.
  2: { intros ->. rewrite lookup_empty in Howner. discriminate. }
  rewrite (bind_getitem _ _ _ _ _ Howner), (bind_getitem _ _ _ _ _ Huid), Heq.
  cbn [negb]. rewrite (bind_getitem _ _ _ _ _ Hstatus), py_eq_str.
  rewrite (bool_decide_eq_false_2 _ Hne). reflexivity.
Qed.

Lemma topup_ad_first (w : world) (request : request) (ad_id : string)
    (t_auth t_check t_now : Z) (user ad : doc) (owner uid : value) (c : Z) :
  require_auth request t_auth w = (w, Return user) →
  find_one {[ "ad_id" := VStr ad_id ]} (ads (db w)) = Some ad →
  ad !! "user_id" = Some owner → user !! "user_id" = Some uid →
  py_eq owner uid = true →
  ad !! "status" = Some (VStr "active") →
  py_truthy (py_get ad "last_topup") = false →
  referral_cooldown user c →
  topup_ad ad_id request t_auth t_check t_now w =
    (topped_up ad_id t_now w,
     Return (VDict {[ "message" := VStr "TopUp successful";
                      "next_topup_available_in" := VNum c ]})).
Proof.
  intros Hauth Hfind Howner Huid Heq Hstatus Hlast Hc. unfold topup_ad.
  rewrite bind_eq, Hauth, bind_read, Hfind.
  rewrite bool_decide_eq_false_2.
  2: { intros ->. rewrite lookup_empty in Howner. discriminate. }
  rewrite (bind_getitem _ _ _ _ _ Howner), (bind_getitem _ _ _ _ _ Huid), Heq.
  cbn [negb]. rewrite (bind_getitem _ _ _ _ _ Hstatus), py_eq_str.
  rewrite (bool_decide_eq_true_2 _ eq_refl). cbn [negb]. rewrite Hlast.
  destruct (referral_cooldown_gt_zero _ _ Hc) as (b & Hb & <-).
  rewrite bind_ret, bind_write, Hb. reflexivity.
Qed.

Lemma topup_ad_cooling (w : world) (request : request) (ad_id : string)
    (t_auth t_check t_now : Z) (user ad : doc) (owner uid : value) (c last : Z) :
  require_auth request t_auth w = (w, Return user) →
  find_one {[ "ad_id" := VStr ad_id ]} (ads (db w)) = Some ad →
  ad !! "user_id" = Some owner → user !! "user_id" = Some uid →
  py_eq owner uid = true →
  ad !! "status" = Some (VStr "active") →
  ad !! "last_topup" = Some (VTime last) →
  referral_cooldown user c →
  topup_ad ad_id request t_auth t_check t_now w =
    if t_check - last <? c * minute
    then (w, Raise (HTTPException 400
                      (DetailTopupWait (Z.quot (c * minute - (t_check - last)) minute))))
    else (topped_up ad_id t_now w,
          Return (VDict {[ "message" := VStr "TopUp successful";
                           "next_topup_available_in" := VNum c ]})).
Proof.
  intros Hauth Hfind Howner Huid Heq Hstatus Hlast Hc. unfold topup_ad.
  rewrite bind_eq, Hauth, bind_read, Hfind.
  rewrite bool_decide_eq_false_2.
  2: { intros ->. rewrite lookup_empty in Howner. discriminate. }
  rewrite (bind_getitem _ _ _ _ _ Howner), (bind_getitem _ _ _ _ _ Huid), Heq.
  cbn [negb]. rewrite (bind_getitem _ _ _ _ _ Hstatus), py_eq_str.
  rewrite (bool_decide_eq_true_2 _ eq_refl). cbn [negb].
  unfold py_get. rewrite Hlast. cbn [from_option id py_truthy as_datetime].
  destruct (referral_cooldown_gt_zero _ _ Hc) as (b & Hb & <-).
  rewrite bind_eq, bind_ret, Hb, bind_ret.
  destruct (t_check - last <? (if b then 40 else 60) * minute); [reflexivity|].
  change ((mret () : handler unit) w) with (w, Return ()). cbv beta iota.
  rewrite bind_write. reflexivity.
Qed.

(** *** Creating and deleting an ad *)

Lemma create_ad_ok (request : request) (uuid_hex : string)
    (t_auth t_created t_updated : Z) (w : world) (user body : doc) (uid email : value) :
  require_auth request t_auth w = (w, Return user) →
  user !! "user_id" = Some uid → user !! "email" = Some email →
  json request = VDict body →
  ∃ ad : doc,
    create_ad request uuid_hex t_auth t_created t_updated w =
      ({| db := with_ads (insert_one ad) (db w); sent := sent w |},
       Return (VDict {[ "ad_id" := VStr ("ad_" +:+ uuid_hex);
                        "status" := VStr "pending";
                        "message" := VStr "Ad created, pending payment and approval" ]})) ∧
    ad !! "ad_id" = Some (VStr ("ad_" +:+ uuid_hex)) ∧
    ad !! "user_id" = Some uid ∧
    ad !! "title" = Some (py_get body "title") ∧
    ad !! "status" = Some (VStr "pending") ∧
    ad !! "is_paid" = Some (VBool false) ∧
    ad !! "views" = Some (VNum 0) ∧
    ad !! "topup_rank" = Some (VNum 0) ∧
    ad !! "last_topup" = Some VNone.
Proof.
  intros Hauth Huid Hemail Hbody. unfold create_ad.
  rewrite bind_eq, Hauth, Hbody, (bind_getitem _ _ _ _ _ Huid), !bind_dict_get,
    (bind_getitem _ _ _ _ _ Hemail), !bind_dict_get, bind_write.
  eexists. split; [reflexivity|].
  unfold list_to_map. cbn [foldr fst snd].
  repeat split;
    repeat (rewrite lookup_insert_ne by (clear; congruence));
    apply lookup_insert_eq.
Qed.

(** X12. [create_ad] stores the ad under the caller's [user_id] with
    [status = "pending"], [is_paid = false], [views = 0] and
    [topup_rank = 0], whatever the body says about these fields; until the
    status changes, the owner's top-up of the new ad is refused with
    400. *)
Theorem created_ad_awaits_approval (request : request) (uuid_hex : string)
    (t_auth t_created t_updated : Z) (w : world) (user body : doc) (uid email : value) :
  (∀ s, bson_match (VStr s) (Some (VStr s)) = true) →
  require_auth request t_auth w = (w, Return user) →
  user !! "user_id" = Some uid → user !! "email" = Some email →
  json request = VDict body →
  find_one {[ "ad_id" := VStr ("ad_" +:+ uuid_hex) ]} (ads (db w)) = None →
  let ad_id := "ad_" +:+ uuid_hex in
  let out := create_ad request uuid_hex t_auth t_created t_updated w in
  out.2 = Return (VDict {[ "ad_id" := VStr ad_id; "status" := VStr "pending";
                           "message" := VStr "Ad created, pending payment and approval" ]}) ∧
  (∃ ad, find_one {[ "ad_id" := VStr ad_id ]} (ads (db out.1)) = Some ad ∧
     ad !! "user_id" = Some uid ∧
     ad !! "title" = Some (py_get body "title") ∧
     ad !! "status" = Some (VStr "pending") ∧
     ad !! "is_paid" = Some (VBool false) ∧
     ad !! "views" = Some (VNum 0) ∧
     ad !! "topup_rank" = Some (VNum 0)) ∧
  (∀ t1 t2 t3, require_auth request t1 w = (w, Return user) →
     topup_ad ad_id request t1 t2 t3 out.1 =
       (out.1, Raise (HTTPException 400 (Detail "Ad must be active to topup")))).
Proof.
  intros Hrefl Hauth Huid Hemail Hbody Hfresh ad_id out. subst out ad_id.
  destruct (create_ad_ok request uuid_hex t_auth t_created t_updated w user body uid email
              Hauth Huid Hemail Hbody)
    as (ad & -> & Hid & Hu & Htitle & Hst & Hpaid & Hviews & Hrank & _).
  cbn [fst snd].
  assert (Hfind : find_one {[ "ad_id" := VStr ("ad_" +:+ uuid_hex) ]}
                    (ads (db {| db := with_ads (insert_one ad) (db w); sent := sent w |}))
                  = Some ad).
  { cbn [db ads with_ads]. rewrite find_one_insert_one, Hfresh, matches_singleton, Hid, Hrefl.
    reflexivity. }
  split; [reflexivity|]. split.
  - exists ad. repeat split; assumption.
  - intros t1 t2 t3 Hauth1.
    eapply topup_ad_inactive; [|exact Hfind|exact Hu|exact Huid|apply py_eq_refl|exact Hst|].
    + apply (require_auth_frame request t1 w); [reflexivity|reflexivity|exact Hauth1].
    + clear. congruence.
Qed.

Lemma get_ad_missing (ad_id : string) (w : world) :
  find_one {[ "ad_id" := VStr ad_id ]} (ads (db w)) = None →
  get_ad ad_id w = (w, Raise (HTTPException 404 (Detail "Ad not found"))).
Proof. intros H. unfold get_ad. rewrite bind_read, H. reflexivity. Qed.

(** X13. For an authenticated caller and an existing ad, [delete_ad]
    answers 403 and changes nothing unless the caller owns the ad or is an
    admin; otherwise exactly the first ad carrying the id is removed and
    nothing else changes: favorites and payments that refer to the ad are
    kept.  When the id was unique, fetching the ad afterwards gives 404. *)
Theorem delete_ad_frame (w : world) (request : request) (ad_id : string) (t_auth : Z)
    (user ad : doc) (owner uid : value) :
  require_auth request t_auth w = (w, Return user) →
  find_one {[ "ad_id" := VStr ad_id ]} (ads (db w)) = Some ad →
  ad !! "user_id" = Some owner →
  user !! "user_id" = Some uid →
  let out := delete_ad ad_id request t_auth w in
  (py_eq owner uid = false → py_get user "role" ≠ VStr "admin" →
     out = (w, Raise (HTTPException 403 (Detail "Not authorized")))) ∧
  (py_eq owner uid = true ∨ py_get user "role" = VStr "admin" →
     out.2 = Return (VDict {[ "message" := VStr "Ad deleted" ]}) ∧
     (∃ before after : list doc,
        ads (db w) = (before ++ ad :: after)%list ∧
        (∀ x, x ∈ before → matches {[ "ad_id" := VStr ad_id ]} x = false) ∧
        ads (db out.1) = (before ++ after)%list) ∧
     users (db out.1) = users (db w) ∧
     user_sessions (db out.1) = user_sessions (db w) ∧
     favorites (db out.1) = favorites (db w) ∧
     payments (db out.1) = payments (db w) ∧
     sent out.1 = sent w ∧
     (count_documents {[ "ad_id" := VStr ad_id ]} (ads (db w)) ≤ 1 →
        get_ad ad_id out.1 = (out.1, Raise (HTTPException 404 (Detail "Ad not found"))))).
Proof.
  intros Hauth Hfind Howner Huid out. subst out. unfold delete_ad.
  rewrite bind_eq, Hauth, bind_read, Hfind.
  rewrite bool_decide_eq_false_2.
  2: { intros ->. rewrite lookup_empty in Howner. discriminate. }
  rewrite (bind_getitem _ _ _ _ _ Howner), (bind_getitem _ _ _ _ _ Huid), py_eq_str.
  split.
  - intros -> Hrole. rewrite (bool_decide_eq_false_2 _ Hrole). reflexivity.
  - intros Hallowed.
    assert (Hguard : negb (py_eq owner uid) &&
                     negb (bool_decide (py_get user "role" = VStr "admin")) = false).
    { destruct Hallowed as [->|Hrole]; [reflexivity|].
      rewrite (bool_decide_eq_true_2 _ Hrole). apply andb_false_r. }
    rewrite Hguard, bind_write. cbn [fst snd db sent with_ads ads users user_sessions
                                     favorites payments].
    split; [reflexivity|].
    split.
    { destruct (delete_one_first _ _ _ Hfind) as (before & after & Hc & Hb & Hd).
      exists before, after. repeat split; assumption. }
    repeat (split; [reflexivity|]).
    intros Hcount. apply get_ad_missing. cbn [db ads with_ads].
    apply find_one_delete_one_unique, Hcount.
Qed.

(** *** Automatic top-up switch *)

(** X14. [toggle_auto_topup] is for the owner alone: any other caller, an
    admin included, gets 403 and nothing changes.  For the owner the ad's
    [auto_topup] becomes the body's [enabled] ([True] when absent), every
    other field is kept, and the ad's status plays no part. *)
Theorem toggle_auto_topup_owner_only (w : world) (request : request) (ad_id : string)
    (t_auth : Z) (user ad body : doc) (owner uid : value) :
  require_auth request t_auth w = (w, Return user) →
  find_one {[ "ad_id" := VStr ad_id ]} (ads (db w)) = Some ad →
  ad !! "user_id" = Some owner →
  user !! "user_id" = Some uid →
  json request = VDict body →
  let out := toggle_auto_topup ad_id request t_auth w in
  let enabled := py_get_default body "enabled" (VBool true) in
  (py_eq owner uid = false →
     out = (w, Raise (HTTPException 403 (Detail "Not your ad")))) ∧
  (py_eq owner uid = true →
     out.2 = Return (VDict {[ "message" := VStr ("Auto-topup " +:+
                                 (if py_truthy enabled then "enabled" else "disabled"));
                              "auto_topup" := enabled ]}) ∧
     sent out.1 = sent w ∧
     ∃ ad', find_one {[ "ad_id" := VStr ad_id ]} (ads (db out.1)) = Some ad' ∧
            ad' !! "auto_topup" = Some enabled ∧
            ∀ k, k ≠ "auto_topup" → ad' !! k = ad !! k).
Proof.
  intros Hauth Hfind Howner Huid Hbody out enabled. subst out. unfold toggle_auto_topup.
  rewrite bind_eq, Hauth, bind_read, Hfind.
  rewrite bool_decide_eq_false_2.
  2: { intros ->. rewrite lookup_empty in Howner. discriminate. }
  rewrite (bind_getitem _ _ _ _ _ Howner), (bind_getitem _ _ _ _ _ Huid).
  split.
  - intros ->. reflexivity.
  - intros ->. cbn [negb]. rewrite Hbody, bind_dict_get, bind_write.
    fold (py_get_default body "enabled" (VBool true)). fold enabled.
    cbn [mret handler_ret fst snd db sent ads with_ads].
    split; [reflexivity|]. split; [reflexivity|].
    eexists. split.
    + rewrite find_one_update_one, Hfind; [reflexivity|].
      intros d. apply matches_set_fields. apply lookup_singleton_ne. clear. congruence.
    + split; [apply set_fields_lookup, lookup_singleton_eq|].
      intros k Hk. apply set_fields_lookup_other, lookup_singleton_ne.
      clear -Hk. congruence.
Qed.

(** *** Moderation *)

Lemma ret_eq {A} (a : A) (w : world) : (mret a : handler A) w = (w, Return a).
Proof. reflexivity. Qed.

Lemma create_task_eq {B} (n : notification) (f : unit → handler B) (w : world) :
  (create_task n ≫= f) w = f () {| db := db w; sent := sent w ++ [n] |}.
Proof. reflexivity. Qed.

Lemma ad_statuses_valid (s : string) :
  s ∈ ad_statuses → existsb (λ s', py_eq (VStr s) (VStr s')) ad_statuses = true.
Proof.
  intros Hs. apply existsb_exists. exists s. split; [apply list_elem_of_In, Hs|].
  apply py_eq_refl.
Qed.

(** Every outcome of a moderation request with a valid status: the status
    and the time are written, and at most one e-mail is scheduled. *)
Lemma admin_update_ad_status_ok (w : world) (request : request) (ad_id : string)
    (t_auth t_now : Z) (admin body : doc) (s : string) :
  require_admin request t_auth w = (w, Return admin) →
  json request = VDict body →
  body !! "status" = Some (VStr s) → s ∈ ad_statuses →
  ∃ notes : list notification,
    admin_update_ad_status ad_id request t_auth t_now w =
      ({| db := with_ads (update_one {[ "ad_id" := VStr ad_id ]}
                   (set_fields {[ "status" := VStr s; "updated_at" := VTime t_now ]})) (db w);
          sent := sent w ++ notes |},
       Return (VDict {[ "message" := VStr ("Ad status updated to " +:+ s) ]})) ∧
    match find_one {[ "ad_id" := VStr ad_id ]} (ads (db w)) with
    | None => notes = []
    | Some ad =>
        let owner := find_one {[ "user_id" := py_get ad "user_id" ]} (users (db w)) in
        if bool_decide (ad ≠ ∅) && owner_reachable owner then
          (s = "active" ∧ ∃ n, notes = [n] ∧ template_type n = "ad_approved" ∧
                               to_email n = py_get (default ∅ owner) "email") ∨
          (s = "rejected" ∧ ∃ n, notes = [n] ∧ template_type n = "ad_rejected" ∧
                                 to_email n = py_get (default ∅ owner) "email") ∨
          (s ≠ "active" ∧ s ≠ "rejected" ∧ notes = [])
        else notes = []
    end.
Proof.
  intros Hadmin Hbody Hstatus Hvalid. unfold admin_update_ad_status.
  rewrite bind_eq, Hadmin, Hbody, bind_dict_get, Hstatus. cbn [default from_option id].
  rewrite (ad_statuses_valid s Hvalid). cbn [negb]. rewrite bind_read.
  cbn [py_format].
  destruct (find_one {[ "ad_id" := VStr ad_id ]} (ads (db w))) as [ad|].
  2: { exists []. cbn [py_not_doc negb]. rewrite bind_eq, ret_eq, bind_write.
       rewrite app_nil_r. split; reflexivity. }
  cbn [py_not_doc default from_option id].
  destruct (decide (ad = ∅)) as [Hempty|Hne].
  { exists []. rewrite (bool_decide_eq_true_2 _ Hempty). cbn [negb].
    rewrite bind_eq, ret_eq, bind_write, app_nil_r.
    split; [reflexivity|].
    rewrite bool_decide_eq_false_2 by (clear -Hempty; tauto). reflexivity. }
  rewrite (bool_decide_eq_false_2 _ Hne). cbn [negb].
  rewrite (bool_decide_eq_true_2 (ad ≠ ∅) Hne). cbn [andb].
  rewrite bind_eq, bind_read. unfold owner_reachable.
  destruct (negb (py_not_doc (find_one {[ "user_id" := py_get ad "user_id" ]} (users (db w))))
            && py_truthy (py_get (default ∅ (find_one {[ "user_id" := py_get ad "user_id" ]}
                                             (users (db w)))) "email")).
  2: { exists []. rewrite ret_eq, bind_write, app_nil_r. split; reflexivity. }
  rewrite !py_eq_str.
  destruct (decide (s = "active")) as [->|Hna].
  { rewrite (bool_decide_eq_true_2 _ eq_refl). eexists. split; [reflexivity|].
    left. split; [reflexivity|]. eexists. split; [reflexivity|]. split; reflexivity. }
  rewrite (bool_decide_eq_false_2 (VStr s = VStr "active")) by (clear -Hna; congruence).
  destruct (decide (s = "rejected")) as [->|Hnr].
  { rewrite (bool_decide_eq_true_2 _ eq_refl). eexists. split; [reflexivity|].
    right. left. split; [reflexivity|]. eexists. split; [reflexivity|]. split; reflexivity. }
  rewrite (bool_decide_eq_false_2 (VStr s = VStr "rejected")) by (clear -Hnr; congruence).
  exists []. rewrite ret_eq, bind_write, app_nil_r. split; [reflexivity|].
  right. right. repeat split; assumption.
Qed.

(** X15. A moderation request whose [status] is not one of [pending],
    [active], [rejected], [expired] (absent, misspelt or not a string) is
    refused with 400: no ad changes and no e-mail is scheduled. *)
Theorem admin_update_ad_status_invalid (w : world) (request : request) (ad_id : string)
    (t_auth t_now : Z) (admin body : doc) :
  require_admin request t_auth w = (w, Return admin) →
  json request = VDict body →
  (∀ s, s ∈ ad_statuses → py_get body "status" ≠ VStr s) →
  admin_update_ad_status ad_id request t_auth t_now w =
    (w, Raise (HTTPException 400 (Detail "Invalid status"))).
Proof.
  intros Hadmin Hbody Hinvalid. unfold admin_update_ad_status.
  rewrite bind_eq, Hadmin, Hbody, bind_dict_get.
  fold (py_get body "status").
  assert (Hex : existsb (λ s, py_eq (py_get body "status") (VStr s)) ad_statuses = false).
  { apply not_true_is_false. intros (s & Hs & Heq)%existsb_exists.
    rewrite py_eq_str in Heq. apply bool_decide_eq_true in Heq.
    apply (Hinvalid s); [apply list_elem_of_In, Hs|exact Heq]. }
  rewrite Hex. reflexivity.
Qed.

(** X16. A moderation request with a valid status always answers 200, even
    for an ad id that does not exist (then nothing changes).  The ad found
    gets the new [status] and [updated_at] and keeps every other field.
    An e-mail goes to the owner only for [active] (template
    [ad_approved]) and [rejected] (template [ad_rejected]), and only when
    the owner's record carries a non-empty e-mail address; [pending] and
    [expired] notify no one. *)
Theorem admin_update_ad_status_effect (w : world) (request : request) (ad_id : string)
    (t_auth t_now : Z) (admin body : doc) (s : string) :
  require_admin request t_auth w = (w, Return admin) →
  json request = VDict body →
  body !! "status" = Some (VStr s) → s ∈ ad_statuses →
  let out := admin_update_ad_status ad_id request t_auth t_now w in
  out.2 = Return (VDict {[ "message" := VStr ("Ad status updated to " +:+ s) ]}) ∧
  (find_one {[ "ad_id" := VStr ad_id ]} (ads (db w)) = None → out.1 = w) ∧
  (∀ ad, find_one {[ "ad_id" := VStr ad_id ]} (ads (db w)) = Some ad →
     (∃ ad', find_one {[ "ad_id" := VStr ad_id ]} (ads (db out.1)) = Some ad' ∧
        ad' !! "status" = Some (VStr s) ∧
        ad' !! "updated_at" = Some (VTime t_now) ∧
        ∀ k, k ∉ ["status"; "updated_at"] → ad' !! k = ad !! k) ∧
     let owner := find_one {[ "user_id" := py_get ad "user_id" ]} (users (db w)) in
     (ad ≠ ∅ → owner_reachable owner = true → s = "active" →
        ∃ n, sent out.1 = (sent w ++ [n])%list ∧ template_type n = "ad_approved" ∧
             to_email n = py_get (default ∅ owner) "email") ∧
     (ad ≠ ∅ → owner_reachable owner = true → s = "rejected" →
        ∃ n, sent out.1 = (sent w ++ [n])%list ∧ template_type n = "ad_rejected" ∧
             to_email n = py_get (default ∅ owner) "email") ∧
     (s = "pending" ∨ s = "expired" ∨ owner_reachable owner = false →
        sent out.1 = sent w)).
Proof.
  intros Hadmin Hbody Hstatus Hvalid out. subst out.
  destruct (admin_update_ad_status_ok w request ad_id t_auth t_now admin body s
              Hadmin Hbody Hstatus Hvalid) as (notes & -> & Hnotes).
  cbn [fst snd db sent ads with_ads].
  split; [reflexivity|]. split.
  - intros Hnone. rewrite Hnone in Hnotes. subst notes.
    rewrite app_nil_r. unfold with_ads. rewrite update_one_no_match by exact Hnone.
    destruct w as [[] ?]. reflexivity.
  - intros ad Hfind. rewrite Hfind in Hnotes. cbv zeta in Hnotes. split.
    + eexists. split.
      * rewrite find_one_update_one, Hfind; [reflexivity|].
        intros d. apply matches_set_fields.
        rewrite lookup_insert_ne by (clear; congruence).
        apply lookup_singleton_ne. clear. congruence.
      * split; [apply set_fields_lookup, lookup_insert_eq|].
        split; [apply set_fields_lookup; rewrite lookup_insert_ne by (clear; congruence);
                apply lookup_singleton_eq|].
        intros k Hk. rewrite !elem_of_cons, elem_of_nil in Hk.
        apply set_fields_lookup_other.
        rewrite lookup_insert_ne by (clear -Hk; intuition congruence).
        apply lookup_singleton_ne. clear -Hk. intuition congruence.
    + set (owner := find_one {[ "user_id" := py_get ad "user_id" ]} (users (db w))) in *.
      split; [|split].
      * intros Hne Hreach ->. rewrite (bool_decide_eq_true_2 _ Hne), Hreach in Hnotes.
        cbn [andb] in Hnotes.
        destruct Hnotes as [(_ & n & -> & Ht & He)|[(Habs & _)|(Habs & _)]];
          [|clear -Habs; congruence|clear -Habs; congruence].
        exists n. repeat split; assumption.
      * intros Hne Hreach ->. rewrite (bool_decide_eq_true_2 _ Hne), Hreach in Hnotes.
        cbn [andb] in Hnotes.
        destruct Hnotes as [(Habs & _)|[(_ & n & -> & Ht & He)|(_ & Habs & _)]];
          [clear -Habs; congruence| |clear -Habs; congruence].
        exists n. repeat split; assumption.
      * intros Hquiet.
        destruct (bool_decide (ad ≠ ∅) && owner_reachable owner) eqn:Hguard.
        2: { subst notes. apply app_nil_r. }
        apply andb_true_iff in Hguard as [_ Hreach].
        destruct Hnotes as [(-> & _)|[(-> & _)|(_ & _ & ->)]].
        -- destruct Hquiet as [Hq|[Hq|Hq]]; clear -Hq Hreach; congruence.
        -- destruct Hquiet as [Hq|[Hq|Hq]]; clear -Hq Hreach; congruence.
        -- apply app_nil_r.
Qed.

(** X17. Moderation gates the top-up: after an admin has set the status of
    an ad that was never topped up, its owner's top-up succeeds when the
    status is [active] and is refused with 400 for [pending], [rejected]
    and [expired]. *)
Theorem moderation_gates_topup (w : world) (admin_request owner_request : request)
    (ad_id : string) (t_auth t_now t1 t2 t3 : Z) (admin body owner ad : doc)
    (s : string) (ad_user uid : value) (c : Z) :
  require_admin admin_request t_auth w = (w, Return admin) →
  json admin_request = VDict body →
  body !! "status" = Some (VStr s) → s ∈ ad_statuses →
  find_one {[ "ad_id" := VStr ad_id ]} (ads (db w)) = Some ad →
  ad !! "user_id" = Some ad_user →
  py_truthy (py_get ad "last_topup") = false →
  require_auth owner_request t1 w = (w, Return owner) →
  owner !! "user_id" = Some uid →
  py_eq ad_user uid = true →
  referral_cooldown owner c →
  let w1 := (admin_update_ad_status ad_id admin_request t_auth t_now w).1 in
  (s = "active" →
     topup_ad ad_id owner_request t1 t2 t3 w1 =
       (topped_up ad_id t3 w1,
        Return (VDict {[ "message" := VStr "TopUp successful";
                         "next_topup_available_in" := VNum c ]}))) ∧
  (s ≠ "active" →
     topup_ad ad_id owner_request t1 t2 t3 w1 =
       (w1, Raise (HTTPException 400 (Detail "Ad must be active to topup")))).
Proof.
  intros Hadmin Hbody Hstatus Hvalid Hfind Howner Hlast Hauth Huid Heq Hc w1. subst w1.
  destruct (admin_update_ad_status_ok w admin_request ad_id t_auth t_now admin body s
              Hadmin Hbody Hstatus Hvalid) as (notes & -> & _).
  cbn [fst].
  set (w1 := {| db := _; sent := _ |}).
  set (fields := ({[ "status" := VStr s; "updated_at" := VTime t_now ]} : doc)).
  assert (Hfind1 : find_one {[ "ad_id" := VStr ad_id ]} (ads (db w1))
                   = Some (set_fields fields ad)).
  { subst w1. cbn [db ads with_ads]. rewrite find_one_update_one, Hfind; [reflexivity|].
    intros d. apply matches_set_fields.
    rewrite lookup_insert_ne by (clear; congruence).
    apply lookup_singleton_ne. clear. congruence. }
  assert (Hother : ∀ k, k ≠ "status" → k ≠ "updated_at" →
                     set_fields fields ad !! k = ad !! k).
  { intros k H1 H2. apply set_fields_lookup_other. subst fields.
    rewrite lookup_insert_ne by (clear -H1; congruence).
    apply lookup_singleton_ne. clear -H2. congruence. }
  assert (Hst : set_fields fields ad !! "status" = Some (VStr s)).
  { apply set_fields_lookup, lookup_insert_eq. }
  assert (Hauth1 : require_auth owner_request t1 w1 = (w1, Return owner)).
  { apply (require_auth_frame owner_request t1 w); [reflexivity|reflexivity|exact Hauth]. }
  assert (Howner1 : set_fields fields ad !! "user_id" = Some ad_user).
  { rewrite Hother by (clear; congruence). exact Howner. }
  split.
  - intros ->.
    eapply topup_ad_first; [exact Hauth1|exact Hfind1|exact Howner1|exact Huid|exact Heq
                            |exact Hst| |exact Hc].
    unfold py_get in *. rewrite Hother by (clear; congruence). exact Hlast.
  - intros Hna.
    eapply topup_ad_inactive; [exact Hauth1|exact Hfind1|exact Howner1|exact Huid|exact Heq
                               |exact Hst|].
    clear -Hna. congruence.
Qed.

(** *** Payments and what follows them *)

Lemma payment_effect_post_ad (t_now : Z) :
  payment_effect (VStr "post_ad") t_now =
  {[ "is_paid" := VBool true; "status" := VStr "pending" ]}.
Proof.
  unfold payment_effect. rewrite py_eq_str, bool_decide_eq_true_2 by reflexivity.
  reflexivity.
Qed.

(** X18. A completed [post_ad] payment puts the ad it names back to
    [pending], whatever its status was: the ad is marked paid, and its
    owner's top-up is refused with 400 from then on, even for an ad that
    was active before the payment. *)
Theorem post_ad_payment_suspends_topup (w : world) (request owner_request : request)
    (t_completed t_now t1 t2 t3 : Z) (body ed trns ad owner : doc)
    (ad_id : string) (ad_user uid : value) :
  json request = VDict body →
  body !! "EventData" = Some (VDict ed) →
  ed !! "StatusId" = Some (VStr "F") →
  load_trns_data (py_get_default ed "MerchantTrns" (VStr "{}")) = VDict trns →
  trns !! "ad_id" = Some (VStr ad_id) →
  trns !! "payment_type" = Some (VStr "post_ad") →
  find_one {[ "ad_id" := VStr ad_id ]} (ads (db w)) = Some ad →
  ad !! "user_id" = Some ad_user →
  require_auth owner_request t1 w = (w, Return owner) →
  owner !! "user_id" = Some uid →
  py_eq ad_user uid = true →
  let w1 := (payment_webhook request t_completed t_now w).1 in
  stored_field ad_id "status" w1 = Some (VStr "pending") ∧
  stored_field ad_id "is_paid" w1 = Some (VBool true) ∧
  topup_ad ad_id owner_request t1 t2 t3 w1 =
    (w1, Raise (HTTPException 400 (Detail "Ad must be active to topup"))).
Proof.
  intros Hbody Hed Hstatus Htrns Had Htype Hfind Howner Hauth Huid Heq w1.
  pose proof (payment_webhook_db w request t_completed t_now body ed trns
                Hbody Hed Hstatus Htrns) as Hdb.
  fold w1 in Hdb. unfold py_get in Hdb. rewrite Had, Htype in Hdb.
  cbn [default from_option id] in Hdb. rewrite payment_effect_post_ad in Hdb.
  set (fields := ({[ "is_paid" := VBool true; "status" := VStr "pending" ]} : doc)) in *.
  assert (Hfind1 : find_one {[ "ad_id" := VStr ad_id ]} (ads (db w1))
                   = Some (set_fields fields ad)).
  { rewrite Hdb. cbn [ads with_ads with_payments].
    rewrite find_one_update_one, Hfind; [reflexivity|].
    intros d. apply matches_set_fields. subst fields.
    rewrite lookup_insert_ne by (clear; congruence).
    apply lookup_singleton_ne. clear. congruence. }
  assert (Hst : set_fields fields ad !! "status" = Some (VStr "pending")).
  { apply set_fields_lookup. subst fields.
    rewrite lookup_insert_ne by (clear; congruence). apply lookup_singleton_eq. }
  assert (Hpaid : set_fields fields ad !! "is_paid" = Some (VBool true)).
  { apply set_fields_lookup, lookup_insert_eq. }
  assert (Howner1 : set_fields fields ad !! "user_id" = Some ad_user).
  { rewrite set_fields_lookup_other; [exact Howner|]. subst fields.
    rewrite lookup_insert_ne by (clear; congruence).
    apply lookup_singleton_ne. clear. congruence. }
  unfold stored_field. rewrite Hfind1. cbn [mbind option_bind].
  split; [exact Hst|]. split; [exact Hpaid|].
  eapply topup_ad_inactive; [|exact Hfind1|exact Howner1|exact Huid|exact Heq|exact Hst|].
  - apply (require_auth_frame owner_request t1 w); [| |exact Hauth];
      rewrite Hdb; reflexivity.
  - clear. congruence.
Qed.

(** X19. [verify_payment], which asks for no authentication, after a
    delivery with status ["F"] for an order code that a stored payment
    carries: when the delivery's correlation blob is absent, unparsable or
    a JSON object, the order is reported as [completed], with the payment
    type and the ad id recorded when the order was created; when the blob
    is valid JSON that is not an object, the delivery fails before any
    write and the order is reported with the status it had. *)
Theorem verify_payment_after_webhook (w : world) (request : request)
    (t_completed t_now : Z) (body ed p : doc) (order_code : Z) :
  json request = VDict body →
  body !! "EventData" = Some (VDict ed) →
  ed !! "StatusId" = Some (VStr "F") →
  ed !! "OrderCode" = Some (VNum order_code) →
  find_one {[ "order_code" := VNum order_code ]} (payments (db w)) = Some p →
  let trns_data := load_trns_data (py_get_default ed "MerchantTrns" (VStr "{}")) in
  let out := payment_webhook request t_completed t_now w in
  ((∃ trns, trns_data = VDict trns) →
     verify_payment order_code out.1 =
       (out.1, Return (VDict {[ "order_code" := VNum order_code;
                                "status" := VStr "completed";
                                "payment_type" := py_get p "payment_type";
                                "ad_id" := py_get p "ad_id" ]}))) ∧
  ((∀ trns, trns_data ≠ VDict trns) →
     out = (w, Raise (Uncaught "AttributeError")) ∧
     find_one {[ "order_code" := VNum order_code ]} (payments (db out.1)) = Some p ∧
     verify_payment order_code out.1 =
       if bool_decide (p = ∅)
       then (out.1, Raise (HTTPException 404 (Detail "Payment not found")))
       else
       (out.1, Return (VDict {[ "order_code" := VNum order_code;
                                "status" := py_get p "status";
                                "payment_type" := py_get p "payment_type";
                                "ad_id" := py_get p "ad_id" ]}))).
Proof.
  intros Hbody Hed Hstatus Hcode Hfind trns_data out. split.
  - intros [trns Htrns]. subst trns_data out.
    set (w1 := (payment_webhook request t_completed t_now w).1).
    pose proof (payment_webhook_db w request t_completed t_now body ed trns
                  Hbody Hed Hstatus Htrns) as Hdb.
    fold w1 in Hdb. unfold py_get in Hdb at 3. rewrite Hcode in Hdb.
    cbn [default from_option id] in Hdb.
    set (fields := ({[ "status" := VStr "completed";
                       "transaction_id" := py_get ed "TransactionId";
                       "completed_at" := VTime t_completed ]} : doc)) in *.
    assert (Hfind1 : find_one {[ "order_code" := VNum order_code ]} (payments (db w1))
                     = Some (set_fields fields p)).
    { rewrite Hdb. cbn [payments with_ads with_payments].
      rewrite find_one_update_one, Hfind; [reflexivity|].
      intros d. apply matches_set_fields. subst fields.
      rewrite !lookup_insert_ne by (clear; congruence).
      apply lookup_singleton_ne. clear. congruence. }
    assert (Hother : ∀ k, k ≠ "status" → k ≠ "transaction_id" → k ≠ "completed_at" →
                       py_get (set_fields fields p) k = py_get p k).
    { intros k H1 H2 H3. unfold py_get. rewrite set_fields_lookup_other; [reflexivity|].
      subst fields. rewrite !lookup_insert_ne by (clear -H1 H2; congruence).
      apply lookup_singleton_ne. clear -H3. congruence. }
    unfold verify_payment. rewrite bind_read, Hfind1.
    cbn [py_not_doc default from_option id].
    rewrite bool_decide_eq_false_2.
    2: { intros Hempty.
         assert (Hl : set_fields fields p !! "status" = Some (VStr "completed"))
           by apply set_fields_lookup, lookup_insert_eq.
         rewrite Hempty, lookup_empty in Hl. discriminate. }
    rewrite (Hother "payment_type"), (Hother "ad_id") by (clear; congruence).
    unfold py_get at 1. rewrite (set_fields_lookup fields p "status" (VStr "completed"))
      by apply lookup_insert_eq.
    reflexivity.
  - intros Hnot.
    assert (Hout : out = (w, Raise (Uncaught "AttributeError"))).
    { subst out.
      exact (payment_webhook_not_object w request t_completed t_now body ed Hbody Hed Hnot). }
    split; [exact Hout|]. rewrite Hout. cbn [fst].
    split; [exact Hfind|].
    unfold verify_payment. rewrite bind_read, Hfind.
    cbn [py_not_doc default from_option id].
    destruct (bool_decide (p = ∅)); reflexivity.
Qed.

Lemma update_one_twice (filter : doc) (g1 g2 : doc → doc) (c : list doc) :
  (∀ d, matches filter (g1 d) = matches filter d) →
  (∀ d, g2 (g1 d) = g2 d) →
  update_one filter g2 (update_one filter g1 c) = update_one filter g2 c.
Proof.
  intros Hm Hg. induction c as [|x c IH]; [reflexivity|].
  simpl. destruct (matches filter x) eqn:E; simpl.
  - rewrite Hm, E, Hg. reflexivity.
  - rewrite E, IH. reflexivity.
Qed.

Lemma set_fields_twice (f1 f2 d : doc) :
  dom f1 ⊆ dom f2 → set_fields f2 (set_fields f1 d) = set_fields f2 d.
Proof.
  intros Hdom. unfold set_fields. apply map_eq. intros k.
  rewrite !lookup_union.
  destruct (f2 !! k) as [x|] eqn:E2.
  - destruct (f1 !! k), (d !! k); reflexivity.
  - assert (E1 : f1 !! k = None).
    { apply not_elem_of_dom. intros Hk. apply Hdom in Hk.
      apply elem_of_dom in Hk as [y Hy]. clear -Hy E2. congruence. }
    rewrite E1. destruct (d !! k); reflexivity.
Qed.

Lemma payment_effect_dom (payment_type : value) (t t' : Z) :
  dom (payment_effect payment_type t) ⊆ dom (payment_effect payment_type t').
Proof.
  unfold payment_effect.
  repeat (destruct (py_eq payment_type _));
    rewrite ?dom_insert_L, ?dom_singleton_L; reflexivity.
Qed.

(** X20. Deliveries do not stack: when the gateway delivers the same
    completed notification twice, the database after the second delivery
    is the one a single delivery at the second instant would have left
    (the boost or promotion period restarts, it is not added up). *)
Theorem payment_webhook_redelivery (w : world) (request : request)
    (t_completed t_now t_completed' t_now' : Z) (body ed trns : doc) :
  json request = VDict body →
  body !! "EventData" = Some (VDict ed) →
  ed !! "StatusId" = Some (VStr "F") →
  load_trns_data (py_get_default ed "MerchantTrns" (VStr "{}")) = VDict trns →
  db (payment_webhook request t_completed' t_now'
        (payment_webhook request t_completed t_now w).1).1 =
  db (payment_webhook request t_completed' t_now' w).1.
Proof.
  intros Hbody Hed Hstatus Htrns.
  rewrite !(payment_webhook_db _ request _ _ body ed trns Hbody Hed Hstatus Htrns).
  unfold with_ads, with_payments.
  cbn [ads users user_sessions payments favorites conversations messages banners
       managed_categories managed_cities].
  f_equal.
  - apply update_one_twice.
    + intros d. apply matches_set_fields, payment_effect_ad_id.
    + intros d. apply set_fields_twice, payment_effect_dom.
  - apply update_one_twice.
    + intros d. apply matches_set_fields.
      rewrite !lookup_insert_ne by (clear; congruence).
      apply lookup_singleton_ne. clear. congruence.
    + intros d. apply set_fields_twice.
      rewrite !dom_insert_L, !dom_singleton_L. reflexivity.
Qed.

(** *** Referrals *)

Lemma inc_field_count (d : doc) (k : string) (n m : Z) :
  has_count d k n → inc_field k m d = <[k := VNum (n + m)]> d.
Proof. unfold inc_field. intros [->|[-> ->]]; reflexivity. Qed.

Lemma matches_inc_field (k k' : string) (v : value) (n : Z) (d : doc) :
  k ≠ k' → matches {[ k' := v ]} (inc_field k n d) = matches {[ k' := v ]} d.
Proof. intros Hne. apply matches_same_field, inc_field_lookup_ne, Hne. Qed.

(** X21. [track_referral], which asks for no authentication, answers
    [tracked: False] and changes nothing when the body carries no usable
    [ref_code] or no user has that code; otherwise it adds exactly one to
    the [referral_count] of the first user carrying the code (an absent
    count reads as 0), keeps every other field of that user, and names
    that user in the answer. *)
Theorem track_referral_effect (w : world) (request : request) (body : doc) :
  json request = VDict body →
  let ref_code := py_get body "ref_code" in
  let by_code : doc := {[ "referral_code" := ref_code ]} in
  let out := track_referral request w in
  (py_truthy ref_code = false ∨ find_one by_code (users (db w)) = None →
     out = (w, Return (VDict {[ "tracked" := VBool false ]}))) ∧
  (∀ referrer uid n,
     py_truthy ref_code = true →
     find_one by_code (users (db w)) = Some referrer →
     referrer !! "user_id" = Some uid →
     has_count referrer "referral_count" n →
     out.2 = Return (VDict {[ "tracked" := VBool true; "referrer_id" := uid ]}) ∧
     sent out.1 = sent w ∧ ads (db out.1) = ads (db w) ∧
     ∃ referrer', find_one by_code (users (db out.1)) = Some referrer' ∧
        referrer' !! "referral_count" = Some (VNum (n + 1)) ∧
        ∀ k, k ≠ "referral_count" → referrer' !! k = referrer !! k).
Proof.
  intros Hbody ref_code by_code out. subst out. unfold track_referral.
  rewrite Hbody, bind_dict_get. fold (py_get body "ref_code"). fold ref_code.
  split.
  - intros [Hfalsy|Hnone].
    + rewrite Hfalsy. reflexivity.
    + destruct (py_truthy ref_code); [|reflexivity]. cbn [negb].
      rewrite bind_read. fold by_code. rewrite Hnone. reflexivity.
  - intros referrer uid n Htruthy Hfind Huid Hcount. rewrite Htruthy. cbn [negb].
    rewrite bind_read. fold by_code. rewrite Hfind.
    cbn [py_not_doc default from_option id].
    rewrite bool_decide_eq_false_2.
    2: { intros ->. rewrite lookup_empty in Huid. discriminate. }
    cbn [negb].
    assert (Hwrite : ∀ B (f : unit → handler B),
      (match referrer !! "referral_count" with
       | None | Some (VNum _) =>
           write (with_users (update_one by_code (inc_field "referral_count" 1)))
       | Some _ => raise (Uncaught "WriteError")
       end ≫= f) w =
      f () {| db := with_users (update_one by_code (inc_field "referral_count" 1)) (db w);
              sent := sent w |}).
    { intros B f. destruct Hcount as [->|[-> _]]; reflexivity. }
    rewrite Hwrite, (bind_getitem _ _ _ _ _ Huid).
    cbn [mret handler_ret fst snd db sent ads users with_users].
    split; [reflexivity|]. split; [reflexivity|]. split; [reflexivity|].
    eexists. split.
    + rewrite find_one_update_one, Hfind; [reflexivity|].
      intros d. apply matches_inc_field. clear. congruence.
    + rewrite (inc_field_count _ _ _ 1 Hcount). split; [apply lookup_insert_eq|].
      intros k Hk. apply lookup_insert_ne. clear -Hk. congruence.
Qed.

Lemma require_auth_inv (request : request) (t : Z) (w : world) (user : doc) :
  require_auth request t w = (w, Return user) →
  ∃ (tok : string) (session : doc) (e : Z) (uid : value),
    request_session_token request w = (w, Return tok) ∧ tok ≠ "" ∧
    find_one {[ "session_token" := VStr tok ]} (user_sessions (db w)) = Some session ∧
    session !! "expires_at" = Some (VTime e) ∧ t ≤ e ∧
    session !! "user_id" = Some uid ∧
    find_one {[ "user_id" := uid ]} (users (db w)) = Some user ∧ user ≠ ∅.
Proof.
  unfold require_auth, get_current_user. rewrite !bind_eq.
  destruct (request_session_token_indep request) as [r Hr]. rewrite Hr.
  destruct r as [tok|e]; [|discriminate].
  destruct (String.eqb tok "") eqn:Htok; [discriminate|].
  rewrite bind_read.
  destruct (find_one _ (user_sessions (db w))) as [session|] eqn:Hs; [|discriminate].
  destruct (bool_decide (session = ∅)); [discriminate|].
  unfold py_get.
  destruct (session !! "expires_at") as [[| | | |e| |]|] eqn:He;
    cbn [default from_option id as_datetime]; rewrite ?bind_raise, ?bind_ret;
    try discriminate.
  destruct (e <? t) eqn:Hlt; [discriminate|].
  unfold getitem.
  destruct (session !! "user_id") as [uid|] eqn:Hu;
    rewrite ?bind_raise, ?bind_ret; [|discriminate].
  unfold read.
  destruct (find_one {[ "user_id" := uid ]} (users (db w))) as [u|] eqn:Hfind;
    [|discriminate].
  destruct (bool_decide (u = ∅)) eqn:Hne; [discriminate|].
  intros [= ->].
  exists tok, session, e, uid.
  split; [reflexivity|]. split; [apply String.eqb_neq, Htok|].
  split; [exact Hs|]. split; [exact He|]. split; [apply Z.ltb_ge, Hlt|].
  split; [exact Hu|]. split; [exact Hfind|].
  apply bool_decide_eq_false in Hne. exact Hne.
Qed.

(** An update of the first match of one filter, seen through another
    filter that selects the same document. *)
Lemma find_one_update_one_other (f1 f2 : doc) (g : doc → doc) (c : list doc) (d : doc) :
  find_one f1 c = Some d → find_one f2 c = Some d →
  (∀ x, matches f1 (g x) = matches f1 x) →
  find_one f1 (update_one f2 g c) = Some (g d).
Proof.
  intros H1 H2 Hg. induction c as [|x c IH]; [discriminate|].
  unfold find_one in *. simpl in *.
  destruct (matches f2 x) eqn:E2.
  - inversion H2; subst x. simpl. rewrite Hg.
    destruct (matches f1 d) eqn:E1; [reflexivity|].
    apply find_some in H1 as [_ H1]. clear -H1 E1. congruence.
  - simpl. destruct (matches f1 x) eqn:E1.
    + inversion H1; subst x.
      apply find_some in H2 as [_ H2]. clear -H2 E2. congruence.
    + exact (IH H1 H2).
Qed.

(** X22. One tracked referral shortens the referrer's cooldown: an owner
    without referrals whose ad was topped up between 40 and 60 minutes
    ago is refused, and after a single visit with the owner's referral
    code the same top-up succeeds. *)
Theorem referral_shortens_cooldown (w : world) (visit owner_request : request)
    (ad_id : string) (t1 t2 t3 last : Z) (body user ad : doc) (uid ad_user : value) :
  json visit = VDict body →
  py_truthy (py_get body "ref_code") = true →
  find_one {[ "referral_code" := py_get body "ref_code" ]} (users (db w)) = Some user →
  require_auth owner_request t1 w = (w, Return user) →
  user !! "user_id" = Some uid →
  has_count user "referral_count" 0 →
  find_one {[ "ad_id" := VStr ad_id ]} (ads (db w)) = Some ad →
  ad !! "user_id" = Some ad_user →
  py_eq ad_user uid = true →
  ad !! "status" = Some (VStr "active") →
  ad !! "last_topup" = Some (VTime last) →
  40 * minute ≤ t2 - last < 60 * minute →
  topup_ad ad_id owner_request t1 t2 t3 w =
    (w, Raise (HTTPException 400
                 (DetailTopupWait (Z.quot (60 * minute - (t2 - last)) minute)))) ∧
  let w1 := (track_referral visit w).1 in
  topup_ad ad_id owner_request t1 t2 t3 w1 =
    (topped_up ad_id t3 w1,
     Return (VDict {[ "message" := VStr "TopUp successful";
                      "next_topup_available_in" := VNum 40 ]})).
Proof.
  intros Hbody Htruthy Hcode Hauth Huid Hcount Hfind Howner Heq Hstatus Hlast [Hge Hlt].
  split.
  - rewrite (topup_ad_cooling w owner_request ad_id t1 t2 t3 user ad ad_user uid 60 last
               Hauth Hfind Howner Huid Heq Hstatus Hlast).
    + rewrite (proj2 (Z.ltb_lt _ _) Hlt). reflexivity.
    + destruct Hcount as [Hc|[Hc _]]; [right; exists 0; split; [exact Hc|reflexivity]
                                       |left; split; [exact Hc|reflexivity]].
  - intros w1.
    assert (Hw1 : w1 = {| db := with_users
                              (update_one {[ "referral_code" := py_get body "ref_code" ]}
                                 (inc_field "referral_count" 1)) (db w);
                          sent := sent w |}).
    { subst w1. unfold track_referral.
      rewrite Hbody, bind_dict_get. fold (py_get body "ref_code").
      rewrite Htruthy. cbn [negb]. rewrite bind_read, Hcode.
      cbn [py_not_doc default from_option id].
      rewrite bool_decide_eq_false_2.
      2: { intros ->. rewrite lookup_empty in Huid. discriminate. }
      cbn [negb].
      destruct Hcount as [Hc|[Hc _]]; rewrite Hc; cbv iota;
        rewrite bind_write, (bind_getitem _ _ _ _ _ Huid); reflexivity. }
    destruct (require_auth_inv _ _ _ _ Hauth)
      as (tok & session & e & suid & Htok & Hne & Hs & He & Hle & Hsu & Hu & Hnonempty).
    destruct (request_session_token_indep owner_request) as [r Hr].
    assert (Htok1 : request_session_token owner_request w1 = (w1, Return tok)).
    { rewrite Hr in Htok |- *. inversion Htok. reflexivity. }
    set (user' := inc_field "referral_count" 1 user).
    assert (Huser' : user' = <["referral_count" := VNum 1]> user).
    { subst user'. rewrite (inc_field_count _ _ _ 1 Hcount). reflexivity. }
    assert (Hauth1 : require_auth owner_request t1 w1 = (w1, Return user')).
    { eapply require_auth_found; [exact Htok1|exact Hne| |exact He|exact Hle|exact Hsu| |].
      - rewrite Hw1. exact Hs.
      - rewrite Hw1. cbn [db users with_users].
        apply find_one_update_one_other; [exact Hu|exact Hcode|].
        intros x. apply matches_inc_field. clear. congruence.
      - rewrite Huser'. apply insert_non_empty. }
    assert (Hfind1 : find_one {[ "ad_id" := VStr ad_id ]} (ads (db w1)) = Some ad).
    { rewrite Hw1. exact Hfind. }
    assert (Huid' : user' !! "user_id" = Some uid).
    { rewrite Huser', lookup_insert_ne by (clear; congruence). exact Huid. }
    rewrite (topup_ad_cooling w1 owner_request ad_id t1 t2 t3 user' ad ad_user uid 40 last
               Hauth1 Hfind1 Howner Huid' Heq Hstatus Hlast).
    + rewrite (proj2 (Z.ltb_ge _ _) Hge). reflexivity.
    + right. exists 1. split; [|reflexivity]. rewrite Huser'. apply lookup_insert_eq.
Qed.

Lemma update_one_compose (filter : doc) (g1 g2 : doc → doc) (c : list doc) :
  (∀ d, matches filter (g1 d) = matches filter d) →
  update_one filter g2 (update_one filter g1 c) = update_one filter (λ d, g2 (g1 d)) c.
Proof.
  intros Hm. induction c as [|x c IH]; [reflexivity|].
  simpl. destruct (matches filter x) eqn:E; simpl.
  - rewrite Hm, E. reflexivity.
  - rewrite E, IH. reflexivity.
Qed.

Lemma update_one_fixes (filter : doc) (g : doc → doc) (c : list doc) (d : doc) :
  find_one filter c = Some d → g d = d → update_one filter g c = c.
Proof.
  intros Hfind Hg.
  destruct (update_one_first filter g c d Hfind) as (before & after & Hc & _ & ->).
  rewrite Hg, Hc. reflexivity.
Qed.

Lemma world_ext (w w' : world) :
  ads (db w') = ads (db w) → users (db w') = users (db w) →
  user_sessions (db w') = user_sessions (db w) → payments (db w') = payments (db w) →
  favorites (db w') = favorites (db w) → conversations (db w') = conversations (db w) →
  messages (db w') = messages (db w) → banners (db w') = banners (db w) →
  managed_categories (db w') = managed_categories (db w) →
  managed_cities (db w') = managed_cities (db w) →
  sent w' = sent w → w' = w.
Proof.
  destruct w as [[] ?], w' as [[] ?]. cbn. intros. subst. reflexivity.
Qed.

(** *** Favorites *)

Lemma inc_ads_count {B} (filter : doc) (k : string) (m n : Z) (ad : doc)
    (f : unit → handler B) (w : world) :
  find_one filter (ads (db w)) = Some ad →
  has_count ad k n →
  (inc_ads filter k m ≫= f) w =
    f () {| db := with_ads (update_one filter (inc_field k m)) (db w); sent := sent w |}.
Proof.
  intros Hfind Hcount. unfold inc_ads. rewrite bind_eq, bind_read, Hfind.
  cbn [mbind option_bind]. destruct Hcount as [->|[-> _]]; reflexivity.
Qed.

(** X23. The refusals of the favorites endpoints leave everything as it
    was: adding a favorite for an ad that does not exist gives 404, adding
    one that the caller already has gives 400, and removing one that the
    caller does not have gives 404. *)
Theorem favorite_refusals (w : world) (request : request) (ad_id uuid_hex : string)
    (t t_now : Z) (user : doc) (uid : value) :
  require_auth request t w = (w, Return user) →
  user !! "user_id" = Some uid →
  let mine : doc := {[ "user_id" := uid; "ad_id" := VStr ad_id ]} in
  (find_one {[ "ad_id" := VStr ad_id ]} (ads (db w)) = None →
     add_favorite ad_id request uuid_hex t t_now w =
       (w, Raise (HTTPException 404 (Detail "Ad not found")))) ∧
  (∀ ad fav, find_one {[ "ad_id" := VStr ad_id ]} (ads (db w)) = Some ad → ad ≠ ∅ →
     find_one mine (favorites (db w)) = Some fav →
     add_favorite ad_id request uuid_hex t t_now w =
       (w, Raise (HTTPException 400 (Detail "Already in favorites")))) ∧
  (find_one mine (favorites (db w)) = None →
     remove_favorite ad_id request t w =
       (w, Raise (HTTPException 404 (Detail "Favorite not found")))).
Proof.
  intros Hauth Huid mine. split; [|split].
  - intros Hnone. unfold add_favorite. rewrite bind_eq, Hauth, bind_read, Hnone.
    reflexivity.
  - intros ad fav Had Hne Hfav. unfold add_favorite.
    rewrite bind_eq, Hauth, bind_read, Had. cbn [py_not_doc].
    rewrite (bool_decide_eq_false_2 _ Hne).
    rewrite (bind_getitem _ _ _ _ _ Huid), bind_read. fold mine. rewrite Hfav.
    reflexivity.
  - intros Hnone. unfold remove_favorite.
    rewrite bind_eq, Hauth, (bind_getitem _ _ _ _ _ Huid), bind_read. fold mine.
    rewrite Hnone, bind_write. unfold raise, with_favorites.
    rewrite (delete_one_no_match _ _ Hnone). destruct w as [[] ?]. reflexivity.
Qed.

(** X24. Adding a favorite and removing it again is a round trip: after
    the addition [check_favorite] says yes and the ad's [favorites_count]
    is one higher; after the removal the favorites collection is as
    before, [check_favorite] says no and the count is back (an ad that had
    no counter keeps one, at 0).  When the ad already had a counter, the
    whole state is as before. *)
Theorem add_then_remove_favorite (w : world) (request : request)
    (ad_id uuid_hex : string) (t t_now : Z) (user ad : doc) (uid : value) (n : Z) :
  bson_match uid (Some uid) = true →
  bson_match (VStr ad_id) (Some (VStr ad_id)) = true →
  require_auth request t w = (w, Return user) →
  user !! "user_id" = Some uid →
  find_one {[ "ad_id" := VStr ad_id ]} (ads (db w)) = Some ad → ad ≠ ∅ →
  find_one {[ "user_id" := uid; "ad_id" := VStr ad_id ]} (favorites (db w)) = None →
  has_count ad "favorites_count" n →
  let added := add_favorite ad_id request uuid_hex t t_now w in
  let removed := remove_favorite ad_id request t added.1 in
  added.2 = Return (VDict {[ "message" := VStr "Added to favorites";
                             "favorite_id" := VStr ("fav_" +:+ uuid_hex) ]}) ∧
  check_favorite ad_id request t added.1 =
    (added.1, Return (VDict {[ "is_favorite" := VBool true ]})) ∧
  stored_field ad_id "favorites_count" added.1 = Some (VNum (n + 1)) ∧
  removed.2 = Return (VDict {[ "message" := VStr "Removed from favorites" ]}) ∧
  favorites (db removed.1) = favorites (db w) ∧
  check_favorite ad_id request t removed.1 =
    (removed.1, Return (VDict {[ "is_favorite" := VBool false ]})) ∧
  stored_field ad_id "favorites_count" removed.1 = Some (VNum n) ∧
  (ad !! "favorites_count" = Some (VNum n) → removed.1 = w).
Proof.
  intros Huid_refl Had_refl Hauth Huid Hfind Hne Hfresh Hcount added removed.
  set (mine := ({[ "user_id" := uid; "ad_id" := VStr ad_id ]} : doc)) in *.
  set (by_ad := ({[ "ad_id" := VStr ad_id ]} : doc)) in *.
  set (fav := ({[ "favorite_id" := VStr ("fav_" +:+ uuid_hex);
                  "user_id" := uid;
                  "ad_id" := VStr ad_id;
                  "ad_price" := py_get ad "price";
                  "created_at" := VTime t_now ]} : doc)).
  set (w1 := {| db := with_ads (update_one by_ad (inc_field "favorites_count" 1))
                        (with_favorites (insert_one fav) (db w));
                sent := sent w |}).
  assert (Hadded : added = (w1, Return (VDict {[ "message" := VStr "Added to favorites";
                               "favorite_id" := VStr ("fav_" +:+ uuid_hex) ]}))).
  { subst added. unfold add_favorite.
    rewrite bind_eq, Hauth, bind_read. fold by_ad. rewrite Hfind. cbn [py_not_doc].
    rewrite (bool_decide_eq_false_2 _ Hne), (bind_getitem _ _ _ _ _ Huid), bind_read.
    fold mine. rewrite Hfresh, bind_write.
    rewrite (inc_ads_count by_ad "favorites_count" 1 n ad); [reflexivity|exact Hfind|exact Hcount]. }
  assert (Hmatch : matches mine fav = true).
  { unfold mine, fav, by_ad. rewrite matches_pair by (clear; congruence).
    rewrite lookup_insert_ne, lookup_insert_eq by (clear; congruence).
    rewrite !lookup_insert_ne, lookup_insert_eq by (clear; congruence).
    rewrite Huid_refl, Had_refl. reflexivity. }
  assert (Hfav1 : find_one mine (favorites (db w1)) = Some fav).
  { subst w1. cbn [db favorites with_ads with_favorites].
    rewrite find_one_insert_one, Hfresh, Hmatch. reflexivity. }
  set (ad1 := inc_field "favorites_count" 1 ad).
  assert (Had1 : ad1 = <["favorites_count" := VNum (n + 1)]> ad).
  { subst ad1. apply inc_field_count, Hcount. }
  assert (Hfind1 : find_one by_ad (ads (db w1)) = Some ad1).
  { subst w1. cbn [db ads with_ads with_favorites].
    rewrite find_one_update_one, Hfind; [reflexivity|].
    intros d. apply matches_inc_field. clear. congruence. }
  assert (Hauth1 : require_auth request t w1 = (w1, Return user)).
  { apply (require_auth_frame request t w); [reflexivity|reflexivity|exact Hauth]. }
  set (w2 := {| db := with_ads (update_one by_ad (inc_field "favorites_count" (-1)))
                        (with_favorites (delete_one mine) (db w1));
                sent := sent w1 |}).
  assert (Hremoved : remove_favorite ad_id request t w1 =
                     (w2, Return (VDict {[ "message" := VStr "Removed from favorites" ]}))).
  { unfold remove_favorite.
    rewrite bind_eq, Hauth1, (bind_getitem _ _ _ _ _ Huid), bind_read. fold by_ad. fold mine.
    rewrite Hfav1, bind_write.
    rewrite (inc_ads_count by_ad "favorites_count" (-1) (n + 1) ad1); [reflexivity| |].
    - cbn [db ads with_favorites]. exact Hfind1.
    - left. rewrite Had1. apply lookup_insert_eq. }
  assert (Hfavs2 : favorites (db w2) = favorites (db w)).
  { subst w2 w1. cbn [db favorites with_ads with_favorites].
    apply delete_one_insert_one; assumption. }
  set (ad2 := inc_field "favorites_count" (-1) ad1).
  assert (Had2 : ad2 = <["favorites_count" := VNum n]> ad).
  { subst ad2. rewrite (inc_field_count ad1 "favorites_count" (n + 1) (-1)).
    - rewrite Had1, insert_insert_eq. f_equal. f_equal. lia.
    - left. rewrite Had1. apply lookup_insert_eq. }
  assert (Hfind2 : find_one by_ad (ads (db w2)) = Some ad2).
  { subst w2. cbn [db ads with_ads with_favorites].
    rewrite find_one_update_one, Hfind1; [reflexivity|].
    intros d. apply matches_inc_field. clear. congruence. }
  assert (Hauth2 : require_auth request t w2 = (w2, Return user)).
  { apply (require_auth_frame request t w); [reflexivity|reflexivity|exact Hauth]. }
  subst removed. rewrite Hadded. cbn [fst snd]. rewrite Hremoved. cbn [fst snd].
  split; [reflexivity|].
  split.
  { unfold check_favorite.
    rewrite bind_eq, Hauth1, (bind_getitem _ _ _ _ _ Huid), bind_read. fold by_ad. fold mine.
    rewrite Hfav1. reflexivity. }
  split.
  { unfold stored_field. fold by_ad. rewrite Hfind1. cbn [mbind option_bind].
    rewrite Had1. apply lookup_insert_eq. }
  split; [reflexivity|].
  split; [exact Hfavs2|].
  split.
  { unfold check_favorite.
    rewrite bind_eq, Hauth2, (bind_getitem _ _ _ _ _ Huid), bind_read. fold by_ad. fold mine.
    rewrite Hfavs2, Hfresh. reflexivity. }
  split.
  { unfold stored_field. fold by_ad. rewrite Hfind2. cbn [mbind option_bind].
    rewrite Had2. apply lookup_insert_eq. }
  intros Hstored.
  assert (Hads : ads (db w2) = ads (db w)).
  { subst w2 w1. cbn [db ads with_ads with_favorites].
    rewrite update_one_compose
      by (intros d; apply matches_inc_field; clear; congruence).
    apply (update_one_fixes _ _ _ ad Hfind).
    fold ad1. fold ad2. rewrite Had2. apply insert_id. exact Hstored. }
  apply world_ext; try reflexivity; assumption.
Qed.

(** *** Managed categories and cities *)

(** X25. An admin cannot delete a managed category or city while some ad
    carries its id: the request is refused with 400, the message gives the
    number of such ads, and nothing changes.  When no ad carries the id,
    exactly the first managed entry with that id is removed (later entries
    with the same id stay; without such an entry the collection is as it
    was) and nothing else changes. *)
Theorem admin_delete_taxonomy_guard (w : world) (request : request) (t : Z) (admin : doc) :
  require_admin request t w = (w, Return admin) →
  (∀ category_id,
     let in_use : doc := {[ "category_id" := VStr category_id ]} in
     let by_id : doc := {[ "id" := VStr category_id ]} in
     let out := admin_delete_category category_id request t w in
     (∀ ad, find_one in_use (ads (db w)) = Some ad →
        0 < count_documents in_use (ads (db w)) ∧
        out = (w, Raise (HTTPException 400 (Detail
                 ("Cannot delete: " +:+ pretty (count_documents in_use (ads (db w)))
                  +:+ " ads use this category"))))) ∧
     (find_one in_use (ads (db w)) = None →
        out.2 = Return (VDict {[ "message" := VStr "Category deleted" ]}) ∧
        managed_categories (db out.1) = delete_one by_id (managed_categories (db w)) ∧
        (∀ entry, find_one by_id (managed_categories (db w)) = Some entry →
           ∃ before after : list doc,
             managed_categories (db w) = (before ++ entry :: after)%list ∧
             (∀ x, x ∈ before → matches by_id x = false) ∧
             managed_categories (db out.1) = (before ++ after)%list) ∧
        (find_one by_id (managed_categories (db w)) = None →
           managed_categories (db out.1) = managed_categories (db w)) ∧
        ads (db out.1) = ads (db w) ∧
        managed_cities (db out.1) = managed_cities (db w) ∧
        sent out.1 = sent w)) ∧
  (∀ city_id,
     let in_use : doc := {[ "city_id" := VStr city_id ]} in
     let by_id : doc := {[ "id" := VStr city_id ]} in
     let out := admin_delete_city city_id request t w in
     (∀ ad, find_one in_use (ads (db w)) = Some ad →
        0 < count_documents in_use (ads (db w)) ∧
        out = (w, Raise (HTTPException 400 (Detail
                 ("Cannot delete: " +:+ pretty (count_documents in_use (ads (db w)))
                  +:+ " ads use this city"))))) ∧
     (find_one in_use (ads (db w)) = None →
        out.2 = Return (VDict {[ "message" := VStr "City deleted" ]}) ∧
        managed_cities (db out.1) = delete_one by_id (managed_cities (db w)) ∧
        (∀ entry, find_one by_id (managed_cities (db w)) = Some entry →
           ∃ before after : list doc,
             managed_cities (db w) = (before ++ entry :: after)%list ∧
             (∀ x, x ∈ before → matches by_id x = false) ∧
             managed_cities (db out.1) = (before ++ after)%list) ∧
        (find_one by_id (managed_cities (db w)) = None →
           managed_cities (db out.1) = managed_cities (db w)) ∧
        ads (db out.1) = ads (db w) ∧
        managed_categories (db out.1) = managed_categories (db w) ∧
        sent out.1 = sent w)).
Proof.
  intros Hadmin.
  assert (Hpos : ∀ (filter : doc) (ad : doc),
            find_one filter (ads (db w)) = Some ad →
            0 < count_documents filter (ads (db w))).
  { intros filter ad Hfind.
    pose proof (count_documents_nonneg filter (ads (db w))) as Hge.
    destruct (decide (count_documents filter (ads (db w)) = 0)) as [Hz|Hnz]; [|lia].
    apply count_documents_zero in Hz. clear -Hz Hfind. congruence. }
  split.
  - intros category_id in_use by_id out. subst out. unfold admin_delete_category.
    rewrite bind_eq, Hadmin, bind_read. fold in_use. split.
    + intros ad Hfind. pose proof (Hpos in_use ad Hfind) as Hlt.
      split; [exact Hlt|]. rewrite (proj2 (Z.ltb_lt _ _) Hlt). reflexivity.
    + intros Hnone. apply count_documents_zero in Hnone. rewrite Hnone.
      cbn [Z.ltb Z.compare]. rewrite bind_write. fold by_id.
      cbn [mret handler_ret fst snd db sent ads managed_categories managed_cities
           with_managed_categories].
      split; [reflexivity|]. split; [reflexivity|]. split.
      { intros entry Hentry.
        destruct (delete_one_first _ _ _ Hentry) as (before & after & Hc & Hb & Hd).
        exists before, after. repeat split; assumption. }
      split; [intros Hmissing; apply delete_one_no_match, Hmissing|].
      repeat split; reflexivity.
  - intros city_id in_use by_id out. subst out. unfold admin_delete_city.
    rewrite bind_eq, Hadmin, bind_read. fold in_use. split.
    + intros ad Hfind. pose proof (Hpos in_use ad Hfind) as Hlt.
      split; [exact Hlt|]. rewrite (proj2 (Z.ltb_lt _ _) Hlt). reflexivity.
    + intros Hnone. apply count_documents_zero in Hnone. rewrite Hnone.
      cbn [Z.ltb Z.compare]. rewrite bind_write. fold by_id.
      cbn [mret handler_ret fst snd db sent ads managed_categories managed_cities
           with_managed_cities].
      split; [reflexivity|]. split; [reflexivity|]. split.
      { intros entry Hentry.
        destruct (delete_one_first _ _ _ Hentry) as (before & after & Hc & Hb & Hd).
        exists before, after. repeat split; assumption. }
      split; [intros Hmissing; apply delete_one_no_match, Hmissing|].
      repeat split; reflexivity.
Qed.

(** *** Pagination *)

(** X26. For a positive page size the [pages] entry of a paginated answer
    is the number of pages needed to show [total] documents: the least
    [p] with [total ≤ p * limit] (0 for an empty listing).  A page size
    of 0 makes the expression raise [ZeroDivisionError]. *)
Theorem pages_is_ceiling (total limit : Z) :
  0 ≤ total →
  (0 < limit →
     ∃ p, pages total limit = mret p ∧
          total ≤ p * limit ∧ (p - 1) * limit < total ∧
          (total = 0 → p = 0)) ∧
  (limit = 0 → pages total limit = raise (Uncaught "ZeroDivisionError")).
Proof.
  forget_unused.
  intros Htotal. split.
  - intros Hlimit. unfold pages.
    rewrite (proj2 (Z.eqb_neq limit 0)) by lia.
    exists ((total + limit - 1) / limit). split; [reflexivity|].
    pose proof (Z.div_mod (total + limit - 1) limit ltac:(lia)) as Hdm.
    pose proof (Z.mod_pos_bound (total + limit - 1) limit Hlimit) as Hmod.
    split; [nia|]. split; [nia|].
    intros ->. apply Z.div_small. lia.
  - intros ->. reflexivity.
Qed.

End Server.

(** * Examples on the sample data *)

Ltac by_compute := vm_compute; reflexivity.

(** The session [tok_bob] is live and belongs to Bob. *)
Lemma sample_bob_authenticated :
  require_auth bson_eq (bearer "tok_bob" VNone) 100 sample_world
    = (sample_world, Return user_bob).
Proof. by_compute. Qed.

(** Bob (two referrals, cooldown 40) tops up: an unknown ad, Ana's ad, his
    pending ad, his active ad 20 and 40 minutes after its last top-up. *)
Lemma topup_ad_gate_example :
  let bob := bearer "tok_bob" VNone in
  require_auth bson_eq bob 100 sample_world = (sample_world, Return user_bob) ∧
  topup_ad bson_eq "ad_9" bob 100 (30 * minute) (30 * minute) sample_world
    = (sample_world, Raise (HTTPException 404 (Detail "Ad not found"))) ∧
  topup_ad bson_eq "ad_1" bob 100 (30 * minute) (30 * minute) sample_world
    = (sample_world, Raise (HTTPException 403 (Detail "Not your ad"))) ∧
  topup_ad bson_eq "ad_2" bob 100 (30 * minute) (30 * minute) sample_world
    = (sample_world, Raise (HTTPException 400 (Detail "Ad must be active to topup"))) ∧
  topup_ad bson_eq "ad_4" bob 100 (30 * minute) (30 * minute) sample_world
    = (sample_world, Raise (HTTPException 400 (DetailTopupWait 20))) ∧
  topup_ad bson_eq "ad_4" bob 100 (50 * minute) (50 * minute) sample_world
    = (topped_up bson_eq "ad_4" (50 * minute) sample_world,
       Return (VDict {[ "message" := VStr "TopUp successful";
                        "next_topup_available_in" := VNum 40 ]})).
Proof.
  intros bob.
  pose proof sample_bob_authenticated as Hauth. fold bob in Hauth.
  assert (Hid : user_bob !! "user_id" = Some (VStr "user_bob")) by by_compute.
  assert (Hcool : referral_cooldown user_bob 40).
  { right. exists 2. split; by_compute. }
  split; [exact Hauth|].
  split.
  { exact (topup_ad_gate bson_eq sample_world bob "ad_9" 100 (30 * minute) (30 * minute)
             user_bob Hauth). }
  split.
  { pose proof (topup_ad_gate bson_eq sample_world bob "ad_1" 100 (30 * minute)
                  (30 * minute) user_bob Hauth) as H.
    change (find_one bson_eq {[ "ad_id" := VStr "ad_1" ]} (ads (db sample_world)))
      with (Some ad_bike) in H.
    destruct (H (VStr "user_ana") (VStr "user_bob") (VStr "active"))
      as (Hother & _ & _); [by_compute|exact Hid|by_compute|].
    apply Hother. by_compute. }
  split.
  { pose proof (topup_ad_gate bson_eq sample_world bob "ad_2" 100 (30 * minute)
                  (30 * minute) user_bob Hauth) as H.
    change (find_one bson_eq {[ "ad_id" := VStr "ad_2" ]} (ads (db sample_world)))
      with (Some ad_desk) in H.
    destruct (H (VStr "user_bob") (VStr "user_bob") (VStr "pending"))
      as (_ & Hpending & _); [by_compute|exact Hid|by_compute|].
    apply Hpending; [by_compute|clear; congruence]. }
  assert (Hsofa : ad_sofa !! "user_id" = Some (VStr "user_bob") ∧
                  ad_sofa !! "status" = Some (VStr "active") ∧
                  ad_sofa !! "last_topup" = Some (VTime (10 * minute)))
    by (repeat split; by_compute).
  destruct Hsofa as (Hsu & Hss & Hsl).
  split.
  { pose proof (topup_ad_gate bson_eq sample_world bob "ad_4" 100 (30 * minute)
                  (30 * minute) user_bob Hauth) as H.
    change (find_one bson_eq {[ "ad_id" := VStr "ad_4" ]} (ads (db sample_world)))
      with (Some ad_sofa) in H.
    destruct (H (VStr "user_bob") (VStr "user_bob") (VStr "active") Hsu Hid Hss)
      as (_ & _ & Hactive).
    destruct (Hactive eq_refl eq_refl 40 Hcool) as [Hwait _].
    apply (Hwait (10 * minute) Hsl). clear. vm_compute. reflexivity. }
  { pose proof (topup_ad_gate bson_eq sample_world bob "ad_4" 100 (50 * minute)
                  (50 * minute) user_bob Hauth) as H.
    change (find_one bson_eq {[ "ad_id" := VStr "ad_4" ]} (ads (db sample_world)))
      with (Some ad_sofa) in H.
    destruct (H (VStr "user_bob") (VStr "user_bob") (VStr "active") Hsu Hid Hss)
      as (_ & _ & Hactive).
    destruct (Hactive eq_refl eq_refl 40 Hcool) as [_ Hok].
    apply Hok. right. right. exists (10 * minute). split; [exact Hsl|].
    clear. vm_compute. congruence. }
Defined.

(** The listing of [cars] by price and by age, and of [escorts] by age. *)
Lemma get_ads_order_and_status_example :
  get_ads_query (Some "escorts") None None (Some "bike") (Some 5) (Some 10)
    !! "status" = Some (VStr "active") ∧
  (∃ rest, get_ads_sort_by (Some "cars") "price_low" = ("topup_rank", -1) :: rest) ∧
  get_ads_sort_by (Some "cars") "oldest" = [("created_at", 1)] ∧
  (∃ rest, get_ads_sort_by (Some "escorts") "oldest"
           = ("topup_rank", -1) :: ("is_boosted", -1) :: rest ∧
           ∀ key, key ∈ rest → key.1 ≠ "topup_rank" ∧ key.1 ≠ "is_boosted").
Proof.
  split.
  { exact (proj1 (get_ads_order_and_status (Some "escorts") None None (Some "bike")
                    (Some 5) (Some 10) "newest")). }
  split.
  { apply (get_ads_order_and_status (Some "cars") None None None None None "price_low").
    clear. congruence. }
  split.
  { apply (get_ads_order_and_status (Some "cars") None None None None None "oldest").
    clear. congruence. }
  apply (get_ads_order_and_status (Some "escorts") None None None None None "oldest").
  reflexivity.
Defined.

(** The gateway confirms the boost of [ad_1] (order 77) at time 600. *)
Lemma payment_webhook_completed_example :
  let ed : doc := {[ "TransactionId" := VStr "tx_1"; "OrderCode" := VNum 77;
                     "StatusId" := VStr "F"; "MerchantTrns" := VStr boost_blob ]} in
  let trns : doc := {[ "ad_id" := VStr "ad_1"; "payment_type" := VStr "boost" ]} in
  let w' := (payment_webhook bson_eq sample_json_loads boost_delivery 500 600
               sample_world).1 in
  ed !! "StatusId" = Some (VStr "F") ∧
  load_trns_data sample_json_loads (py_get_default ed "MerchantTrns" (VStr "{}"))
    = VDict trns ∧
  (∃ p', find_one bson_eq {[ "order_code" := VNum 77 ]} (payments (db w')) = Some p' ∧
         p' !! "status" = Some (VStr "completed")) ∧
  (∃ ad', find_one bson_eq {[ "ad_id" := VStr "ad_1" ]} (ads (db w')) = Some ad' ∧
          ad' !! "is_boosted" = Some (VBool true) ∧
          ad' !! "boost_expires_at" = Some (VTime (600 + 24 * 60 * minute)) ∧
          ad' !! "status" = Some (VStr "active")).
Proof.
  intros ed trns w'.
  assert (H1 : json boost_delivery = VDict {[ "EventData" := VDict ed ]}) by reflexivity.
  assert (H2 : ({[ "EventData" := VDict ed ]} : doc) !! "EventData" = Some (VDict ed))
    by by_compute.
  assert (H3 : ed !! "StatusId" = Some (VStr "F")) by by_compute.
  assert (H4 : load_trns_data sample_json_loads
                 (py_get_default ed "MerchantTrns" (VStr "{}")) = VDict trns)
    by by_compute.
  split; [exact H3|]. split; [exact H4|].
  destruct (payment_webhook_completed bson_eq sample_json_loads sample_world
              boost_delivery 500 600 _ ed trns H1 H2 H3 H4) as [Hpay Had].
  split.
  - destruct (Hpay payment_boost) as (p' & Hp & Hs & _); [by_compute|].
    exists p'. split; [exact Hp|exact Hs].
  - destruct (Had ad_bike) as (ad' & Hf & _ & Hboost & _); [by_compute|].
    destruct Hboost as (Hb & He & Hk); [by_compute|].
    exists ad'. split; [exact Hf|]. split; [exact Hb|]. split; [exact He|].
    rewrite Hk; [by_compute|].
    apply (bool_decide_unpack _). by_compute.
Defined.

(** The gateway confirms order 77 with the blob ["[]"]: the delivery is
    answered with 500 and the payment stays pending. *)
Lemma payment_webhook_completed_not_object_example :
  let ed : doc := {[ "TransactionId" := VStr "tx_4"; "OrderCode" := VNum 77;
                     "StatusId" := VStr "F"; "MerchantTrns" := VStr "[]" ]} in
  let out := payment_webhook bson_eq sample_json_loads lost_delivery 500 600 sample_world in
  ed !! "StatusId" = Some (VStr "F") ∧
  sample_json_loads "[]" = Some (VList []) ∧
  find_one bson_eq {[ "order_code" := VNum 77 ]} (payments (db sample_world))
    = Some payment_boost ∧
  payment_boost !! "status" = Some (VStr "pending") ∧
  status_of out.2 = 500 ∧
  ∃ p', find_one bson_eq {[ "order_code" := VNum 77 ]} (payments (db out.1)) = Some p' ∧
        p' !! "status" ≠ Some (VStr "completed").
Proof.
  intros ed out.
  assert (H1 : json lost_delivery = VDict {[ "EventData" := VDict ed ]}) by reflexivity.
  assert (H2 : ({[ "EventData" := VDict ed ]} : doc) !! "EventData" = Some (VDict ed))
    by reflexivity.
  assert (H3 : ed !! "StatusId" = Some (VStr "F")) by reflexivity.
  assert (H4 : ed !! "MerchantTrns" = Some (VStr "[]")) by reflexivity.
  assert (H5 : "[]" ≠ "{}") by (clear; congruence).
  assert (H6 : sample_json_loads "[]" = Some (VList [])) by reflexivity.
  assert (H7 : ∀ d, VList [] ≠ VDict d) by (clear; intros d; congruence).
  assert (H8 : find_one bson_eq {[ "order_code" := VNum 77 ]} (payments (db sample_world))
               = Some payment_boost) by reflexivity.
  assert (H9 : payment_boost !! "status" = Some (VStr "pending")) by reflexivity.
  destruct (payment_webhook_completed_not_object bson_eq sample_json_loads sample_world
              lost_delivery 500 600 _ ed "[]" (VList []) H1 H2 H3 H4 H5 H6 H7)
    as (_ & Hstatus & Hkept & _).
  split; [exact H3|]. split; [exact H6|]. split; [exact H8|]. split; [exact H9|].
  split; [exact Hstatus|].
  apply (Hkept payment_boost H8). rewrite H9. clear. congruence.
Defined.

(** A delivery with status ["X"] and the blob ["[]"] is answered with 500. *)
Lemma payment_webhook_non_object_blob_example :
  let ed : doc := {[ "TransactionId" := VStr "tx_2"; "OrderCode" := VNum 77;
                     "StatusId" := VStr "X"; "MerchantTrns" := VStr "[]" ]} in
  ed !! "MerchantTrns" = Some (VStr "[]") ∧
  sample_json_loads "[]" = Some (VList []) ∧
  payment_webhook bson_eq sample_json_loads stray_delivery 500 600 sample_world
    = (sample_world, Raise (Uncaught "AttributeError")) ∧
  status_of (payment_webhook bson_eq sample_json_loads stray_delivery 500 600
               sample_world).2 = 500.
Proof.
  intros ed.
  assert (H1 : json stray_delivery = VDict {[ "EventData" := VDict ed ]}) by reflexivity.
  assert (H2 : ({[ "EventData" := VDict ed ]} : doc) !! "EventData" = Some (VDict ed))
    by by_compute.
  assert (H3 : ed !! "MerchantTrns" = Some (VStr "[]")) by by_compute.
  assert (H4 : "[]" ≠ "{}") by (clear; congruence).
  assert (H5 : sample_json_loads "[]" = Some (VList [])) by by_compute.
  assert (H6 : ∀ d, VList [] ≠ VDict d) by (clear; intros d; congruence).
  split; [exact H3|]. split; [exact H5|].
  exact (payment_webhook_non_object_blob bson_eq sample_json_loads sample_world
           stray_delivery 500 600 _ ed "[]" (VList []) H1 H2 H3 H4 H5 H6).
Defined.

(** A document with an id is not the empty document. *)
Lemma sample_ad_nonempty (ad : doc) (v : value) : ad !! "ad_id" = Some v → ad ≠ ∅.
Proof. intros H ->. rewrite lookup_empty in H. congruence. Qed.

(** The hundredth view of Ana's bike: one e-mail to Ana, milestone 100. *)
Lemma get_ad_views_milestone_example :
  let w' := (get_ad bson_eq [] [] "ad_1" sample_world).1 in
  find_one bson_eq {[ "ad_id" := VStr "ad_1" ]} (ads (db sample_world)) = Some ad_bike ∧
  has_views ad_bike 99 ∧
  find_one bson_eq {[ "ad_id" := VStr "ad_1" ]} (ads (db w'))
    = Some (<["views" := VNum 100]> ad_bike) ∧
  sent w' = [milestone_note "ad_1" ad_bike (Some user_ana) 100].
Proof.
  intros w'.
  assert (H1 : find_one bson_eq {[ "ad_id" := VStr "ad_1" ]} (ads (db sample_world))
               = Some ad_bike) by by_compute.
  assert (H2 : ad_bike ≠ ∅) by (apply (sample_ad_nonempty _ (VStr "ad_1")); by_compute).
  assert (H3 : has_views ad_bike 99) by (left; by_compute).
  split; [exact H1|]. split; [exact H3|].
  destruct (get_ad_views_milestone bson_eq [] [] sample_world "ad_1" ad_bike 99 H1 H2 H3)
    as (Hviews & notes & Hsent & Hshape & Hiff).
  split; [exact Hviews|].
  fold w' in Hsent. rewrite Hsent. cbn [sent sample_world app].
  destruct Hshape as [->|(m & -> & _ & Hm & _)].
  - exfalso. apply (proj2 Hiff); [|reflexivity].
    split; [exists 100; split; [apply (bool_decide_unpack _); by_compute|lia]|by_compute].
  - assert (m = 100) as -> by lia. by_compute.
Defined.

(** The claim of C4 as the specification states it fails on an ad whose
    owner has no e-mail address: the fetch takes [views] from 99 to 100,
    the milestone 100 is crossed, and no notification is scheduled. *)
Lemma get_ad_milestone_unnotified :
  let w' := (get_ad bson_eq [] [] "ad_3" sample_world).1 in
  find_one bson_eq {[ "ad_id" := VStr "ad_3" ]} (ads (db sample_world)) = Some ad_lamp ∧
  has_views ad_lamp 99 ∧
  find_one bson_eq {[ "ad_id" := VStr "ad_3" ]} (ads (db w'))
    = Some (<["views" := VNum 100]> ad_lamp) ∧
  ¬ (sent w' ≠ sent sample_world ↔ ∃ m, m ∈ VIEW_MILESTONES ∧ 99 < m ≤ 99 + 1).
Proof.
  intros w'.
  split; [by_compute|]. split; [left; by_compute|]. split; [by_compute|].
  intros [_ H]. apply H; [|by_compute].
  exists 100. split; [apply (bool_decide_unpack _); by_compute|lia].
Qed.

(** Four attempts on Bob's sofa: Bob succeeds, Bob is inside the cooldown,
    Ana is not the owner, Bob succeeds again. *)
Lemma topup_rank_increases_example :
  let hist := successful_topups bson_eq "ad_4" sample_attempts sample_world in
  Forall clock_forward sample_attempts ∧
  map (λ x, att_t_now x.1) hist = [60 * minute + 1; 110 * minute + 5] ∧
  Forall (stamped bson_eq "ad_4") hist ∧
  StronglySorted Z.lt (map (λ x, att_t_now x.1) hist).
Proof.
  intros hist.
  assert (H : Forall clock_forward sample_attempts).
  { repeat constructor; unfold clock_forward; cbn; unfold minute; lia. }
  split; [exact H|]. split; [by_compute|].
  exact (topup_rank_increases bson_eq "ad_4" sample_attempts sample_world H).
Defined.

(** Ana renames her bike and tries to set [status] and [views] on the way;
    she may not touch Bob's sofa. *)
Lemma update_ad_frame_example :
  let body : doc := {[ "title" := VStr "Road bike"; "status" := VStr "rejected";
                       "views" := VNum 0 ]} in
  let ana := bearer "tok_ana" (VDict body) in
  require_auth bson_eq ana 100 sample_world = (sample_world, Return user_ana) ∧
  find_one bson_eq {[ "ad_id" := VStr "ad_1" ]} (ads (db sample_world)) = Some ad_bike ∧
  (∃ (ad' : doc) (before after : list doc),
     update_ad bson_eq "ad_1" ana 100 700 sample_world
       = ({| db := with_ads (λ _, (before ++ ad' :: after)%list) sample_db; sent := [] |},
          Return (VDict {[ "message" := VStr "Ad updated" ]})) ∧
     ad' !! "title" = Some (VStr "Road bike") ∧
     ad' !! "updated_at" = Some (VTime 700) ∧
     ad' !! "status" = Some (VStr "active") ∧
     ad' !! "views" = Some (VNum 99)) ∧
  update_ad bson_eq "ad_4" ana 100 700 sample_world
    = (sample_world, Raise (HTTPException 403 (Detail "Not authorized"))).
Proof.
  intros body ana.
  assert (H1 : require_auth bson_eq ana 100 sample_world = (sample_world, Return user_ana))
    by by_compute.
  assert (H2 : json ana = VDict body) by reflexivity.
  assert (H3 : find_one bson_eq {[ "ad_id" := VStr "ad_1" ]} (ads (db sample_world))
               = Some ad_bike) by by_compute.
  assert (H4 : ad_bike !! "user_id" = Some (VStr "user_ana")) by by_compute.
  assert (H5 : user_ana !! "user_id" = Some (VStr "user_ana")) by by_compute.
  assert (H6 : find_one bson_eq {[ "ad_id" := VStr "ad_4" ]} (ads (db sample_world))
               = Some ad_sofa) by by_compute.
  assert (H7 : ad_sofa !! "user_id" = Some (VStr "user_bob")) by by_compute.
  split; [exact H1|]. split; [exact H3|]. split.
  - destruct (update_ad_frame bson_eq sample_world ana "ad_1" 100 700 user_ana ad_bike
                body (VStr "user_ana") (VStr "user_ana") H1 H2 H3 H4 H5) as [_ Hok].
    destruct Hok as (ad' & before & after & _ & Hout & Hstamp & Hset & Hkeep);
      [left; by_compute|].
    exists ad', before, after. split; [exact Hout|].
    split; [rewrite Hset; [by_compute|apply (bool_decide_unpack _); by_compute]|].
    split; [exact Hstamp|].
    split; (rewrite Hkeep; [by_compute|apply (bool_decide_unpack _); by_compute
                           |clear; congruence]).
  - apply (update_ad_frame bson_eq sample_world ana "ad_4" 100 700 user_ana ad_sofa
             body (VStr "user_bob") (VStr "user_ana") H1 H2 H6 H7 H5);
      [by_compute|]. clear. vm_compute. congruence.
Defined.

(** The admin deletes Ana: her ad and her session are gone, her favorite
    and her message stay. *)
Lemma admin_delete_user_cascade_example :
  let root := bearer "tok_root" VNone in
  let w' := (admin_delete_user bson_eq "user_ana" root 100 sample_world).1 in
  require_admin bson_eq root 100 sample_world = (sample_world, Return user_root) ∧
  py_eq (VStr "user_root") (VStr "user_ana") = false ∧
  get_ad bson_eq [] [] "ad_1" w' = (w', Raise (HTTPException 404 (Detail "Ad not found"))) ∧
  require_auth bson_eq (bearer "tok_ana" VNone) 100 w'
    = (w', Raise (HTTPException 401 (Detail "Not authenticated"))) ∧
  users (db w') = [user_bob; user_dan; user_root] ∧
  favorites (db w') = favorites sample_db ∧
  messages (db w') = messages sample_db.
Proof.
  intros root w'.
  assert (H1 : require_admin bson_eq root 100 sample_world = (sample_world, Return user_root))
    by by_compute.
  assert (H2 : user_root !! "user_id" = Some (VStr "user_root")) by by_compute.
  assert (H3 : py_eq (VStr "user_root") (VStr "user_ana") = false) by by_compute.
  split; [exact H1|]. split; [exact H3|].
  destruct (admin_delete_user_cascade bson_eq [] [] sample_world root "user_ana" 100
              user_root (VStr "user_root") H1 H2 H3)
    as (_ & _ & _ & Husers & Hfav & Hmsg & _ & _ & Hgone & Hout).
  fold w' in Husers, Hfav, Hmsg, Hgone, Hout.
  split.
  { apply Hgone. intros d Hd. cbn [db sample_world ads sample_db] in Hd.
    rewrite !elem_of_cons, elem_of_nil in Hd.
    destruct Hd as [->|[->|[->|[->|[]]]]]; vm_compute; intros E;
      first [reflexivity|exact E]. }
  split.
  { apply (Hout _ _ "tok_ana"); [by_compute|].
    intros s Hs. cbn [db sample_world user_sessions sample_db] in Hs.
    rewrite !elem_of_cons, elem_of_nil in Hs.
    destruct Hs as [->|[->|[->|[]]]]; vm_compute; intros E;
      first [reflexivity|exact E]. }
  split; [rewrite Husers; by_compute|].
  split; [exact Hfav|exact Hmsg].
Defined.

(** Bob's pending desk is served to anyone, and served as an active one
    would be. *)
Lemma get_ad_any_status_example :
  find_one bson_eq {[ "ad_id" := VStr "ad_2" ]} (ads (db sample_world)) = Some ad_desk ∧
  ad_desk !! "status" = Some (VStr "pending") ∧
  has_views ad_desk 5 ∧
  ∃ resp : doc,
    (get_ad bson_eq [] [] "ad_2" sample_world).2 = Return (VDict resp) ∧
    resp !! "status" = Some (VStr "pending") ∧
    resp !! "title" = Some (VStr "Desk") ∧
    find_one bson_eq {[ "ad_id" := VStr "ad_2" ]}
      (ads (db (get_ad bson_eq [] [] "ad_2" sample_world).1))
      = Some (<["views" := VNum 6]> ad_desk) ∧
    get_ad bson_eq [] [] "ad_2" (with_status bson_eq "ad_2" (VStr "active") sample_world)
      = (with_status bson_eq "ad_2" (VStr "active")
           (get_ad bson_eq [] [] "ad_2" sample_world).1,
         Return (VDict (<["status" := VStr "active"]> resp))).
Proof.
  assert (H1 : find_one bson_eq {[ "ad_id" := VStr "ad_2" ]} (ads (db sample_world))
               = Some ad_desk) by by_compute.
  assert (H2 : ad_desk ≠ ∅) by (apply (sample_ad_nonempty _ (VStr "ad_2")); by_compute).
  assert (H3 : has_views ad_desk 5) by (left; by_compute).
  split; [exact H1|]. split; [by_compute|]. split; [exact H3|].
  destruct (get_ad_any_status bson_eq [] [] sample_world "ad_2" ad_desk 5 H1 H2 H3)
    as (resp & Hresp & Hkeep & _ & Hviews & Hst).
  exists resp. split; [exact Hresp|].
  split; [rewrite Hkeep; [by_compute|apply (bool_decide_unpack _); by_compute]|].
  split; [rewrite Hkeep; [by_compute|apply (bool_decide_unpack _); by_compute]|].
  split; [exact Hviews|exact (Hst (VStr "active"))].
Defined.

(** The admin names their own id. *)
Lemma admin_delete_user_self_example :
  let root := bearer "tok_root" VNone in
  require_admin bson_eq root 100 sample_world = (sample_world, Return user_root) ∧
  user_root !! "user_id" = Some (VStr "user_root") ∧
  admin_delete_user bson_eq "user_root" root 100 sample_world
    = (sample_world, Raise (HTTPException 400 (Detail "Cannot delete your own account"))).
Proof.
  intros root.
  assert (H1 : require_admin bson_eq root 100 sample_world = (sample_world, Return user_root))
    by by_compute.
  assert (H2 : user_root !! "user_id" = Some (VStr "user_root")) by by_compute.
  split; [exact H1|]. split; [exact H2|].
  exact (admin_delete_user_self bson_eq sample_world root "user_root" 100 user_root H1 H2).
Defined.

(** * Examples for the session, account and ad lifecycle properties *)

Lemma doc_nonempty (d : doc) (k : string) (v : value) : d !! k = Some v → d ≠ ∅.
Proof. intros H ->. rewrite lookup_empty in H. discriminate. Qed.

Lemma bson_eq_refl (v : value) : (∀ l, v ≠ VList l) → bson_eq v (Some v) = true.
Proof.
  intros H. unfold bson_eq. destruct v; try (apply bool_decide_eq_true_2; reflexivity).
  exfalso. exact (H l eq_refl).
Qed.

Lemma bson_eq_str (s : string) : bson_eq (VStr s) (Some (VStr s)) = true.
Proof. apply bool_decide_eq_true_2. reflexivity. Qed.

(** A request with HTTP basic credentials only is not authenticated. *)
Lemma require_auth_no_credentials_example :
  let basic := {| cookies := ∅; headers := {[ "Authorization" := "Basic YW5h" ]};
                  json := VNone |} in
  default "" (cookies basic !! "session_token") = "" ∧
  require_auth bson_eq basic 100 sample_world
    = (sample_world, Raise (HTTPException 401 (Detail "Not authenticated"))).
Proof.
  intros basic.
  assert (H1 : default "" (cookies basic !! "session_token") = "") by reflexivity.
  assert (H2 : ∀ h, headers basic !! "Authorization" = Some h →
                    String.prefix "Bearer " h = false).
  { intros h Hh. assert (Hl : headers basic !! "Authorization" = Some "Basic YW5h")
      by reflexivity.
    rewrite Hl in Hh. inversion Hh. reflexivity. }
  split; [exact H1|].
  exact (proj2 (require_auth_no_credentials bson_eq basic 100 sample_world H1 H2)).
Defined.

(** Ana's cookie wins over the admin's bearer token sent along with it. *)
Lemma cookie_takes_precedence_example :
  let r1 := with_cookie "tok_ana" VNone in
  let r2 := {| cookies := {[ "session_token" := "tok_ana" ]};
               headers := {[ "Authorization" := "Bearer tok_root" ]}; json := VNone |} in
  require_auth bson_eq r1 100 sample_world = (sample_world, Return user_ana) ∧
  require_auth bson_eq r1 100 sample_world = require_auth bson_eq r2 100 sample_world ∧
  require_admin bson_eq r1 100 sample_world = require_admin bson_eq r2 100 sample_world.
Proof.
  intros r1 r2.
  assert (H1 : cookies r1 !! "session_token" = Some "tok_ana") by reflexivity.
  assert (H2 : cookies r2 !! "session_token" = Some "tok_ana") by reflexivity.
  assert (H3 : "tok_ana" ≠ "") by (clear; congruence).
  split; [reflexivity|].
  exact (proj2 (cookie_takes_precedence bson_eq r1 r2 "tok_ana" 100 sample_world H1 H2 H3)).
Defined.

(** Bob's session at its expiry instant and one microsecond later. *)
Lemma session_expiry_example :
  let bob := bearer "tok_bob" VNone in
  require_auth bson_eq bob 9000000000 sample_world = (sample_world, Return user_bob) ∧
  require_auth bson_eq bob 9000000001 sample_world
    = (sample_world, Raise (HTTPException 401 (Detail "Not authenticated"))).
Proof.
  intros bob.
  assert (H1 : ∀ w, request_session_token bob w = (w, Return "tok_bob"))
    by (intros w; reflexivity).
  assert (H2 : "tok_bob" ≠ "") by (clear; congruence).
  assert (H3 : find_one bson_eq {[ "session_token" := VStr "tok_bob" ]}
                 (user_sessions (db sample_world)) = Some (session_of "user_bob" "tok_bob"))
    by reflexivity.
  assert (H4 : session_of "user_bob" "tok_bob" !! "expires_at" = Some (VTime 9000000000))
    by reflexivity.
  assert (H5 : session_of "user_bob" "tok_bob" !! "user_id" = Some (VStr "user_bob"))
    by reflexivity.
  assert (H6 : find_one bson_eq {[ "user_id" := VStr "user_bob" ]} (users (db sample_world))
               = Some user_bob) by reflexivity.
  assert (H7 : user_bob ≠ ∅) by (apply (doc_nonempty _ "user_id" (VStr "user_bob")); reflexivity).
  split.
  - apply (session_expiry bson_eq bob 9000000000 sample_world "tok_bob" _ _ _ user_bob
             (H1 _) H2 H3 H4 H5 H6 H7). lia.
  - apply (session_expiry bson_eq bob 9000000001 sample_world "tok_bob" _ _ _ user_bob
             (H1 _) H2 H3 H4 H5 H6 H7). lia.
Defined.

(** Checking the admin's token writes nothing. *)
Lemma authentication_read_only_example :
  (require_admin bson_eq (bearer "tok_root" VNone) 100 sample_world).1 = sample_world.
Proof.
  exact (proj2 (proj2 (authentication_read_only bson_eq (bearer "tok_root" VNone) 100
                         sample_world))).
Defined.

(** Bob is no admin. *)
Lemma admin_endpoints_forbidden_example :
  let bob := bearer "tok_bob" (VDict {[ "status" := VStr "active" ]}) in
  require_auth bson_eq bob 100 sample_world = (sample_world, Return user_bob) ∧
  py_get user_bob "role" ≠ VStr "admin" ∧
  admin_delete_user bson_eq "user_ana" bob 100 sample_world
    = (sample_world, Raise (HTTPException 403 (Detail "Admin access required"))) ∧
  admin_update_ad_status bson_eq sample_str "ad_2" bob 100 200 sample_world
    = (sample_world, Raise (HTTPException 403 (Detail "Admin access required"))).
Proof.
  intros bob.
  assert (H1 : require_auth bson_eq bob 100 sample_world = (sample_world, Return user_bob))
    by reflexivity.
  assert (H2 : py_get user_bob "role" ≠ VStr "admin").
  { assert (Hr : py_get user_bob "role" = VStr "user") by reflexivity.
    rewrite Hr. clear. congruence. }
  split; [exact H1|]. split; [exact H2|].
  destruct (admin_endpoints_forbidden bson_eq sample_str bob 100 sample_world user_bob H1 H2)
    as (Hd & Hs & _).
  split; [exact (Hd "user_ana")|exact (Hs "ad_2" 200)].
Defined.

(** Ana logs out: her token is refused afterwards, by cookie or by header. *)
Lemma logout_revokes_example :
  let ana := with_cookie "tok_ana" VNone in
  let w' := (logout bson_eq ana sample_world).1 in
  require_auth bson_eq ana 100 sample_world = (sample_world, Return user_ana) ∧
  count_documents bson_eq {[ "session_token" := VStr "tok_ana" ]}
    (user_sessions (db sample_world)) = 1 ∧
  require_auth bson_eq (bearer "tok_ana" VNone) 100 w'
    = (w', Raise (HTTPException 401 (Detail "Not authenticated"))).
Proof.
  intros ana w'.
  assert (H1 : cookies ana !! "session_token" = Some "tok_ana") by reflexivity.
  assert (H2 : "tok_ana" ≠ "") by (clear; congruence).
  assert (H3 : count_documents bson_eq {[ "session_token" := VStr "tok_ana" ]}
                 (user_sessions (db sample_world)) = 1) by reflexivity.
  split; [reflexivity|]. split; [exact H3|].
  destruct (logout_revokes bson_eq ana "tok_ana" sample_world H1 H2 ltac:(rewrite H3; lia))
    as (_ & Hrevoked & _).
  apply Hrevoked. reflexivity.
Defined.

(** Bob, who uses the header, cannot log out. *)
Lemma logout_ignores_bearer_example :
  let bob := bearer "tok_bob" VNone in
  default "" (cookies bob !! "session_token") = "" ∧
  logout bson_eq bob sample_world
    = (sample_world, Return (VDict {[ "message" := VStr "Logged out" ]})) ∧
  require_auth bson_eq bob 100 (logout bson_eq bob sample_world).1
    = (sample_world, Return user_bob).
Proof.
  intros bob.
  assert (H1 : default "" (cookies bob !! "session_token") = "") by reflexivity.
  destruct (logout_ignores_bearer bson_eq bob sample_world H1) as [Hout Hauth].
  split; [exact H1|]. split; [exact Hout|].
  rewrite (Hauth 100). reflexivity.
Defined.

(** Ana's address is taken. *)
Lemma register_duplicate_email_example :
  find_one bson_eq {[ "email" := VStr "ana@example.ro" ]} (users (db sample_world))
    = Some user_ana ∧
  register bson_eq sample_hash "ana@example.ro" "secret" "Ana B" None
    "0123456789ab" "tok_new" 100 100 100 sample_world
    = (sample_world, Raise (HTTPException 400 (Detail "Email already registered"))).
Proof.
  assert (H1 : find_one bson_eq {[ "email" := VStr "ana@example.ro" ]}
                 (users (db sample_world)) = Some user_ana) by reflexivity.
  assert (H2 : user_ana ≠ ∅)
    by (apply (doc_nonempty _ "user_id" (VStr "user_ana")); reflexivity).
  split; [exact H1|].
  exact (register_duplicate_email bson_eq sample_hash "ana@example.ro" "secret" "Ana B" None
           "0123456789ab" "tok_new" 100 100 100 sample_world user_ana H1 H2).
Defined.

(** Eva registers at time 100: her cookie works until 100 + 7 days. *)
Lemma register_opens_session_example :
  let out := register bson_eq sample_hash "eva@example.ro" "secret" "Eva" None
               "0123456789ab" "tok_eva" 100 100 100 sample_world in
  let eva := with_cookie "tok_eva" VNone in
  (∃ user, require_auth bson_eq eva (100 + timedelta_days 7) out.1 = (out.1, Return user) ∧
           user !! "email" = Some (VStr "eva@example.ro") ∧
           user !! "role" = Some (VStr "user")) ∧
  require_auth bson_eq eva (101 + timedelta_days 7) out.1
    = (out.1, Raise (HTTPException 401 (Detail "Not authenticated"))).
Proof.
  intros out eva.
  assert (H1 : find_one bson_eq {[ "email" := VStr "eva@example.ro" ]}
                 (users (db sample_world)) = None) by reflexivity.
  assert (H2 : find_one bson_eq {[ "user_id" := VStr ("user_" +:+ "0123456789ab") ]}
                 (users (db sample_world)) = None) by reflexivity.
  assert (H3 : find_one bson_eq {[ "session_token" := VStr "tok_eva" ]}
                 (user_sessions (db sample_world)) = None) by reflexivity.
  assert (H4 : "tok_eva" ≠ "") by (clear; congruence).
  assert (H5 : cookies eva !! "session_token" = Some "tok_eva") by reflexivity.
  destruct (register_opens_session bson_eq sample_hash "eva@example.ro" "secret" "Eva" None
              "0123456789ab" "tok_eva" 100 100 100 sample_world bson_eq_str H1 H2 H3 H4)
    as [_ Hsession].
  split.
  - destruct (proj1 (Hsession eva (100 + timedelta_days 7) H5) ltac:(lia))
      as (user & Hauth & _ & Hmail & Hrole & _).
    exists user. split; [exact Hauth|]. split; [exact Hmail|exact Hrole].
  - apply (proj2 (Hsession eva (101 + timedelta_days 7) H5)). lia.
Defined.

(** An unknown address and an account without a password hash get the same
    answer. *)
Lemma login_invalid_credentials_example :
  login bson_eq sample_hash "nobody@example.ro" "secret" "tok_new" 100 100 sample_world
    = (sample_world, Raise (HTTPException 401 (Detail "Invalid credentials"))) ∧
  login bson_eq sample_hash "ana@example.ro" "secret" "tok_new" 100 100 sample_world
    = (sample_world, Raise (HTTPException 401 (Detail "Invalid credentials"))).
Proof.
  destruct (login_invalid_credentials bson_eq sample_hash "nobody@example.ro" "secret"
              "tok_new" 100 100 sample_world) as (Hunknown & _ & _).
  destruct (login_invalid_credentials bson_eq sample_hash "ana@example.ro" "secret"
              "tok_new" 100 100 sample_world) as (_ & Hwrong & _).
  split.
  - apply Hunknown. reflexivity.
  - apply (Hwrong user_ana); [reflexivity|].
    assert (Hp : py_get user_ana "password_hash" = VNone) by reflexivity.
    rewrite Hp. clear. congruence.
Defined.

(** Eva registers, then logs in with her password and with a wrong one. *)
Lemma register_then_login_example :
  let w1 := (register bson_eq sample_hash "eva@example.ro" "secret" "Eva" None
               "0123456789ab" "tok_eva" 100 100 100 sample_world).1 in
  (login bson_eq sample_hash "eva@example.ro" "secret" "tok_eva2" 200 200 w1).2
    = Return (VDict {[ "user_id" := VStr "user_0123456789ab";
                       "email" := VStr "eva@example.ro";
                       "name" := VStr "Eva"; "role" := VStr "user" ]}, "tok_eva2") ∧
  login bson_eq sample_hash "eva@example.ro" "secre" "tok_eva2" 200 200 w1
    = (w1, Raise (HTTPException 401 (Detail "Invalid credentials"))).
Proof.
  intros w1.
  assert (H1 : find_one bson_eq {[ "email" := VStr "eva@example.ro" ]}
                 (users (db sample_world)) = None) by reflexivity.
  destruct (register_then_login bson_eq sample_hash "eva@example.ro" "secret" "Eva" None
              "0123456789ab" "tok_eva" 100 100 100 sample_world bson_eq_str H1)
    as [Hok Hwrong].
  split.
  - fold w1 in Hok. rewrite (Hok "tok_eva2" 200 200). reflexivity.
  - apply Hwrong. intros H. inversion H.
Defined.

(** Bob posts a chair and claims it is already active: it is stored as
    pending and cannot be topped up. *)
Lemma created_ad_awaits_approval_example :
  let body : doc := {[ "title" := VStr "Chair"; "status" := VStr "active";
                       "user_id" := VStr "user_root" ]} in
  let bob := bearer "tok_bob" (VDict body) in
  let out := create_ad bson_eq bob "0123456789ab" 100 100 100 sample_world in
  (∃ ad, find_one bson_eq {[ "ad_id" := VStr "ad_0123456789ab" ]} (ads (db out.1)) = Some ad ∧
         ad !! "user_id" = Some (VStr "user_bob") ∧
         ad !! "title" = Some (VStr "Chair") ∧
         ad !! "status" = Some (VStr "pending")) ∧
  topup_ad bson_eq "ad_0123456789ab" bob 100 200 200 out.1
    = (out.1, Raise (HTTPException 400 (Detail "Ad must be active to topup"))).
Proof.
  intros body bob out.
  assert (H1 : require_auth bson_eq bob 100 sample_world = (sample_world, Return user_bob))
    by reflexivity.
  assert (H2 : user_bob !! "user_id" = Some (VStr "user_bob")) by reflexivity.
  assert (H3 : user_bob !! "email" = Some (VStr "bob@example.ro")) by reflexivity.
  assert (H4 : json bob = VDict body) by reflexivity.
  assert (H5 : find_one bson_eq {[ "ad_id" := VStr ("ad_" +:+ "0123456789ab") ]}
                 (ads (db sample_world)) = None) by reflexivity.
  destruct (created_ad_awaits_approval bson_eq bob "0123456789ab" 100 100 100 sample_world
              user_bob body _ _ bson_eq_str H1 H2 H3 H4 H5)
    as (_ & (ad & Hfind & Huser & Htitle & Hstatus & _) & Htopup).
  split.
  - exists ad. split; [exact Hfind|]. split; [exact Huser|]. split; [exact Htitle|exact Hstatus].
  - exact (Htopup 100 200 200 H1).
Defined.

(** Bob may not delete Ana's bike; Ana may, and then it is gone while her
    favorites and the payment for it stay. *)
Lemma delete_ad_frame_example :
  let bob := bearer "tok_bob" VNone in
  let ana := bearer "tok_ana" VNone in
  let out := delete_ad bson_eq "ad_1" ana 100 sample_world in
  delete_ad bson_eq "ad_1" bob 100 sample_world
    = (sample_world, Raise (HTTPException 403 (Detail "Not authorized"))) ∧
  out.2 = Return (VDict {[ "message" := VStr "Ad deleted" ]}) ∧
  payments (db out.1) = [payment_boost] ∧
  get_ad bson_eq [] [] "ad_1" out.1
    = (out.1, Raise (HTTPException 404 (Detail "Ad not found"))).
Proof.
  intros bob ana out.
  assert (Hbob : require_auth bson_eq bob 100 sample_world = (sample_world, Return user_bob))
    by reflexivity.
  assert (Hana : require_auth bson_eq ana 100 sample_world = (sample_world, Return user_ana))
    by reflexivity.
  assert (Hfind : find_one bson_eq {[ "ad_id" := VStr "ad_1" ]} (ads (db sample_world))
                  = Some ad_bike) by reflexivity.
  assert (Howner : ad_bike !! "user_id" = Some (VStr "user_ana")) by reflexivity.
  assert (Hb : user_bob !! "user_id" = Some (VStr "user_bob")) by reflexivity.
  assert (Ha : user_ana !! "user_id" = Some (VStr "user_ana")) by reflexivity.
  split.
  - apply (delete_ad_frame bson_eq [] [] sample_world bob "ad_1" 100 user_bob ad_bike
             _ _ Hbob Hfind Howner Hb); [reflexivity|].
    assert (Hr : py_get user_bob "role" = VStr "user") by reflexivity.
    rewrite Hr. clear. congruence.
  - destruct (delete_ad_frame bson_eq [] [] sample_world ana "ad_1" 100 user_ana ad_bike
                _ _ Hana Hfind Howner Ha) as [_ Hok].
    destruct Hok as (Hret & _ & _ & _ & _ & Hpay & _ & Hgone); [left; reflexivity|].
    split; [exact Hret|]. split; [exact Hpay|].
    apply Hgone.
    assert (Hc : count_documents bson_eq {[ "ad_id" := VStr "ad_1" ]} (ads (db sample_world))
                 = 1) by reflexivity.
    rewrite Hc. lia.
Defined.

(** The admin may not switch Ana's automatic top-up; Bob switches his own
    off on an ad that is still pending. *)
Lemma toggle_auto_topup_owner_only_example :
  let root := bearer "tok_root" (VDict ∅) in
  let bob := bearer "tok_bob" (VDict {[ "enabled" := VBool false ]}) in
  let out := toggle_auto_topup bson_eq "ad_2" bob 100 sample_world in
  toggle_auto_topup bson_eq "ad_1" root 100 sample_world
    = (sample_world, Raise (HTTPException 403 (Detail "Not your ad"))) ∧
  out.2 = Return (VDict {[ "message" := VStr "Auto-topup disabled";
                           "auto_topup" := VBool false ]}) ∧
  ∃ ad', find_one bson_eq {[ "ad_id" := VStr "ad_2" ]} (ads (db out.1)) = Some ad' ∧
         ad' !! "auto_topup" = Some (VBool false) ∧
         ad' !! "status" = Some (VStr "pending").
Proof.
  intros root bob out.
  assert (Hroot : require_auth bson_eq root 100 sample_world = (sample_world, Return user_root))
    by reflexivity.
  assert (Hbob : require_auth bson_eq bob 100 sample_world = (sample_world, Return user_bob))
    by reflexivity.
  assert (H1 : find_one bson_eq {[ "ad_id" := VStr "ad_1" ]} (ads (db sample_world))
               = Some ad_bike) by reflexivity.
  assert (H2 : find_one bson_eq {[ "ad_id" := VStr "ad_2" ]} (ads (db sample_world))
               = Some ad_desk) by reflexivity.
  assert (O1 : ad_bike !! "user_id" = Some (VStr "user_ana")) by reflexivity.
  assert (O2 : ad_desk !! "user_id" = Some (VStr "user_bob")) by reflexivity.
  assert (U1 : user_root !! "user_id" = Some (VStr "user_root")) by reflexivity.
  assert (U2 : user_bob !! "user_id" = Some (VStr "user_bob")) by reflexivity.
  split.
  - apply (toggle_auto_topup_owner_only bson_eq sample_world root "ad_1" 100 user_root
             ad_bike ∅ _ _ Hroot H1 O1 U1 eq_refl). reflexivity.
  - destruct (toggle_auto_topup_owner_only bson_eq sample_world bob "ad_2" 100 user_bob
                ad_desk {[ "enabled" := VBool false ]} _ _ Hbob H2 O2 U2 eq_refl)
      as [_ Hok].
    destruct (Hok eq_refl) as (Hret & _ & ad' & Hfind & Hauto & Hkeep).
    split; [exact Hret|].
    exists ad'. split; [exact Hfind|]. split; [exact Hauto|].
    rewrite Hkeep by (clear; congruence). reflexivity.
Defined.

(** * Examples for moderation, payments, referrals and favorites *)

(** The admin writes ["approved"] instead of ["active"]. *)
Lemma admin_update_ad_status_invalid_example :
  let body : doc := {[ "status" := VStr "approved" ]} in
  let root := bearer "tok_root" (VDict body) in
  require_admin bson_eq root 100 sample_world = (sample_world, Return user_root) ∧
  admin_update_ad_status bson_eq sample_str "ad_2" root 100 200 sample_world
    = (sample_world, Raise (HTTPException 400 (Detail "Invalid status"))).
Proof.
  intros body root.
  assert (H1 : require_admin bson_eq root 100 sample_world = (sample_world, Return user_root))
    by reflexivity.
  assert (H2 : json root = VDict body) by reflexivity.
  assert (H3 : ∀ s, s ∈ ad_statuses → py_get body "status" ≠ VStr s).
  { intros s Hs. assert (Hg : py_get body "status" = VStr "approved") by reflexivity.
    rewrite Hg. intros [= <-]. unfold ad_statuses in Hs.
    rewrite !elem_of_cons, elem_of_nil in Hs.
    destruct Hs as [Hs|[Hs|[Hs|[Hs|[]]]]]; inversion Hs. }
  split; [exact H1|].
  exact (admin_update_ad_status_invalid bson_eq sample_str sample_world root "ad_2" 100 200
           user_root body H1 H2 H3).
Defined.

(** The admin approves Bob's desk: Bob gets the approval e-mail; for an
    unknown ad the answer is the same and nothing changes. *)
Lemma admin_update_ad_status_effect_example :
  let body : doc := {[ "status" := VStr "active" ]} in
  let root := bearer "tok_root" (VDict body) in
  let out := admin_update_ad_status bson_eq sample_str "ad_2" root 100 200 sample_world in
  out.2 = Return (VDict {[ "message" := VStr "Ad status updated to active" ]}) ∧
  (∃ ad', find_one bson_eq {[ "ad_id" := VStr "ad_2" ]} (ads (db out.1)) = Some ad' ∧
          ad' !! "status" = Some (VStr "active") ∧
          ad' !! "title" = Some (VStr "Desk")) ∧
  (∃ n, sent out.1 = [n] ∧ template_type n = "ad_approved" ∧
        to_email n = VStr "bob@example.ro") ∧
  (admin_update_ad_status bson_eq sample_str "ad_9" root 100 200 sample_world).1 = sample_world.
Proof.
  intros body root out.
  assert (H1 : require_admin bson_eq root 100 sample_world = (sample_world, Return user_root))
    by reflexivity.
  assert (H2 : json root = VDict body) by reflexivity.
  assert (H3 : body !! "status" = Some (VStr "active")) by reflexivity.
  assert (H4 : "active" ∈ ad_statuses) by (apply list_elem_of_In; simpl; tauto).
  assert (H5 : find_one bson_eq {[ "ad_id" := VStr "ad_2" ]} (ads (db sample_world))
               = Some ad_desk) by reflexivity.
  destruct (admin_update_ad_status_effect bson_eq sample_str sample_world root "ad_2" 100 200
              user_root body "active" H1 H2 H3 H4) as (Hret & _ & Hfound).
  destruct (Hfound ad_desk H5) as ((ad' & Hfind & Hst & _ & Hkeep) & Hactive & _ & _).
  split; [exact Hret|]. split.
  { exists ad'. split; [exact Hfind|]. split; [exact Hst|].
    rewrite Hkeep; [reflexivity|]. rewrite !elem_of_cons, elem_of_nil.
    clear. intros [H|[H|[]]]; inversion H. }
  split.
  { destruct Hactive as (n & Hsent & Ht & He);
      [apply (doc_nonempty _ "ad_id" (VStr "ad_2")); reflexivity|reflexivity|reflexivity|].
    exists n. split; [exact Hsent|]. split; [exact Ht|]. rewrite He. reflexivity. }
  destruct (admin_update_ad_status_effect bson_eq sample_str sample_world root "ad_9" 100 200
              user_root body "active" H1 H2 H3 H4) as (_ & Hmissing & _).
  apply Hmissing. reflexivity.
Defined.

(** Bob's desk was never topped up: approved, he can top it up; rejected,
    he cannot. *)
Lemma moderation_gates_topup_example :
  let approve := bearer "tok_root" (VDict {[ "status" := VStr "active" ]}) in
  let reject := bearer "tok_root" (VDict {[ "status" := VStr "rejected" ]}) in
  let bob := bearer "tok_bob" VNone in
  let w1 := (admin_update_ad_status bson_eq sample_str "ad_2" approve 100 200 sample_world).1 in
  let w2 := (admin_update_ad_status bson_eq sample_str "ad_2" reject 100 200 sample_world).1 in
  topup_ad bson_eq "ad_2" bob 300 300 300 sample_world
    = (sample_world, Raise (HTTPException 400 (Detail "Ad must be active to topup"))) ∧
  topup_ad bson_eq "ad_2" bob 300 300 300 w1
    = (topped_up bson_eq "ad_2" 300 w1,
       Return (VDict {[ "message" := VStr "TopUp successful";
                        "next_topup_available_in" := VNum 40 ]})) ∧
  topup_ad bson_eq "ad_2" bob 300 300 300 w2
    = (w2, Raise (HTTPException 400 (Detail "Ad must be active to topup"))).
Proof.
  intros approve reject bob w1 w2.
  assert (A1 : require_admin bson_eq approve 100 sample_world = (sample_world, Return user_root))
    by reflexivity.
  assert (A2 : require_admin bson_eq reject 100 sample_world = (sample_world, Return user_root))
    by reflexivity.
  assert (Hfind : find_one bson_eq {[ "ad_id" := VStr "ad_2" ]} (ads (db sample_world))
                  = Some ad_desk) by reflexivity.
  assert (Howner : ad_desk !! "user_id" = Some (VStr "user_bob")) by reflexivity.
  assert (Hlast : py_truthy (py_get ad_desk "last_topup") = false) by reflexivity.
  assert (Hbob : require_auth bson_eq bob 300 sample_world = (sample_world, Return user_bob))
    by reflexivity.
  assert (Huid : user_bob !! "user_id" = Some (VStr "user_bob")) by reflexivity.
  assert (Hcool : referral_cooldown user_bob 40).
  { right. exists 2. split; reflexivity. }
  assert (S1 : "active" ∈ ad_statuses) by (apply list_elem_of_In; simpl; tauto).
  assert (S2 : "rejected" ∈ ad_statuses) by (apply list_elem_of_In; simpl; tauto).
  split; [reflexivity|]. split.
  - apply (moderation_gates_topup bson_eq sample_str sample_world approve bob "ad_2"
             100 200 300 300 300 user_root _ user_bob ad_desk "active" _ _ 40
             A1 eq_refl eq_refl S1 Hfind Howner Hlast Hbob Huid eq_refl Hcool).
    reflexivity.
  - apply (moderation_gates_topup bson_eq sample_str sample_world reject bob "ad_2"
             100 200 300 300 300 user_root _ user_bob ad_desk "rejected" _ _ 40
             A2 eq_refl eq_refl S2 Hfind Howner Hlast Hbob Huid eq_refl Hcool).
    clear. congruence.
Defined.

(** Bob pays the posting fee for his sofa, which was active: it is pending
    again and his top-up is refused. *)
Lemma post_ad_payment_suspends_topup_example :
  let bob := bearer "tok_bob" VNone in
  let w1 := (payment_webhook bson_eq post_ad_json_loads post_ad_delivery 500 500
               sample_world).1 in
  ad_sofa !! "status" = Some (VStr "active") ∧
  stored_field bson_eq "ad_4" "status" w1 = Some (VStr "pending") ∧
  topup_ad bson_eq "ad_4" bob 100 (300 * minute) (300 * minute) w1
    = (w1, Raise (HTTPException 400 (Detail "Ad must be active to topup"))).
Proof.
  intros bob w1.
  assert (Hfind : find_one bson_eq {[ "ad_id" := VStr "ad_4" ]} (ads (db sample_world))
                  = Some ad_sofa) by reflexivity.
  assert (Howner : ad_sofa !! "user_id" = Some (VStr "user_bob")) by reflexivity.
  assert (Hbob : require_auth bson_eq bob 100 sample_world
                 = (sample_world, Return user_bob)) by reflexivity.
  assert (Huid : user_bob !! "user_id" = Some (VStr "user_bob")) by reflexivity.
  split; [reflexivity|].
  destruct (post_ad_payment_suspends_topup bson_eq post_ad_json_loads sample_world
              post_ad_delivery bob 500 500 100 (300 * minute) (300 * minute)
              _ _ {[ "ad_id" := VStr "ad_4"; "payment_type" := VStr "post_ad" ]}
              ad_sofa user_bob "ad_4" _ _
              eq_refl eq_refl eq_refl eq_refl eq_refl eq_refl Hfind Howner Hbob Huid eq_refl)
    as (Hst & _ & Htopup).
  split; [exact Hst|exact Htopup].
Defined.

(** Order 77 reads [pending]; after the boost delivery anyone can read
    that it is completed; after the delivery with the blob ["[]"] it still
    reads [pending]. *)
Lemma verify_payment_after_webhook_example :
  let w1 := (payment_webhook bson_eq sample_json_loads boost_delivery 500 500
               sample_world).1 in
  let w2 := (payment_webhook bson_eq sample_json_loads lost_delivery 500 500
               sample_world).1 in
  verify_payment bson_eq 77 sample_world
    = (sample_world, Return (VDict {[ "order_code" := VNum 77;
                                      "status" := VStr "pending";
                                      "payment_type" := VStr "boost";
                                      "ad_id" := VStr "ad_1" ]})) ∧
  verify_payment bson_eq 77 w1
    = (w1, Return (VDict {[ "order_code" := VNum 77;
                            "status" := VStr "completed";
                            "payment_type" := VStr "boost";
                            "ad_id" := VStr "ad_1" ]})) ∧
  verify_payment bson_eq 77 w2
    = (w2, Return (VDict {[ "order_code" := VNum 77;
                            "status" := VStr "pending";
                            "payment_type" := VStr "boost";
                            "ad_id" := VStr "ad_1" ]})).
Proof.
  intros w1 w2.
  assert (Hfind : find_one bson_eq {[ "order_code" := VNum 77 ]} (payments (db sample_world))
                  = Some payment_boost) by reflexivity.
  assert (Hne : payment_boost ≠ ∅)
    by (apply (doc_nonempty _ "order_code" (VNum 77)); reflexivity).
  split; [reflexivity|]. split.
  - apply (verify_payment_after_webhook bson_eq sample_json_loads sample_world boost_delivery
             500 500 _ _ payment_boost 77 eq_refl eq_refl eq_refl eq_refl Hfind).
    exists {[ "ad_id" := VStr "ad_1"; "payment_type" := VStr "boost" ]}. reflexivity.
  - assert (Hl : load_trns_data sample_json_loads
                   (py_get_default ({[ "TransactionId" := VStr "tx_4";
                                       "OrderCode" := VNum 77;
                                       "StatusId" := VStr "F";
                                       "MerchantTrns" := VStr "[]" ]} : doc)
                      "MerchantTrns" (VStr "{}")) = VList []) by reflexivity.
    destruct (proj2 (verify_payment_after_webhook bson_eq sample_json_loads sample_world
                       lost_delivery 500 500 _ _ payment_boost 77
                       eq_refl eq_refl eq_refl eq_refl Hfind)) as (_ & _ & Hverify).
    { intros trns Htrns. rewrite Hl in Htrns. clear -Htrns. congruence. }
    fold w2 in Hverify. rewrite Hverify, (bool_decide_eq_false_2 _ Hne). reflexivity.
Defined.

(** The boost delivery arrives at 500 and again at 900: the boost runs for
    one day from 900, as if only the second had arrived. *)
Lemma payment_webhook_redelivery_example :
  let w1 := (payment_webhook bson_eq sample_json_loads boost_delivery 500 500
               sample_world).1 in
  let w2 := (payment_webhook bson_eq sample_json_loads boost_delivery 900 900 w1).1 in
  db w2 = db (payment_webhook bson_eq sample_json_loads boost_delivery 900 900
                sample_world).1 ∧
  stored_field bson_eq "ad_1" "boost_expires_at" w2 = Some (VTime (900 + timedelta_days 1)).
Proof.
  intros w1 w2.
  pose proof (payment_webhook_redelivery bson_eq sample_json_loads sample_world boost_delivery
                500 500 900 900 _ _
                {[ "ad_id" := VStr "ad_1"; "payment_type" := VStr "boost" ]}
                eq_refl eq_refl eq_refl eq_refl) as Hdb.
  split; [exact Hdb|].
  unfold stored_field. fold w1 w2 in Hdb. rewrite Hdb. reflexivity.
Defined.

(** A visit with Eve's referral code counts once for Eve; a visit with an
    unknown code counts for no one. *)
Lemma track_referral_effect_example :
  let visit := {| cookies := ∅; headers := ∅;
                  json := VDict {[ "ref_code" := VStr "ref_eve" ]} |} in
  let stray := {| cookies := ∅; headers := ∅;
                  json := VDict {[ "ref_code" := VStr "ref_zed" ]} |} in
  let out := track_referral bson_eq visit referral_world in
  track_referral bson_eq stray referral_world
    = (referral_world, Return (VDict {[ "tracked" := VBool false ]})) ∧
  out.2 = Return (VDict {[ "tracked" := VBool true; "referrer_id" := VStr "user_eve" ]}) ∧
  ∃ eve', find_one bson_eq {[ "referral_code" := VStr "ref_eve" ]} (users (db out.1))
            = Some eve' ∧
          eve' !! "referral_count" = Some (VNum 1) ∧
          eve' !! "email" = Some (VStr "eve@example.ro").
Proof.
  intros visit stray out.
  destruct (track_referral_effect bson_eq referral_world stray
              {[ "ref_code" := VStr "ref_zed" ]} eq_refl) as [Hnone _].
  destruct (track_referral_effect bson_eq referral_world visit
              {[ "ref_code" := VStr "ref_eve" ]} eq_refl) as [_ Hfound].
  split; [apply Hnone; right; reflexivity|].
  destruct (Hfound user_eve (VStr "user_eve") 0 eq_refl eq_refl eq_refl
              (or_intror (conj eq_refl eq_refl)))
    as (Hret & _ & _ & eve' & Hfind & Hcount & Hkeep).
  split; [exact Hret|].
  exists eve'. split; [exact Hfind|]. split; [exact Hcount|].
  rewrite Hkeep by (clear; congruence). reflexivity.
Defined.

(** Eve's rug was topped up at time 0.  Fifty minutes later her top-up is
    refused (ten minutes to wait); after one visit with her code it
    succeeds. *)
Lemma referral_shortens_cooldown_example :
  let visit := {| cookies := ∅; headers := ∅;
                  json := VDict {[ "ref_code" := VStr "ref_eve" ]} |} in
  let eve := bearer "tok_eve" VNone in
  let w1 := (track_referral bson_eq visit referral_world).1 in
  require_auth bson_eq eve 100 referral_world = (referral_world, Return user_eve) ∧
  topup_ad bson_eq "ad_5" eve 100 (50 * minute) (50 * minute) referral_world
    = (referral_world, Raise (HTTPException 400 (DetailTopupWait 10))) ∧
  topup_ad bson_eq "ad_5" eve 100 (50 * minute) (50 * minute) w1
    = (topped_up bson_eq "ad_5" (50 * minute) w1,
       Return (VDict {[ "message" := VStr "TopUp successful";
                        "next_topup_available_in" := VNum 40 ]})).
Proof.
  intros visit eve w1.
  assert (Hauth : require_auth bson_eq eve 100 referral_world
                  = (referral_world, Return user_eve)) by reflexivity.
  assert (Hfind : find_one bson_eq {[ "ad_id" := VStr "ad_5" ]} (ads (db referral_world))
                  = Some ad_rug) by reflexivity.
  assert (Hwin : 40 * minute ≤ 50 * minute - 0 < 60 * minute) by (unfold minute; lia).
  destruct (referral_shortens_cooldown bson_eq referral_world visit eve "ad_5"
              100 (50 * minute) (50 * minute) 0 {[ "ref_code" := VStr "ref_eve" ]}
              user_eve ad_rug (VStr "user_eve") (VStr "user_eve")
              eq_refl eq_refl eq_refl Hauth eq_refl (or_intror (conj eq_refl eq_refl))
              Hfind eq_refl eq_refl eq_refl eq_refl Hwin) as [Hbefore Hafter].
  split; [exact Hauth|]. split; [exact Hbefore|exact Hafter].
Defined.

(** Ana already has Bob's desk among her favorites, and has no favorite
    for the sofa to remove; there is no ad 9. *)
Lemma favorite_refusals_example :
  let ana := bearer "tok_ana" VNone in
  add_favorite bson_eq "ad_9" ana "0123456789ab" 100 100 sample_world
    = (sample_world, Raise (HTTPException 404 (Detail "Ad not found"))) ∧
  add_favorite bson_eq "ad_2" ana "0123456789ab" 100 100 sample_world
    = (sample_world, Raise (HTTPException 400 (Detail "Already in favorites"))) ∧
  remove_favorite bson_eq "ad_4" ana 100 sample_world
    = (sample_world, Raise (HTTPException 404 (Detail "Favorite not found"))).
Proof.
  intros ana.
  assert (Hauth : require_auth bson_eq ana 100 sample_world = (sample_world, Return user_ana))
    by reflexivity.
  assert (Huid : user_ana !! "user_id" = Some (VStr "user_ana")) by reflexivity.
  split; [|split].
  - apply (favorite_refusals bson_eq sample_world ana "ad_9" "0123456789ab" 100 100
             user_ana _ Hauth Huid). reflexivity.
  - apply (proj1 (proj2 (favorite_refusals bson_eq sample_world ana "ad_2" "0123456789ab"
                           100 100 user_ana _ Hauth Huid))
             ad_desk {[ "user_id" := VStr "user_ana"; "ad_id" := VStr "ad_2" ]});
      [reflexivity| |reflexivity].
    apply (doc_nonempty _ "ad_id" (VStr "ad_2")). reflexivity.
  - apply (favorite_refusals bson_eq sample_world ana "ad_4" "0123456789ab" 100 100
             user_ana _ Hauth Huid). reflexivity.
Defined.

(** Eve marks her own rug (four favorites so far) and unmarks it: the
    state is as before.  Bob does the same with Ana's bike, which had no
    counter: the bike keeps a counter at 0. *)
Lemma add_then_remove_favorite_example :
  let eve := bearer "tok_eve" VNone in
  let bob := bearer "tok_bob" VNone in
  let added := add_favorite bson_eq "ad_5" eve "0123456789ab" 100 100 referral_world in
  let removed := remove_favorite bson_eq "ad_5" eve 100 added.1 in
  let added' := add_favorite bson_eq "ad_1" bob "0123456789ab" 100 100 sample_world in
  let removed' := remove_favorite bson_eq "ad_1" bob 100 added'.1 in
  stored_field bson_eq "ad_5" "favorites_count" added.1 = Some (VNum 5) ∧
  check_favorite bson_eq "ad_5" eve 100 added.1
    = (added.1, Return (VDict {[ "is_favorite" := VBool true ]})) ∧
  removed.1 = referral_world ∧
  favorites (db removed'.1) = favorites (db sample_world) ∧
  stored_field bson_eq "ad_1" "favorites_count" removed'.1 = Some (VNum 0).
Proof.
  intros eve bob added removed added' removed'.
  assert (He : require_auth bson_eq eve 100 referral_world = (referral_world, Return user_eve))
    by reflexivity.
  assert (Hb : require_auth bson_eq bob 100 sample_world = (sample_world, Return user_bob))
    by reflexivity.
  assert (Hrug : find_one bson_eq {[ "ad_id" := VStr "ad_5" ]} (ads (db referral_world))
                 = Some ad_rug) by reflexivity.
  assert (Hbike : find_one bson_eq {[ "ad_id" := VStr "ad_1" ]} (ads (db sample_world))
                  = Some ad_bike) by reflexivity.
  assert (Hcount : ad_rug !! "favorites_count" = Some (VNum 4)) by reflexivity.
  destruct (add_then_remove_favorite bson_eq referral_world eve "ad_5" "0123456789ab"
              100 100 user_eve ad_rug (VStr "user_eve") 4
              (bson_eq_str _) (bson_eq_str _) He eq_refl Hrug
              (doc_nonempty ad_rug "ad_id" (VStr "ad_5") eq_refl) eq_refl (or_introl Hcount))
    as (_ & Hcheck & Hup & _ & _ & _ & _ & Hback).
  destruct (add_then_remove_favorite bson_eq sample_world bob "ad_1" "0123456789ab"
              100 100 user_bob ad_bike (VStr "user_bob") 0
              (bson_eq_str _) (bson_eq_str _) Hb eq_refl Hbike
              (doc_nonempty ad_bike "ad_id" (VStr "ad_1") eq_refl) eq_refl
              (or_intror (conj eq_refl eq_refl)))
    as (_ & _ & _ & _ & Hfavs & _ & Hzero & _).
  split; [exact Hup|]. split; [exact Hcheck|]. split; [exact (Hback Hcount)|].
  split; [exact Hfavs|exact Hzero].
Defined.

(** Two ads are in category [auto] and one ad is in [cluj]: neither can
    be deleted.  No ad is in [books] or in [arad]: the first [books] entry
    goes and the second stays, and [arad] goes. *)
Lemma admin_delete_taxonomy_guard_example :
  let root := bearer "tok_root" VNone in
  require_admin bson_eq root 100 taxonomy_world = (taxonomy_world, Return user_root) ∧
  admin_delete_category bson_eq "auto" root 100 taxonomy_world
    = (taxonomy_world, Raise (HTTPException 400
         (Detail "Cannot delete: 2 ads use this category"))) ∧
  admin_delete_city bson_eq "cluj" root 100 taxonomy_world
    = (taxonomy_world, Raise (HTTPException 400
         (Detail "Cannot delete: 1 ads use this city"))) ∧
  (admin_delete_category bson_eq "books" root 100 taxonomy_world).2
    = Return (VDict {[ "message" := VStr "Category deleted" ]}) ∧
  managed_categories (db (admin_delete_category bson_eq "books" root 100 taxonomy_world).1)
    = [managed "auto" "Auto"; managed "books" "Books (second entry)"] ∧
  managed_cities (db (admin_delete_city bson_eq "arad" root 100 taxonomy_world).1)
    = [managed "cluj" "Cluj-Napoca"; managed "iasi" "Iasi"] ∧
  managed_categories (db (admin_delete_category bson_eq "toys" root 100 taxonomy_world).1)
    = managed_categories (db taxonomy_world).
Proof.
  intros root.
  assert (H1 : require_admin bson_eq root 100 taxonomy_world
               = (taxonomy_world, Return user_root)) by reflexivity.
  destruct (admin_delete_taxonomy_guard bson_eq taxonomy_world root 100 user_root H1)
    as [Hcat Hcity].
  split; [exact H1|]. split.
  { apply (proj1 (Hcat "auto") ad_car). reflexivity. }
  split.
  { apply (proj1 (Hcity "cluj") ad_car). reflexivity. }
  destruct (proj2 (Hcat "books") eq_refl) as (Hret & Hdel & _).
  destruct (proj2 (Hcity "arad") eq_refl) as (_ & Hdel' & _).
  destruct (proj2 (Hcat "toys") eq_refl) as (_ & _ & _ & Hmissing & _).
  split; [exact Hret|]. split; [rewrite Hdel; reflexivity|].
  split; [rewrite Hdel'; reflexivity|].
  apply Hmissing. reflexivity.
Defined.

(** Forty-one ads at twenty per page make three pages. *)
Lemma pages_is_ceiling_example :
  pages 41 20 = mret 3 ∧ pages 41 0 = raise (Uncaught "ZeroDivisionError").
Proof.
  destruct (pages_is_ceiling 41 20 ltac:(lia)) as [Hpos _].
  destruct (pages_is_ceiling 41 0 ltac:(lia)) as [_ Hzero].
  destruct (Hpos ltac:(lia)) as (p & Hp & Hle & Hlt & _).
  split; [|exact (Hzero eq_refl)].
  assert (p = 3) as -> by lia. exact Hp.
Defined.
